(** * alulapy: token lifecycle, request pipeline and zone reconciliation

    A shallow embedding of [alulapy/const.py], [alulapy/exceptions.py],
    [alulapy/models.py] and [alulapy/client.py], followed by the properties
    of the client that the library's specification states.

    Conventions of the embedding:
    - a Python value that flows through the client is a decoded JSON value
      ([json]); [JNull] is Python's [None];
    - a Python [str] is a [string] holding its UTF-8 encoding; what the
      interpreter knows of a character (is it a digit, what is its decimal
      value) is read from a [Unicode] database;
    - [time.time()] returns a rational number of seconds (the rounding of
      floats is not modelled, the OverflowError of an int that does not
      convert to a float is);
    - a coroutine is a state transformer over the client object, the outside
      world (clock, uuid source, aiohttp session) and the history of what
      the client did to it; one task runs at a time, so [asyncio.Lock] is
      the identity. *)

From Stdlib Require Import String Ascii List ZArith QArith Lia Lqa DecimalString.
From stdpp Require Import gmap strings.
Import ListNotations.

Set Warnings "-register-all".
Open Scope string_scope.
Open Scope Z_scope.

(* ================================================================== *)
(** * Python values, exceptions and results                            *)
(* ================================================================== *)

Inductive json : Type :=
| JNull
| JBool (b : bool)
| JInt (n : Z)
| JFloat (q : Q)
| JStr (s : string)
| JArr (l : list json)
| JObj (o : list (string * json)).

(** [d[k]] lookup in a decoded object, first binding of the key. *)
Fixpoint dict_get (k : string) (d : list (string * json)) : option json :=
  match d with
  | [] => None
  | (k', v) :: rest => if String.eqb k k' then Some v else dict_get k rest
  end.

(** [d.get(k, dflt)] and [d.get(k)] on a dict. *)
Definition get_or (k : string) (dflt : json) (d : list (string * json)) : json :=
  match dict_get k d with Some v => v | None => dflt end.

Definition get (k : string) (d : list (string * json)) : json := get_or k JNull d.

(** Python truth value of a decoded JSON value. *)
Definition truthy (v : json) : bool :=
  match v with
  | JNull => false
  | JBool b => b
  | JInt n => negb (n =? 0)
  | JFloat q => negb (Qeq_bool q 0)
  | JStr s => negb (String.eqb s "")
  | JArr l => match l with [] => false | _ => true end
  | JObj o => match o with [] => false | _ => true end
  end.

(** [a or b]. *)
Definition py_or (a b : json) : json := if truthy a then a else b.

(** [v == n] for a Python int [n]: numbers compare by value across
    [bool], [int] and [float]; every other type differs from an int. *)
Definition eq_int (v : json) (n : Z) : bool :=
  match v with
  | JBool b => (if b then 1 else 0) =? n
  | JInt m => m =? n
  | JFloat q => Qeq_bool q (inject_Z n)
  | _ => false
  end.

(** [v == s] for a Python str [s]. *)
Definition eq_str (v : json) (s : string) : bool :=
  match v with
  | JStr s' => String.eqb s' s
  | _ => false
  end.

(** [str(n)] for an int. *)
Definition str_int (n : Z) : string := NilZero.string_of_int (Z.to_int n).

(** The pieces of a formatted message.  [StrOf v] stands for [str(v)] of a
    value whose rendering is not spelled out (floats, lists, dicts). *)
Inductive piece : Type :=
| Lit (s : string)
| StrOf (v : json).

Definition message : Type := list piece.

Definition text (s : string) : message := [Lit s].
Coercion text : string >-> message.

(** [str(v)] as one piece of a message. *)
Definition show (v : json) : piece :=
  match v with
  | JStr s => Lit s
  | JNull => Lit "None"
  | JBool true => Lit "True"
  | JBool false => Lit "False"
  | JInt n => Lit (str_int n)
  | _ => StrOf v
  end.

(** exceptions.py, and the foreign exceptions the client meets.
    [AlulaConnectionError prefix cause] has the message [prefix] followed by
    [str(cause)], and [cause] as its [__cause__].  [ClientError] is
    [aiohttp.ClientError] with any subclass the transport raises;
    [ClientResponseError] is the subclass [raise_for_status] raises.
    [OtherError cls] is any other subclass of [Exception], by name;
    [BaseException cls] is a class that derives from [BaseException] and not
    from [Exception]: [asyncio.CancelledError], [KeyboardInterrupt],
    [SystemExit], [GeneratorExit]. *)
Inductive exn : Type :=
| AlulaAuthError (msg : message)
| AlulaApiError (msg : message) (status_code : json)
| AlulaConnectionError (prefix : string) (cause : exn)
| ClientError (text : string)
| ClientResponseError (status : Z)
| AttributeError
| TypeError
| KeyError
| ValueError
| IndexError
| OverflowError
| OtherError (cls : string)
| BaseException (cls : string).

(** [isinstance(e, Exception)]. *)
Definition is_Exception (e : exn) : bool :=
  match e with
  | BaseException _ => false
  | _ => true
  end.

(** [isinstance(e, aiohttp.ClientError)]. *)
Definition is_ClientError (e : exn) : bool :=
  match e with
  | ClientError _ | ClientResponseError _ => true
  | _ => false
  end.

Definition is_AlulaAuthError (e : exn) : bool :=
  match e with AlulaAuthError _ => true | _ => false end.

Definition is_AlulaApiError (e : exn) : bool :=
  match e with AlulaApiError _ _ => true | _ => false end.

Definition is_AlulaConnectionError (e : exn) : bool :=
  match e with AlulaConnectionError _ _ => true | _ => false end.

Inductive result (A : Type) : Type :=
| Ok (a : A)
| Raise (e : exn).
Arguments Ok {A} a.
Arguments Raise {A} e.

Definition is_ok {A} (r : result A) : bool :=
  match r with Ok _ => true | Raise _ => false end.

Definition rbind {A B} (r : result A) (k : A -> result B) : result B :=
  match r with
  | Ok a => k a
  | Raise e => Raise e
  end.

Notation "'let*' x ':=' c 'in' k" := (rbind c (fun x => k))
  (at level 10, x name, c at level 100, k at level 200).

(** [v.get(k, dflt)] on any value: only a dict has [.get]. *)
Definition py_get (v : json) (k : string) (dflt : json) : result json :=
  match v with
  | JObj d => Ok (get_or k dflt d)
  | _ => Raise AttributeError
  end.

(** ** Text

    A [str] is held as its UTF-8 encoding: a character is a lead byte
    followed by its continuation bytes (bytes that are no UTF-8 encode no
    [str]; the functions below are total on them all the same). *)

Definition is_continuation (b : N) : bool := ((128 <=? b) && (b <? 192))%N.

(** What the lead byte of a character contributes to its code point. *)
Definition lead_value (b : N) : N :=
  (if b <? 128 then b
   else if b <? 224 then b - 192
   else if b <? 240 then b - 224
   else b - 240)%N.

Fixpoint code_points_from (current : N) (s : string) : list N :=
  match s with
  | EmptyString => [current]
  | String c rest =>
      if is_continuation (N_of_ascii c)
      then code_points_from (current * 64 + (N_of_ascii c - 128))%N rest
      else current :: code_points_from (lead_value (N_of_ascii c)) rest
  end.

(** The code points of a [str], in order. *)
Definition code_points (s : string) : list N :=
  match s with
  | EmptyString => []
  | String c rest => code_points_from (lead_value (N_of_ascii c)) rest
  end.

Fixpoint chars_from (current : string) (s : string) : list string :=
  match s with
  | EmptyString => [current]
  | String c rest =>
      if is_continuation (N_of_ascii c)
      then chars_from (current +:+ String c EmptyString) rest
      else current :: chars_from (String c EmptyString) rest
  end.

(** The characters of a [str], each as a [str] of length one. *)
Definition chars (s : string) : list string :=
  match s with
  | EmptyString => []
  | String c rest => chars_from (String c EmptyString) rest
  end.

(** The Unicode character database of the interpreter: [to_digit c] is
    [unicodedata.digit(chr(c))] and [to_decimal c] is
    [unicodedata.decimal(chr(c))], [None] where those raise.  The laws hold
    in every version of the database: a decimal digit is a digit with the
    same value, between 0 and 9, and below 128 the digits and the decimal
    digits are the ten characters from "0" to "9". *)
Class Unicode : Type := {
  to_digit : N -> option Z;
  to_decimal : N -> option Z;
  decimal_is_digit : forall c d, to_decimal c = Some d -> to_digit c = Some d;
  decimal_bounds : forall c d, to_decimal c = Some d -> 0 <= d <= 9;
  ascii_digit : forall c, (c < 128)%N ->
    to_digit c = if ((48 <=? c) && (c <=? 57))%N then Some (Z.of_N c - 48) else None;
  ascii_decimal : forall c, (c < 128)%N ->
    to_decimal c = if ((48 <=? c) && (c <=? 57))%N then Some (Z.of_N c - 48) else None
}.

(** [v[0]]. *)
Definition subscript0 (v : json) : result json :=
  match v with
  | JArr (x :: _) => Ok x
  | JArr [] => Raise IndexError
  | JStr s => match chars s with
              | c :: _ => Ok (JStr c)
              | [] => Raise IndexError
              end
  | JObj _ => Raise KeyError
  | _ => Raise TypeError
  end.

(** [v.startswith(p)]. *)
Definition startswith (v : json) (p : string) : result bool :=
  match v with
  | JStr s => Ok (String.prefix p s)
  | _ => Raise AttributeError
  end.

(** [c.isdigit()] for one character. *)
Definition char_isdigit `{Unicode} (c : N) : bool :=
  match to_digit c with Some _ => true | None => false end.

(** [s.isdigit()]: at least one character and every character a digit. *)
Definition str_isdigit `{Unicode} (s : string) : bool :=
  negb (String.eqb s "") && forallb char_isdigit (code_points s).

(** [v.isdigit()]. *)
Definition isdigit `{Unicode} (v : json) : result bool :=
  match v with
  | JStr s => Ok (str_isdigit s)
  | _ => Raise AttributeError
  end.

(** The decimal values of the characters, when each of them has one. *)
Fixpoint decimals `{Unicode} (cs : list N) : option (list Z) :=
  match cs with
  | [] => Some []
  | c :: rest =>
      match to_decimal c, decimals rest with
      | Some d, Some ds => Some (d :: ds)
      | _, _ => None
      end
  end.

Fixpoint decimal_value (acc : Z) (ds : list Z) : Z :=
  match ds with
  | [] => acc
  | d :: rest => decimal_value (10 * acc + d) rest
  end.

(** [int(s)] on a string that passed [isdigit()]: it decodes when every
    character is a decimal digit, which the superscript digits are not, and
    CPython refuses more than 4300 digits. *)
Definition py_int `{Unicode} (s : string) : result Z :=
  match decimals (code_points s) with
  | Some ds =>
      if negb (String.eqb s "") && (Z.of_nat (length ds) <=? 4300)
      then Ok (decimal_value 0 ds)
      else Raise ValueError
  | None => Raise ValueError
  end.

(** The items a [for] loop sees when it iterates over a decoded value. *)
Definition py_iter (v : json) : result (list json) :=
  match v with
  | JArr l => Ok l
  | JObj o => Ok (map (fun kv => JStr (fst kv)) o)
  | JStr s => Ok (map JStr (chars s))
  | _ => Raise TypeError
  end.

(* ================================================================== *)
(** * const.py                                                         *)
(* ================================================================== *)

Definition API_BASE_URL : string := "https://api.alula.net".
Definition COVE_CLIENT_ID : string := "30d6c020-8b9d-11ed-a23f-9d00c9041c6e".
Definition COVE_CLIENT_SECRET : string :=
  "a867fb60cbe5803a54bc2bd03b30031c30bc8088d11de59daa36669661d7b2bb".
Definition TOKEN_EXPIRES_IN_DEFAULT : Z := 900.
Definition TOKEN_REFRESH_BUFFER : Z := 180.
Definition DEFAULT_PAGE_SIZE : Z := 200.
Definition USER_AGENT : string := "alulapy/0.1.0".

Module ArmingState.
Inductive t : Type := DISARMED | ARMED_STAY | ARMED_AWAY | ARMED_NIGHT | UNKNOWN.

Definition value (a : t) : string :=
  match a with
  | DISARMED => "disarm"
  | ARMED_STAY => "armstay"
  | ARMED_AWAY => "armaway"
  | ARMED_NIGHT => "armnight"
  | UNKNOWN => "unknown"
  end.

Definition members : list t := [DISARMED; ARMED_STAY; ARMED_AWAY; ARMED_NIGHT; UNKNOWN].

Definition eqb (a b : t) : bool := String.eqb (value a) (value b).

(** [ArmingState(v)]: the member whose value equals [v], else ValueError. *)
Definition of_value (v : json) : result t :=
  match List.find (fun a => eq_str v (value a)) members with
  | Some a => Ok a
  | None => Raise ValueError
  end.
End ArmingState.

Module DeviceType.
Inductive t : Type := PANEL | CAMERA | UNKNOWN.

Definition value (a : t) : string :=
  match a with
  | PANEL => "panel"
  | CAMERA => "camera"
  | UNKNOWN => "unknown"
  end.

Definition eqb (a b : t) : bool := String.eqb (value a) (value b).
End DeviceType.

(* ================================================================== *)
(** * models.py                                                        *)
(* ================================================================== *)

Record TokenInfo : Type := {
  ti_access_token : json;
  ti_refresh_token : json;
  ti_expires_in : json;
  ti_token_type : json;
  ti_scope : json
}.

(** A dataclass stores whatever the decoder found, so every field that is
    read from the response is a [json]. *)
Record Device : Type := {
  id : json;
  name : json;
  serial_number : json;
  mac_address : json;
  device_type : DeviceType.t;
  connected_panel_type : json;
  timezone : json;
  online : json;
  online_timestamp : json;
  arming_state : ArmingState.t;
  last_armed_at : json;
  last_disarmed_at : json;
  any_trouble : json;
  ac_failure : json;
  low_battery : json;
  server_comm_fail : json;
  cs_comm_fail : json;
  low_battery_zones : json;
  tamper_zones : json;
  alarm_zones : json;
  trouble_zones : json;
  fire_trouble : json;
  arming_protest : json;
  features : json;
  raw : json
}.

Definition is_panel (d : Device) : bool :=
  DeviceType.eqb (device_type d) DeviceType.PANEL.

Definition is_camera (d : Device) : bool :=
  DeviceType.eqb (device_type d) DeviceType.CAMERA.

Definition is_armed (d : Device) : bool :=
  existsb (ArmingState.eqb (arming_state d))
    [ArmingState.ARMED_STAY; ArmingState.ARMED_AWAY; ArmingState.ARMED_NIGHT].

(** The [if/elif/else] on [isPanel] and [isCamera]. *)
Definition determine_device_type (attrs : list (string * json)) : DeviceType.t :=
  if truthy (get "isPanel" attrs) then DeviceType.PANEL
  else if truthy (get "isCamera" attrs) then DeviceType.CAMERA
  else DeviceType.UNKNOWN.

(** The [try: ... except ValueError:] around the arming level. *)
Definition parse_arming_state (attrs : list (string * json)) : result ArmingState.t :=
  let raw_arming := get "armingLevel" attrs in
  match (if truthy raw_arming then ArmingState.of_value raw_arming
         else Ok ArmingState.UNKNOWN) with
  | Ok a => Ok a
  | Raise ValueError => Ok ArmingState.UNKNOWN
  | Raise e => Raise e
  end.

Module Device_.
(** [Device.from_api].  [data.get] needs [data] to be a dict and
    [attrs.get] needs [attrs] to be one; the first call on a value that is
    not a dict raises AttributeError. *)
Definition from_api (data : json) : result Device :=
  let* attrs := py_get data "attributes" (JObj []) in
  match data, attrs with
  | JObj data_, JObj attrs_ =>
      let device_type := determine_device_type attrs_ in
      let* arming_state := parse_arming_state attrs_ in
      Ok {| id := get_or "id" (JStr "") data_;
            name := get_or "friendlyName" (JStr "Unknown Device") attrs_;
            serial_number := get_or "sn" (JStr "") attrs_;
            mac_address := get "mac" attrs_;
            device_type := device_type;
            connected_panel_type := get "connectedPanel" attrs_;
            timezone := get_or "timezone" (JStr "UTC") attrs_;
            online := get_or "onlineStatus" (JBool false) attrs_;
            online_timestamp := get "onlineStatusTimestamp" attrs_;
            arming_state := arming_state;
            last_armed_at := get "lastArmedAt" attrs_;
            last_disarmed_at := get "lastDisarmedAt" attrs_;
            any_trouble := get_or "anyTrouble" (JBool false) attrs_;
            ac_failure := get_or "acFailure" (JBool false) attrs_;
            low_battery := get_or "lowBattery" (JBool false) attrs_;
            server_comm_fail := get_or "serverCommFail" (JBool false) attrs_;
            cs_comm_fail := get_or "csCommFail" (JBool false) attrs_;
            low_battery_zones := get_or "lowBatteryZones" (JBool false) attrs_;
            tamper_zones := get_or "tamperZones" (JBool false) attrs_;
            alarm_zones := get_or "alarmZones" (JBool false) attrs_;
            trouble_zones := get_or "troubleZones" (JBool false) attrs_;
            fire_trouble := get_or "fireTrouble" (JBool false) attrs_;
            arming_protest := get_or "armingProtest" (JBool false) attrs_;
            features := get_or "featuresSelected" (JObj []) attrs_;
            raw := data |}
  | _, _ => Raise AttributeError
  end.
End Device_.

Record ZoneStatus : Type := {
  zs_name : json;
  is_active : json
}.

Module ZoneStatus_.
Definition from_api (data : json) : result ZoneStatus :=
  let* name := py_get data "name" (JStr "unknown") in
  let* on := py_get data "on" (JBool false) in
  Ok {| zs_name := name; is_active := on |}.
End ZoneStatus_.

Record Zone : Type := {
  z_id : json;
  z_device_id : json;
  zone_index : json;
  status : ZoneStatus;
  push_enabled : json;
  zone_name : json;
  device_type_hint : json;
  z_raw : json
}.

Definition is_open (z : Zone) : json := is_active (status z).

Module Zone_.
(** [Zone.from_api(data, device_id)]. *)
Definition from_api (data : json) (device_id : json) : result Zone :=
  let* attrs := py_get data "attributes" (JObj []) in
  match data, attrs with
  | JObj data_, JObj attrs_ =>
      (* zone name: direct attribute, else the notification template *)
      let zone_name0 := py_or (get "zoneName" attrs_) (get "friendlyName" attrs_) in
      let* zone_name :=
        if truthy zone_name0 then Ok zone_name0
        else
          let* body_args := py_get (get_or "pushOptions" (JObj []) attrs_)
                                   "bodyArgs" (JArr []) in
          if truthy body_args then
            let* candidate := subscript0 body_args in
            let* braced := startswith candidate "{" in
            Ok (if braced then zone_name0 else candidate)
          else Ok zone_name0 in
      (* device type hint *)
      let hint0 := py_or (get "zoneType" attrs_) (get "deviceType" attrs_) in
      let* hint1 :=
        if truthy hint0 then Ok hint0
        else
          let* push_data := py_get (get_or "pushOptions" (JObj []) attrs_)
                                   "data" (JObj []) in
          py_get push_data "deviceType" JNull in
      let hint :=
        match hint1 with
        | JStr s => if String.prefix "{" s then JNull else hint1
        | _ => hint1
        end in
      let* status := ZoneStatus_.from_api (get_or "zoneStatus" (JObj []) attrs_) in
      Ok {| z_id := get_or "id" (JStr "") data_;
            z_device_id :=
              py_or (py_or (get_or "deviceId" (JStr "") attrs_) device_id) (JStr "");
            zone_index := get_or "zoneIndex" (JInt 0) attrs_;
            status := status;
            push_enabled := get_or "pushEnabled" (JBool false) attrs_;
            zone_name := zone_name;
            device_type_hint := hint;
            z_raw := data |}
  | _, _ => Raise AttributeError
  end.
End Zone_.

(* ================================================================== *)
(** * The outside world and the coroutine monad                        *)
(* ================================================================== *)

(** In-place [d[k] = v] on an insertion-ordered dict. *)
Fixpoint dict_set {V : Type} (k : string) (v : V) (d : list (string * V)) : list (string * V) :=
  match d with
  | [] => [(k, v)]
  | (k', v') :: rest =>
      if String.eqb k k' then (k, v) :: rest else (k', v') :: dict_set k v rest
  end.

(** [{**d, **kwargs}]. *)
Definition dict_update {V : Type} (d kwargs : list (string * V)) : list (string * V) :=
  fold_left (fun acc kv => dict_set (fst kv) (snd kv) acc) kwargs d.

(** What the client asks of the aiohttp session. *)
Inductive http_call : Type :=
| SessionPost (url : string) (data : list (string * json))
              (headers : list (string * message))
| SessionRequest (method url : string) (headers : list (string * message))
                 (json_data params : json).

(** A response: its [status], and what [await resp.json()] does (the decoded
    body, or the exception it raises). *)
Record response : Type := {
  resp_status : Z;
  resp_json : result json
}.

Inductive outcome : Type :=
| Responds (r : response)
| Throws (e : exn).

(** The environment of a client: the clock, the uuid source and the
    session the caller passed to [__init__]. *)
Class World (W : Type) : Type := {
  time_time : W -> Q * W;
  uuid_uuid4 : W -> string * W;
  session_send : http_call -> W -> outcome * W
}.

Inductive logarg : Type :=
| LVal (v : json)
| LExn (e : exn).

(** What a run leaves behind: the calls made on the session with their
    outcomes, and the records handed to [_LOGGER.debug]. *)
Inductive event : Type :=
| Http (c : http_call) (o : outcome)
| LogDebug (fmt : string) (args : list logarg).

Record AlulaClient : Type := {
  _client_id : string;
  _client_secret : string;
  _base_url : string;
  _oauth_url : string;
  _access_token : json;
  _refresh_token : json;
  _token_expiry : Q;
  _user_id : json
}.

Record state (W : Type) : Type := {
  self : AlulaClient;
  world : W;
  history : list event
}.
Arguments self {W} s.
Arguments world {W} s.
Arguments history {W} s.

Definition M (W A : Type) : Type := state W -> result A * state W.

Definition ret {W A} (a : A) : M W A := fun s => (Ok a, s).

Definition raise {W A} (e : exn) : M W A := fun s => (Raise e, s).

Definition bind {W A B} (c : M W A) (k : A -> M W B) : M W B :=
  fun s => match c s with
           | (Ok a, s') => k a s'
           | (Raise e, s') => (Raise e, s')
           end.

Notation "x <- c ;; k" := (bind c (fun x => k))
  (at level 100, c at next level, right associativity).
Notation "c ;; k" := (bind c (fun _ => k))
  (at level 100, right associativity).

(** [try: c  except Exception as e: h e]; the handler re-raises what its
    [except] clauses do not match. *)
Definition try_except {W A} (c : M W A) (h : exn -> M W A) : M W A :=
  fun s => match c s with
           | (Ok a, s') => (Ok a, s')
           | (Raise e, s') => h e s'
           end.

Definition lift {W A} (r : result A) : M W A := fun s => (r, s).

Definition get_self {W} : M W AlulaClient := fun s => (Ok (self s), s).

Definition set_self {W} (f : AlulaClient -> AlulaClient) : M W unit :=
  fun s => (Ok tt, {| self := f (self s); world := world s; history := history s |}).

Definition emit {W} (ev : event) : M W unit :=
  fun s => (Ok tt, {| self := self s; world := world s; history := history s ++ [ev] |}).

(** [_LOGGER.debug(fmt, *args)]. *)
Definition debug {W} (fmt : string) (args : list logarg) : M W unit :=
  emit (LogDebug fmt args).

(** [time.time()]. *)
Definition now {W} `{World W} : M W Q :=
  fun s => let (t, w) := time_time (world s) in
           (Ok t, {| self := self s; world := w; history := history s |}).

(** [str(uuid.uuid4())]. *)
Definition uuid4 {W} `{World W} : M W string :=
  fun s => let (u, w) := uuid_uuid4 (world s) in
           (Ok u, {| self := self s; world := w; history := history s |}).

(** Entering [async with self._session.post(...)] or [.request(...)]: the
    session answers or raises. *)
Definition send {W} `{World W} (c : http_call) : M W response :=
  fun s => let (o, w) := session_send c (world s) in
           let s' := {| self := self s; world := w;
                        history := history s ++ [Http c o] |} in
           match o with
           | Responds r => (Ok r, s')
           | Throws e => (Raise e, s')
           end.

(** [resp.raise_for_status()]. *)
Definition raise_for_status {W} (resp : response) : M W unit :=
  if 400 <=? resp_status resp then raise (ClientResponseError (resp_status resp))
  else ret tt.

(* ================================================================== *)
(** * client.py                                                        *)
(* ================================================================== *)

(** [AlulaClient.__init__(session, client_id=..., client_secret=..., base_url=...)];
    the session is the [World]. *)
Definition __init__ (client_id client_secret base_url : string) : AlulaClient :=
  {| _client_id := client_id;
     _client_secret := client_secret;
     _base_url := base_url;
     _oauth_url := base_url +:+ "/oauth/token";
     _access_token := JNull;
     _refresh_token := JNull;
     _token_expiry := 0%Q;
     _user_id := JNull |}.

(** The properties [access_token], [refresh_token], [token_expiry]. *)
Definition access_token (c : AlulaClient) : json := _access_token c.
Definition refresh_token (c : AlulaClient) : json := _refresh_token c.
Definition token_expiry (c : AlulaClient) : Q := _token_expiry c.

Definition with_access_token (v : json) (c : AlulaClient) : AlulaClient :=
  {| _client_id := _client_id c; _client_secret := _client_secret c;
     _base_url := _base_url c; _oauth_url := _oauth_url c;
     _access_token := v; _refresh_token := _refresh_token c;
     _token_expiry := _token_expiry c; _user_id := _user_id c |}.

Definition with_refresh_token (v : json) (c : AlulaClient) : AlulaClient :=
  {| _client_id := _client_id c; _client_secret := _client_secret c;
     _base_url := _base_url c; _oauth_url := _oauth_url c;
     _access_token := _access_token c; _refresh_token := v;
     _token_expiry := _token_expiry c; _user_id := _user_id c |}.

Definition with_token_expiry (t : Q) (c : AlulaClient) : AlulaClient :=
  {| _client_id := _client_id c; _client_secret := _client_secret c;
     _base_url := _base_url c; _oauth_url := _oauth_url c;
     _access_token := _access_token c; _refresh_token := _refresh_token c;
     _token_expiry := t; _user_id := _user_id c |}.

(** [x < y] on timestamps. *)
Definition Qltb (x y : Q) : bool := negb (Qle_bool y x).

(** [d[k]] on any value. *)
Definition subscript (v : json) (k : string) : result json :=
  match v with
  | JObj d => match dict_get k d with Some x => Ok x | None => Raise KeyError end
  | _ => Raise TypeError
  end.

(** The ints of this magnitude or more do not convert to a float: the
    largest float is 2**1024 - 2**971, and rounding takes every int from
    half a step above it on to 2**1024. *)
Definition FLOAT_LIMIT : Z := 2 ^ 1024 - 2 ^ 970.
Arguments FLOAT_LIMIT : simpl never.

(** [float(n)], as the addition of an int to a float converts it. *)
Definition float_of_int (n : Z) : result Q :=
  if Z.abs n <? FLOAT_LIMIT then Ok (inject_Z n) else Raise OverflowError.

(** [t + v] for a float [t]: only numbers add to a float, and an int is
    converted to a float first. *)
Definition add_seconds (t : Q) (v : json) : result Q :=
  match v with
  | JBool b => Ok (t + inject_Z (if b then 1 else 0))%Q
  | JInt n => let* x := float_of_int n in Ok (t + x)%Q
  | JFloat q => Ok (t + q)%Q
  | _ => Raise TypeError
  end.

(** [str(body.get("error_description", dflt))], the message of the
    AlulaAuthError a rejected token request raises. *)
Definition error_description (body : json) (dflt : message) : result message :=
  match body with
  | JObj d => Ok (match dict_get "error_description" d with
                  | Some description => [show description]
                  | None => dflt
                  end)
  | _ => Raise AttributeError
  end.

(** ["error" in v]: key of a dict, element of a list, substring of a str. *)
Definition py_in (k : string) (v : json) : result bool :=
  match v with
  | JObj d => Ok (match dict_get k d with Some _ => true | None => false end)
  | JArr l => Ok (existsb (fun x => eq_str x k) l)
  | JStr s => Ok (match String.index 0 k s with Some _ => true | None => false end)
  | _ => Raise TypeError
  end.

Definition upper_char (c : ascii) : ascii :=
  let n := N_of_ascii c in
  if ((97 <=? n) && (n <=? 122))%N then ascii_of_N (n - 32) else c.

(** [s.upper()] on the text of a uuid (hexadecimal digits and dashes). *)
Fixpoint upper (s : string) : string :=
  match s with
  | EmptyString => EmptyString
  | String c rest => String (upper_char c) (upper rest)
  end.

Fixpoint map_result {A B : Type} (f : A -> result B) (l : list A) : result (list B) :=
  match l with
  | [] => Ok []
  | x :: rest =>
      let* y := f x in
      let* ys := map_result f rest in
      Ok (y :: ys)
  end.

(** A member of a set of tuples must be hashable: lists and dicts are not. *)
Definition hashable (v : json) : bool :=
  match v with
  | JArr _ | JObj _ => false
  | _ => true
  end.

(** One element of the set comprehension
    [{(z.device_id, z.zone_index, z.status.is_active) for z in existing}]. *)
Definition zone_key (z : Zone) : result (json * json * json) :=
  if hashable (z_device_id z) && hashable (zone_index z) && hashable (is_active (status z))
  then Ok (z_device_id z, zone_index z, is_active (status z))
  else Raise TypeError.

(** [(device_id, zone_idx, status_on) in existing_keys], by Python's [==]. *)
Definition key_in (device_id : string) (zone_idx : Z) (status_on : bool)
    (existing_keys : list (json * json * json)) : bool :=
  existsb (fun k =>
             eq_str (fst (fst k)) device_id
             && eq_int (snd (fst k)) zone_idx
             && eq_int (snd k) (if status_on then 1 else 0))
          existing_keys.

(** The body of a create-subscription call. *)
Definition subscription_payload (device_id : string) (zone_idx : Z) (status_on : bool) : json :=
  JObj [("data", JObj [
    ("type", JStr "events-notifications-zones");
    ("attributes", JObj [
      ("deviceId", JStr device_id);
      ("zoneIndex", JInt zone_idx);
      ("zoneStatus", JObj [("name", JStr "open"); ("on", JBool status_on)]);
      ("zoneStatusName", JStr "open");
      ("zoneStatusOn", JBool status_on);
      ("pushEnabled", JBool true);
      ("pushOptions", JObj [
        ("titleKey", JStr "APP_NAME");
        ("bodyKey", JStr (if status_on then "OPEN_ACTIVE" else "OPEN_INACTIVE"));
        ("bodyArgs", JArr [JStr ("{zoneConfiguration." +:+ str_int zone_idx +:+ ".zoneName:}")]);
        ("data", JObj [
          ("deviceId", JStr device_id);
          ("zoneIndex", JInt zone_idx);
          ("deviceType",
           JStr ("{zoneConfiguration." +:+ str_int zone_idx +:+ ".deviceType}"))])])])])].

(** The body of the [for entry in ...] loop of [async_discover_zones];
    [zones] is the dict built so far, and an unchanged dict is [continue]. *)
Definition scan_entry `{Unicode} (zones : gmap Z json) (entry : json)
    : result (gmap Z json) :=
  let* attrs := py_get entry "attributes" (JObj []) in
  let* zone_str := py_get attrs "signalUserZone" (JStr "") in
  if negb (truthy zone_str) then Ok zones
  else
    let* digits := isdigit zone_str in
    if negb digits then Ok zones
    else
      let* zone_idx := match zone_str with JStr s => py_int s | _ => Raise TypeError end in
      if zone_idx =? 0 then Ok zones
      else
        match zones !! zone_idx with
        | Some _ => Ok zones
        | None =>
            let* zone_name := py_get attrs "signalUserZoneAlias" JNull in
            let* zone_type := py_get attrs "signalUserZoneType" (JStr "") in
            Ok (<[zone_idx := JObj [("zone_name", zone_name); ("zone_type", zone_type)]]> zones)
        end.

Fixpoint scan_entries `{Unicode} (entries : list json) (zones : gmap Z json)
    : result (gmap Z json) :=
  match entries with
  | [] => Ok zones
  | entry :: rest =>
      let* zones' := scan_entry zones entry in
      scan_entries rest zones'
  end.

Definition ZONES_PATH : string := "/api/v1/events/notifications/zones".

Definition helix_denied (device_id : string) : message :=
  text ("Arm/disarm command denied: interactiveEnabled is off on device "
        +:+ device_id
        +:+ ". Contact your alarm provider (e.g., Cove support) and ask them to enable interactive services on your device.").

Section Client.
Context {W : Type} `{World W} `{Unicode}.

(** The property [is_authenticated]; [and] does not read the clock when
    there is no access token. *)
Definition is_authenticated : M W bool :=
  me <- get_self ;;
  match _access_token me with
  | JNull => ret false
  | _ =>
      t <- now ;;
      ret (Qltb t (_token_expiry me - inject_Z TOKEN_REFRESH_BUFFER))
  end.

Definition restore_tokens (access_token refresh_token : string) (expires_in : Z)
    : M W unit :=
  set_self (with_access_token (JStr access_token)) ;;
  set_self (with_refresh_token (JStr refresh_token)) ;;
  (* Be conservative: assume it's already partially expired *)
  t <- now ;;
  expiry <- lift (add_seconds t (JInt (Z.min expires_in 300))) ;;
  set_self (with_token_expiry expiry).

(** [_token_request], called with keyword arguments [kwargs]. *)
Definition _token_request (kwargs : list (string * json)) : M W TokenInfo :=
  me <- get_self ;;
  let data := dict_update [("client_id", JStr (_client_id me));
                           ("client_secret", JStr (_client_secret me))] kwargs in
  let headers := [("Content-Type", text "application/x-www-form-urlencoded");
                  ("Accept", text "application/json");
                  ("User-Agent", text USER_AGENT)] in
  body <- try_except
            (resp <- send (SessionPost (_oauth_url me) data headers) ;;
             body <- lift (resp_json resp) ;;
             if resp_status resp =? 401 then
               description <- lift (error_description body "Invalid credentials") ;;
               raise (AlulaAuthError description)
             else if resp_status resp =? 400 then
               description <- lift (error_description body
                                      [Lit "Auth error: "; show body]) ;;
               raise (AlulaAuthError description)
             else
               raise_for_status resp ;;
               ret body)
            (fun err =>
               if is_ClientError err
               then raise (AlulaConnectionError "Connection error during auth: " err)
               else raise err) ;;
  access_token <- lift (subscript body "access_token") ;;
  refresh_token <- lift (subscript body "refresh_token") ;;
  expires_in <- lift (py_get body "expires_in" (JInt TOKEN_EXPIRES_IN_DEFAULT)) ;;
  token_type <- lift (py_get body "token_type" (JStr "bearer")) ;;
  scope <- lift (py_get body "scope" (JStr "")) ;;
  let token_info := {| ti_access_token := access_token;
                       ti_refresh_token := refresh_token;
                       ti_expires_in := expires_in;
                       ti_token_type := token_type;
                       ti_scope := scope |} in
  set_self (with_access_token (ti_access_token token_info)) ;;
  set_self (with_refresh_token (ti_refresh_token token_info)) ;;
  t <- now ;;
  expiry <- lift (add_seconds t (ti_expires_in token_info)) ;;
  set_self (with_token_expiry expiry) ;;
  debug "Token acquired, expires in %ds" [LVal (ti_expires_in token_info)] ;;
  ret token_info.

Definition async_login (username password : string) : M W TokenInfo :=
  _token_request [("grant_type", JStr "password");
                  ("username", JStr username);
                  ("password", JStr password)].

(** [async_refresh(refresh_token=None)]. *)
Definition async_refresh (refresh_token : json) : M W TokenInfo :=
  me <- get_self ;;
  let token := py_or refresh_token (_refresh_token me) in
  if negb (truthy token) then raise (AlulaAuthError "No refresh token available")
  else _token_request [("grant_type", JStr "refresh_token");
                       ("refresh_token", token)].

Definition _ensure_token : M W unit :=
  valid <- is_authenticated ;;
  if valid then ret tt
  else
    me <- get_self ;;
    if truthy (_refresh_token me) then
      debug "Access token expired, refreshing" [] ;;
      async_refresh JNull ;;
      ret tt
    else
      raise (AlulaAuthError
               "Access token expired and no refresh token available. Call async_login() first.").

Definition bearer (token : json) : message := [Lit "Bearer "; show token].

(** The headers [_request] builds before its first attempt. *)
Definition request_headers (token json_data : json) : list (string * message) :=
  let headers := [("Authorization", bearer token);
                  ("Accept", text "application/json");
                  ("User-Agent", text USER_AGENT)] in
  match json_data with
  | JNull => headers
  | _ => dict_set "Content-Type" (text "application/json") headers
  end.

(** The two [except] clauses of [_request]. *)
Definition classify (method path : string) (err : exn) : M W json :=
  if is_AlulaAuthError err then raise err
  else if is_ClientError err then
    raise (AlulaConnectionError
             ("Connection error: " +:+ method +:+ " " +:+ path +:+ ": ") err)
  else raise err.

(** [_request(method, path, json_data=None, params=None)]. *)
Definition _request (method path : string) (json_data params : json) : M W json :=
  _ensure_token ;;
  me <- get_self ;;
  let url := _base_url me +:+ path in
  let headers := request_headers (_access_token me) json_data in
  try_except
    (resp <- send (SessionRequest method url headers json_data params) ;;
     if resp_status resp =? 401 then
       debug "Got 401, attempting token refresh and retry" [] ;;
       async_refresh JNull ;;
       me' <- get_self ;;
       let headers := dict_set "Authorization" (bearer (_access_token me')) headers in
       retry <- send (SessionRequest method url headers json_data params) ;;
       if resp_status retry =? 401 then
         raise (AlulaAuthError "Authentication failed after refresh")
       else
         raise_for_status retry ;;
         lift (resp_json retry)
     else
       raise_for_status resp ;;
       lift (resp_json resp))
    (classify method path).

(** [_rpc(rpc_method, params=None, path="/rpc/v1")]. *)
Definition _rpc (rpc_method : string) (params : json) (path : string) : M W json :=
  u <- uuid4 ;;
  let payload := JObj [("id", JStr (upper u));
                       ("method", JStr rpc_method);
                       ("params", py_or params (JObj []))] in
  result <- _request "POST" path payload JNull ;;
  has_error <- lift (py_in "error" result) ;;
  if has_error then
    err <- lift (subscript result "error") ;;
    code <- lift (py_get err "code" JNull) ;;
    raise (AlulaApiError [Lit ("RPC error (" +:+ rpc_method +:+ "): "); show err] code)
  else
    lift (py_get result "result" (JObj [])).

Definition async_get_zones : M W (list Zone) :=
  result <- _request "GET" ZONES_PATH JNull
              (JObj [("page[size]", JStr (str_int DEFAULT_PAGE_SIZE));
                     ("sort", JStr "id")]) ;;
  data <- lift (py_get result "data" (JArr [])) ;;
  items <- lift (py_iter data) ;;
  lift (map_result (fun z => Zone_.from_api z JNull) items).

Definition async_discover_zones (device_id : string) : M W (gmap Z json) :=
  result <- _request "GET" ("/api/v1/devices/" +:+ device_id +:+ "/eventlog") JNull
              (JObj [("customOptions[omitRelationships]", JStr "true");
                     ("page[size]", JStr "500");
                     ("sort", JStr "-dateEntered")]) ;;
  data <- lift (py_get result "data" (JArr [])) ;;
  entries <- lift (py_iter data) ;;
  zones <- lift (scan_entries entries ∅) ;;
  debug "Discovered %d zones from event log for device %s"
        [LVal (JInt (Z.of_nat (size zones))); LVal (JStr device_id)] ;;
  ret zones.

(** The [try: ... except Exception:] around one create; returns the new
    value of [created].  What is no [Exception] (a cancellation) is not
    caught. *)
Definition create_subscription (device_id : string) (zone_idx : Z) (status_on : bool)
    (created : Z) : M W Z :=
  try_except
    (_request "POST" ZONES_PATH (subscription_payload device_id zone_idx status_on) JNull ;;
     debug "Created zone subscription: zone %d (on=%s)"
           [LVal (JInt zone_idx); LVal (JBool status_on)] ;;
     ret (created + 1))
    (fun err =>
       if is_Exception err then
         (* 403 = already exists (unique constraint), which is fine *)
         debug "Zone subscription skipped: zone %d (on=%s): %s"
               [LVal (JInt zone_idx); LVal (JBool status_on); LExn err] ;;
         ret created
       else raise err).

(** [for status_on in (True, False): ...]. *)
Fixpoint for_status_on (device_id : string) (existing_keys : list (json * json * json))
    (zone_idx : Z) (statuses : list bool) (created : Z) : M W Z :=
  match statuses with
  | [] => ret created
  | status_on :: rest =>
      if key_in device_id zone_idx status_on existing_keys
      then for_status_on device_id existing_keys zone_idx rest created
      else
        created' <- create_subscription device_id zone_idx status_on created ;;
        for_status_on device_id existing_keys zone_idx rest created'
  end.

(** [for zone_idx in zone_indices: ...]. *)
Fixpoint for_zone_idx (device_id : string) (existing_keys : list (json * json * json))
    (zone_indices : list Z) (created : Z) : M W Z :=
  match zone_indices with
  | [] => ret created
  | zone_idx :: rest =>
      created' <- for_status_on device_id existing_keys zone_idx [true; false] created ;;
      for_zone_idx device_id existing_keys rest created'
  end.

Definition async_ensure_zone_subscriptions (device_id : string) (zone_indices : list Z)
    : M W Z :=
  existing <- async_get_zones ;;
  existing_keys <- lift (map_result zone_key existing) ;;
  for_zone_idx device_id existing_keys zone_indices 0.

(** [_helix_command(device_id, data)]. *)
Definition _helix_command (device_id data : string) : M W json :=
  try_except
    (_rpc "helix.command" (JObj [("deviceId", JStr device_id); ("data", JStr data)])
          "/rpc/v1")
    (fun err =>
       match err with
       | AlulaApiError _ status_code =>
           if eq_int status_code 6
           then raise (AlulaApiError (helix_denied device_id) (JInt 6))
           else raise err
       | _ => raise err
       end).

Definition async_arm_stay (device_id : string) : M W json :=
  _helix_command device_id "armStay".

Definition async_arm_away (device_id : string) : M W json :=
  _helix_command device_id "armAway".

Definition async_arm_night (device_id : string) : M W json :=
  _helix_command device_id "armNight".

Definition async_disarm (device_id : string) : M W json :=
  _helix_command device_id "disarm".
End Client.

(* ================================================================== *)
(** * A scripted session, for concrete runs                            *)
(* ================================================================== *)

(** The clock shows [clock]; the session gives the [replies] in order, and
    refuses the connection once they are used up. *)
(** The entries of the Unicode database that the runs below meet: the
    digits of Latin-1, where the superscripts two, three and one (U+00B2,
    U+00B3, U+00B9) are digits without a decimal value, and the
    Arabic-Indic digits U+0660 to U+0669. *)
Definition sample_decimal (c : N) : option Z :=
  if ((48 <=? c) && (c <=? 57))%N then Some (Z.of_N c - 48)
  else if ((1632 <=? c) && (c <=? 1641))%N then Some (Z.of_N c - 1632)
  else None.

Definition sample_digit (c : N) : option Z :=
  match sample_decimal c with
  | Some d => Some d
  | None =>
      if (c =? 178)%N then Some 2
      else if (c =? 179)%N then Some 3
      else if (c =? 185)%N then Some 1
      else None
  end.

#[export] Instance sample_unicode : Unicode := {|
  to_digit := sample_digit;
  to_decimal := sample_decimal;
  decimal_is_digit := ltac:(intros c d E; unfold sample_digit; now rewrite E);
  decimal_bounds := ltac:(intros c d; unfold sample_decimal;
    destruct ((48 <=? c) && (c <=? 57))%N eqn:E1;
      [apply andb_prop in E1 as [E1 E2]; apply N.leb_le in E1, E2; intros [= <-]; lia |];
    destruct ((1632 <=? c) && (c <=? 1641))%N eqn:E2; [| discriminate];
    apply andb_prop in E2 as [E2 E3]; apply N.leb_le in E2, E3; intros [= <-]; lia);
  ascii_digit := ltac:(intros c Hc; unfold sample_digit, sample_decimal;
    destruct ((48 <=? c) && (c <=? 57))%N; [reflexivity |];
    destruct (N.leb_spec 1632 c); [lia |]; cbn;
    destruct (N.eqb_spec c 178); [lia |];
    destruct (N.eqb_spec c 179); [lia |];
    destruct (N.eqb_spec c 185); [lia | reflexivity]);
  ascii_decimal := ltac:(intros c Hc; unfold sample_decimal;
    destruct ((48 <=? c) && (c <=? 57))%N; [reflexivity |];
    destruct (N.leb_spec 1632 c); [lia | reflexivity])
|}.

Record script : Type := {
  clock : Q;
  replies : list outcome
}.

#[export] Instance script_world : World script := {|
  time_time w := (clock w, w);
  uuid_uuid4 w := ("0b6f2a9e-5c1d-4e7a-9f3b-8a2d4c6e1f70", w);
  session_send _ w :=
    match replies w with
    | o :: rest => (o, {| clock := clock w; replies := rest |})
    | [] => (Throws (ClientError "Cannot connect to host"), w)
    end
|}.

Definition replied (status : Z) (body : json) : outcome :=
  Responds {| resp_status := status; resp_json := Ok body |}.

Definition start (c : AlulaClient) (w : script) : state script :=
  {| self := c; world := w; history := [] |}.

Definition fresh_client : AlulaClient :=
  __init__ COVE_CLIENT_ID COVE_CLIENT_SECRET API_BASE_URL.

(** A client holding the tokens ["a0"] and ["r0"], valid until t = 1000. *)
Definition signed_in : AlulaClient :=
  with_token_expiry 1000 (with_refresh_token (JStr "r0") (with_access_token (JStr "a0") fresh_client)).

Definition token_body (access refresh : string) : json :=
  JObj [("access_token", JStr access); ("refresh_token", JStr refresh);
        ("expires_in", JInt 900); ("token_type", JStr "bearer"); ("scope", JStr "")].

(** The calls on the session a history holds: the API requests, and the
    posts to the token endpoint. *)
Definition is_attempt (ev : event) : bool :=
  match ev with Http (SessionRequest _ _ _ _ _) _ => true | _ => false end.

Definition is_token_post (ev : event) : bool :=
  match ev with Http (SessionPost _ _ _) _ => true | _ => false end.

Definition attempts (h : list event) : list event := List.filter is_attempt h.
Definition token_posts (h : list event) : list event := List.filter is_token_post h.

Definition panel_armstay : list (string * json) :=
  [("id", JStr "dev-1");
   ("attributes", JObj [("isPanel", JBool true); ("armingLevel", JStr "armstay")])].

Definition panel_bogus : list (string * json) :=
  [("id", JStr "dev-1");
   ("attributes", JObj [("isPanel", JBool true); ("armingLevel", JStr "bogus_value")])].

Definition panel_and_camera : list (string * json) :=
  [("id", JStr "dev-2");
   ("attributes", JObj [("isCamera", JBool true); ("isPanel", JBool true)])].

(** The state after the session gave [o] to the call [c], and after a debug
    record. *)
Definition sent {W : Type} (s : state W) (c : http_call) (o : outcome) (w : W) : state W :=
  {| self := self s; world := w; history := history s ++ [Http c o] |}.

Definition logged {W : Type} (s : state W) (fmt : string) (args : list logarg) : state W :=
  {| self := self s; world := world s; history := history s ++ [LogDebug fmt args] |}.

(** The first attempt of [_request] by the client [c], and the retry with
    the token of the client [c']. *)
Definition first_call (c : AlulaClient) (method path : string) (json_data params : json)
    : http_call :=
  SessionRequest method (_base_url c +:+ path)
                 (request_headers (_access_token c) json_data) json_data params.

Definition retry_call (c c' : AlulaClient) (method path : string) (json_data params : json)
    : http_call :=
  SessionRequest method (_base_url c +:+ path)
                 (dict_set "Authorization" (bearer (_access_token c'))
                           (request_headers (_access_token c) json_data))
                 json_data params.

Definition connection_error (method path : string) (cause : exn) : exn :=
  AlulaConnectionError ("Connection error: " +:+ method +:+ " " +:+ path +:+ ": ") cause.

(** Scripts for the request pipeline: what the session answers, in order. *)
Definition refresh_then_ok : script :=
  {| clock := 100;
     replies := [replied 401 (JObj []);
                 replied 200 (token_body "a1" "r1");
                 replied 200 (JObj [("data", JArr [])])] |}.

Definition unauthorized_twice : script :=
  {| clock := 100;
     replies := [replied 401 (JObj []);
                 replied 200 (token_body "a1" "r1");
                 replied 401 (JObj [])] |}.

Definition refresh_rejected : script :=
  {| clock := 100;
     replies := [replied 401 (JObj []);
                 replied 401 (JObj [("error_description", JStr "Refresh token expired")])] |}.

Definition server_error : script :=
  {| clock := 100;
     replies := [replied 500 (JObj [("message", JStr "Internal Server Error")])] |}.

(** The token of [signed_in] is past its expiry at t = 100; the pre-check
    refreshes, and the first attempt is still answered 401. *)
Definition expired_client : AlulaClient := with_token_expiry 50 signed_in.

Definition precheck_refresh_then_401 : script :=
  {| clock := 100;
     replies := [replied 200 (token_body "a1" "r1");
                 replied 401 (JObj []);
                 replied 200 (token_body "a2" "r2");
                 replied 200 (JObj [("data", JArr [])])] |}.

(** The rule for a 401 read without a condition on the refresh: whenever
    the first attempt is answered 401, the run holds exactly one token
    exchange and exactly two attempts. *)
Definition always_one_refresh_one_retry : Prop :=
  forall (W : Type) (HW : World W) (method path : string) (json_data params : json)
         (s s1 : state W) (r1 : response) (w2 : W),
    _ensure_token s = (Ok tt, s1) ->
    session_send (first_call (self s1) method path json_data params) (world s1)
      = (Responds r1, w2) ->
    resp_status r1 = 401 ->
    let final := snd (_request method path json_data params s) in
    length (token_posts (history final)) = S (length (token_posts (history s)))
    /\ length (attempts (history final)) = S (S (length (attempts (history s)))).

(** Case analysis on the innermost [match] of a run held in [H]. *)
Ltac run_match H :=
  repeat match type of H with
  | context [match ?x with _ => _ end] =>
      lazymatch x with
      | context [match _ with _ => _ end] => fail
      | _ => destruct x eqn:?; cbn in H
      end
  end.

(* ================================================================== *)
(** * Zone discovery and subscriptions, in the words of the specification *)
(* ================================================================== *)

(** The dict [async_discover_zones] stores for a zone. *)
Definition zone_info (attrs : list (string * json)) : json :=
  JObj [("zone_name", get "signalUserZoneAlias" attrs);
        ("zone_type", get_or "signalUserZoneType" (JStr "") attrs)].

(** An entry contributes the zone [k] with [info]: its zone-index field is
    a non-empty string of decimal digits that decodes to the non-zero
    integer [k], and [info] holds the entry's zone name and type. *)
Definition contributes `{Unicode} (entry : json) (k : Z) (info : json) : Prop :=
  exists entry_ attrs s ds,
    entry = JObj entry_
    /\ get_or "attributes" (JObj []) entry_ = JObj attrs
    /\ get_or "signalUserZone" (JStr "") attrs = JStr s
    /\ s <> ""
    /\ decimals (code_points s) = Some ds
    /\ decimal_value 0 ds = k
    /\ k <> 0
    /\ info = zone_info attrs.

(** The same, computed. *)
Definition contribution `{Unicode} (entry : json) : option (Z * json) :=
  match entry with
  | JObj entry_ =>
      match get_or "attributes" (JObj []) entry_ with
      | JObj attrs =>
          match get_or "signalUserZone" (JStr "") attrs with
          | JStr s =>
              match decimals (code_points s) with
              | Some ds =>
                  if negb (String.eqb s "") && negb (decimal_value 0 ds =? 0)
                  then Some (decimal_value 0 ds, zone_info attrs)
                  else None
              | None => None
              end
          | _ => None
          end
      | _ => None
      end
  | _ => None
  end.

(** The first entry of a page that contributes the zone [k]. *)
Fixpoint first_contribution `{Unicode} (k : Z) (entries : list json) : option json :=
  match entries with
  | [] => None
  | entry :: rest =>
      match contribution entry with
      | Some (k', info) => if k' =? k then Some info else first_contribution k rest
      | None => first_contribution k rest
      end
  end.

(** An entry the scan can pass: a dict whose attributes are a dict and whose
    zone-index field is false, or a string that either fails [isdigit()] or
    is made of at most 4300 decimal digits. *)
Definition scannable `{Unicode} (entry : json) : bool :=
  match entry with
  | JObj entry_ =>
      match get_or "attributes" (JObj []) entry_ with
      | JObj attrs =>
          match get_or "signalUserZone" (JStr "") attrs with
          | JStr s =>
              negb (str_isdigit s)
              || match decimals (code_points s) with
                 | Some ds => Z.of_nat (length ds) <=? 4300
                 | None => false
                 end
          | v => negb (truthy v)
          end
      | _ => false
      end
  | _ => false
  end.

(** The entries of the page a response carries: [result.get("data", [])],
    iterated. *)
Definition page_entries (response_body : json) : result (list json) :=
  let* data := py_get response_body "data" (JArr []) in
  py_iter data.

Definition eventlog_path (device_id : string) : string :=
  "/api/v1/devices/" +:+ device_id +:+ "/eventlog".

Definition eventlog_params : json :=
  JObj [("customOptions[omitRelationships]", JStr "true");
        ("page[size]", JStr "500");
        ("sort", JStr "-dateEntered")].

Definition log_entry (zone alias type : string) : json :=
  JObj [("id", JStr "ev");
        ("attributes", JObj [("signalUserZone", JStr zone);
                             ("signalUserZoneAlias", JStr alias);
                             ("signalUserZoneType", JStr type)])].

(** The page of the specification's example: zone fields 3, 3, 0, 5 and
    the empty string, newest first. *)
Definition example_log : list json :=
  [log_entry "3" "Front Door" "door";
   log_entry "3" "Old Door Name" "window";
   log_entry "0" "Panel" "system";
   log_entry "5" "Hallway" "motion";
   log_entry "" "Nothing" "none"].

Definition example_zones : gmap Z json :=
  <[5 := JObj [("zone_name", JStr "Hallway"); ("zone_type", JStr "motion")]]>
    (<[3 := JObj [("zone_name", JStr "Front Door"); ("zone_type", JStr "door")]]> ∅).

(** The superscript two, U+00B2, and the Arabic-Indic digit three, U+0663. *)
Definition SUPERSCRIPT_TWO : string := String (ascii_of_N 194) (String (ascii_of_N 178) "").
Definition ARABIC_THREE : string := String (ascii_of_N 217) (String (ascii_of_N 163) "").

(** Entries the scan does not survive: a zone field that is the superscript
    two (a digit for [isdigit()], not for [int()]), and a zone field that
    is the number 7 and no string. *)
Definition superscript_entry : json :=
  JObj [("attributes", JObj [("signalUserZone", JStr SUPERSCRIPT_TWO)])].

Definition number_entry : json :=
  JObj [("attributes", JObj [("signalUserZone", JInt 7)])].

(** Pages whose first entry is zone 3 and whose second entry is one of
    those. *)
Definition number_reply : script :=
  {| clock := 100;
     replies := [replied 200 (JObj [("data", JArr [log_entry "3" "Front Door" "door";
                                                   number_entry])])] |}.

Definition superscript_reply : script :=
  {| clock := 100;
     replies := [replied 200 (JObj [("data", JArr [log_entry "3" "Front Door" "door";
                                                   superscript_entry])])] |}.

(** A page whose only entry names zone 3 in Arabic-Indic digits. *)
Definition arabic_reply : script :=
  {| clock := 100;
     replies := [replied 200 (JObj [("data", JArr [log_entry ARABIC_THREE "Gate" "door"])])] |}.

Definition eventlog_reply : script :=
  {| clock := 100; replies := [replied 200 (JObj [("data", JArr example_log)])] |}.

(** The keys [(zone index, statusOn)] that are absent from the fetched
    subscriptions, in the order the two loops visit them. *)
Definition missing_keys (device_id : string) (existing_keys : list (json * json * json))
    (zone_indices : list Z) : list (Z * bool) :=
  flat_map (fun zone_idx =>
              List.filter (fun key => negb (key_in device_id (fst key) (snd key) existing_keys))
                     [(zone_idx, true); (zone_idx, false)])
           zone_indices.

Definition CREATED : string := "Created zone subscription: zone %d (on=%s)".
Definition SKIPPED : string := "Zone subscription skipped: zone %d (on=%s): %s".

Definition succeeded (rs : list bool) : Z := Z.of_nat (length (List.filter (fun b => b) rs)).

(** What the specification asks a create-subscription request to carry: the
    key (device and zone index), the status both as an object and as flat
    fields, and the notification templates of the zone index. *)
Definition carries_subscription (device_id : string) (zone_idx : Z) (status_on : bool)
    (body : json) : Prop :=
  exists attrs push_options,
    body = JObj [("data", JObj [("type", JStr "events-notifications-zones");
                                ("attributes", JObj attrs)])]
    /\ dict_get "deviceId" attrs = Some (JStr device_id)
    /\ dict_get "zoneIndex" attrs = Some (JInt zone_idx)
    /\ dict_get "zoneStatus" attrs
       = Some (JObj [("name", JStr "open"); ("on", JBool status_on)])
    /\ dict_get "zoneStatusName" attrs = Some (JStr "open")
    /\ dict_get "zoneStatusOn" attrs = Some (JBool status_on)
    /\ dict_get "pushEnabled" attrs = Some (JBool true)
    /\ dict_get "pushOptions" attrs = Some (JObj push_options)
    /\ dict_get "titleKey" push_options = Some (JStr "APP_NAME")
    /\ dict_get "bodyKey" push_options
       = Some (JStr (if status_on then "OPEN_ACTIVE" else "OPEN_INACTIVE"))
    /\ dict_get "bodyArgs" push_options
       = Some (JArr [JStr ("{zoneConfiguration." +:+ str_int zone_idx +:+ ".zoneName:}")])
    /\ dict_get "data" push_options
       = Some (JObj [("deviceId", JStr device_id);
                     ("zoneIndex", JInt zone_idx);
                     ("deviceType",
                      JStr ("{zoneConfiguration." +:+ str_int zone_idx +:+ ".deviceType}"))]).

(** Issue one create-subscription request per key, in order, each followed
    by its debug record, until the keys are done or a request raises what
    [except Exception] does not catch.  Returns which of the creates
    succeeded, the exception that ended the loop, if any, and the state. *)
Fixpoint issue_creates {W : Type} `{World W} (device_id : string) (keys : list (Z * bool))
    (s : state W) : list bool * option exn * state W :=
  match keys with
  | [] => ([], None, s)
  | (zone_idx, status_on) :: rest =>
      match _request "POST" ZONES_PATH
                     (subscription_payload device_id zone_idx status_on) JNull s with
      | (Ok _, s1) =>
          let '(rs, stop, s2) :=
            issue_creates device_id rest
              (logged s1 CREATED [LVal (JInt zone_idx); LVal (JBool status_on)]) in
          (true :: rs, stop, s2)
      | (Raise err, s1) =>
          if is_Exception err then
            let '(rs, stop, s2) :=
              issue_creates device_id rest
                (logged s1 SKIPPED
                        [LVal (JInt zone_idx); LVal (JBool status_on); LExn err]) in
            (false :: rs, stop, s2)
          else ([], Some err, s1)
      end
  end.

(** What the loop leaves: the count, or the exception that ended it. *)
Definition loop_result (created : Z) (rs : list bool) (stop : option exn) : result Z :=
  match stop with
  | None => Ok (created + succeeded rs)
  | Some err => Raise err
  end.

Definition subscription (device_id : string) (zone_idx : Z) (on : bool) : json :=
  JObj [("id", JStr "sub");
        ("attributes", JObj [("deviceId", JStr device_id);
                             ("zoneIndex", JInt zone_idx);
                             ("zoneStatus", JObj [("name", JStr "open"); ("on", JBool on)]);
                             ("pushEnabled", JBool true)])].

(** A feed without subscriptions, then two creates that succeed. *)
Definition empty_feed : script :=
  {| clock := 100;
     replies := [replied 200 (JObj [("data", JArr [])]);
                 replied 201 (JObj [("data", subscription "dev-1" 3 true)]);
                 replied 201 (JObj [("data", subscription "dev-1" 3 false)])] |}.

(** The feed after that: both subscriptions of zone 3 exist. *)
Definition full_feed : script :=
  {| clock := 100;
     replies := [replied 200 (JObj [("data", JArr [subscription "dev-1" 3 true;
                                                   subscription "dev-1" 3 false])])] |}.

(** A feed without subscriptions; the second create meets the uniqueness
    constraint. *)
Definition conflict_feed : script :=
  {| clock := 100;
     replies := [replied 200 (JObj [("data", JArr [])]);
                 replied 201 (JObj [("data", subscription "dev-1" 3 true)]);
                 replied 403 (JObj [("errors", JArr [])])] |}.

(** A feed without subscriptions; the first create succeeds and the task is
    cancelled while the second is awaited. *)
Definition cancelled_feed : script :=
  {| clock := 100;
     replies := [replied 200 (JObj [("data", JArr [])]);
                 replied 201 (JObj [("data", subscription "dev-1" 3 true)]);
                 Throws (BaseException "CancelledError")] |}.

(** The bodies of the API requests a history holds, in order. *)
Definition request_bodies (h : list event) : list json :=
  flat_map (fun ev => match ev with
                      | Http (SessionRequest _ _ _ json_data _) _ => [json_data]
                      | _ => []
                      end) h.

(** The formats of the debug records a history holds, in order. *)
Definition logged_formats (h : list event) : list string :=
  flat_map (fun ev => match ev with LogDebug fmt _ => [fmt] | _ => [] end) h.

(** The state [signed_in] is in after fetching the subscriptions of a feed,
    and the zones it fetched. *)
Definition after_fetch (w : script) : state script :=
  snd (async_get_zones (start signed_in w)).

Definition fetched (w : script) : list Zone :=
  match fst (async_get_zones (start signed_in w)) with
  | Ok zones => zones
  | Raise _ => []
  end.

(* ================================================================== *)
(** * RPC calls                                                        *)
(* ================================================================== *)

(** The envelope [_rpc] posts, given the text [u] of the fresh uuid. *)
Definition rpc_payload (u rpc_method : string) (params : json) : json :=
  JObj [("id", JStr (upper u));
        ("method", JStr rpc_method);
        ("params", py_or params (JObj []))].

(** The state after [_rpc] drew its uuid. *)
Definition after_uuid {W : Type} `{World W} (s : state W) : state W :=
  {| self := self s; world := snd (uuid_uuid4 (world s)); history := history s |}.

(** The AlulaApiError [_rpc] raises for the error object [err]. *)
Definition rpc_error (rpc_method : string) (err : list (string * json)) : exn :=
  AlulaApiError [Lit ("RPC error (" +:+ rpc_method +:+ "): "); show (JObj err)]
                (get "code" err).

Definition helix_params (device_id data : string) : json :=
  JObj [("deviceId", JStr device_id); ("data", JStr data)].

Definition rpc_failure (code : Z) (message : string) : script :=
  {| clock := 100;
     replies := [replied 200 (JObj [("error", JObj [("code", JInt code);
                                                    ("message", JStr message)])])] |}.

(** A response whose error member is a string, not an object. *)
Definition rpc_failure_text : script :=
  {| clock := 100; replies := [replied 200 (JObj [("error", JStr "denied")])] |}.

(* ================================================================== *)
(** * models.py: users and event-log entries                           *)
(* ================================================================== *)

Record User : Type := {
  u_id : json;
  dealer_id : json;
  user_type : json;
  language : json;
  u_raw : json
}.

Module User_.
(** [User.from_api]. *)
Definition from_api (data : json) : result User :=
  let* attrs := py_get data "attributes" (JObj []) in
  match data, attrs with
  | JObj data_, JObj attrs_ =>
      Ok {| u_id := get_or "id" (JStr "") data_;
            dealer_id := get_or "dealerId" (JStr "") attrs_;
            user_type := get_or "userType" (JStr "") attrs_;
            language := get_or "language" (JStr "en") attrs_;
            u_raw := data |}
  | _, _ => Raise AttributeError
  end.
End User_.

Record EventLogEntry : Type := {
  e_id : json;
  e_device_id : json;
  e_timestamp : json;
  event_code : json;
  event_qualifier : json;
  e_description : json;
  e_partition : json;
  user_zone : json;
  user_zone_type : json;
  user_zone_alias : json;
  e_raw : json
}.

(** [self.event_code in ("400", "401", "441", "403")]. *)
Definition is_arming_event (e : EventLogEntry) : bool :=
  existsb (eq_str (event_code e)) ["400"; "401"; "441"; "403"].

Module EventLogEntry_.
(** [EventLogEntry.from_api]. *)
Definition from_api (data : json) : result EventLogEntry :=
  let* attrs := py_get data "attributes" (JObj []) in
  match data, attrs with
  | JObj data_, JObj attrs_ =>
      Ok {| e_id := get_or "id" (JStr "") data_;
            e_device_id := get_or "deviceId" (JStr "") attrs_;
            e_timestamp := get_or "dateEntered" (JStr "") attrs_;
            event_code := get_or "signalEventCode" (JStr "") attrs_;
            event_qualifier := get_or "signalEventQualifier" (JStr "") attrs_;
            e_description := get_or "signalEventDescription" (JStr "") attrs_;
            e_partition := get_or "signalPartition" (JStr "") attrs_;
            user_zone := get_or "signalUserZone" (JStr "") attrs_;
            user_zone_type := get_or "signalUserZoneType" (JStr "") attrs_;
            user_zone_alias := get "signalUserZoneAlias" attrs_;
            e_raw := data |}
  | _, _ => Raise AttributeError
  end.
End EventLogEntry_.

(* ================================================================== *)
(** * client.py: users, devices, event log, notifications              *)
(* ================================================================== *)

Definition with_user_id (v : json) (c : AlulaClient) : AlulaClient :=
  {| _client_id := _client_id c; _client_secret := _client_secret c;
     _base_url := _base_url c; _oauth_url := _oauth_url c;
     _access_token := _access_token c; _refresh_token := _refresh_token c;
     _token_expiry := _token_expiry c; _user_id := v |}.

Definition DEVICES_PATH : string := "/api/v1/devices".

Definition devices_params : json :=
  JObj [("customOptions[omitRelationships]", JStr "true");
        ("page[size]", JStr (str_int DEFAULT_PAGE_SIZE))].

Definition SELF_PATH : string := "/api/v1/self".

Definition self_params : json :=
  JObj [("customOptions[omitRelationships]", JStr "true")].

(** The [params] dict of [async_get_event_log]: the filter is added only
    for a true [since]. *)
Definition event_log_params (limit : Z) (since : json) : list (string * json) :=
  let params := [("customOptions[omitRelationships]", JStr "true");
                 ("page[size]", JStr (str_int limit));
                 ("sort", JStr "-dateEntered")] in
  if truthy since then dict_set "filter[dateEntered][$gt]" since params else params.

Section Resources.
Context {W : Type} `{World W}.

Definition async_get_user : M W User :=
  result <- _request "GET" SELF_PATH JNull self_params ;;
  data <- lift (py_get result "data" (JObj [])) ;;
  user <- lift (User_.from_api data) ;;
  set_self (with_user_id (u_id user)) ;;
  ret user.

Definition async_get_devices : M W (list Device) :=
  result <- _request "GET" DEVICES_PATH JNull devices_params ;;
  data <- lift (py_get result "data" (JArr [])) ;;
  items <- lift (py_iter data) ;;
  lift (map_result Device_.from_api items).

Definition async_get_panels : M W (list Device) :=
  devices <- async_get_devices ;;
  ret (List.filter is_panel devices).

Definition async_get_cameras : M W (list Device) :=
  devices <- async_get_devices ;;
  ret (List.filter is_camera devices).

(** [async_get_event_log(device_id, limit=10, since=None)]. *)
Definition async_get_event_log (device_id : string) (limit : Z) (since : json)
    : M W (list EventLogEntry) :=
  result <- _request "GET" ("/api/v1/devices/" +:+ device_id +:+ "/eventlog") JNull
              (JObj (event_log_params limit since)) ;;
  data <- lift (py_get result "data" (JArr [])) ;;
  items <- lift (py_iter data) ;;
  lift (map_result EventLogEntry_.from_api items).

(** [async_renew_notifications(ttl=2419200)]. *)
Definition async_renew_notifications (ttl : Z) : M W json :=
  result <- _rpc "events.notifications.renew" (JObj [("ttl", JInt ttl)]) "/rpc/v1" ;;
  lift (py_get result "success" (JBool false)).
End Resources.

(** The call [_token_request] makes on the session. *)
Definition token_call (c : AlulaClient) (kwargs : list (string * json)) : http_call :=
  SessionPost (_oauth_url c)
    (dict_update [("client_id", JStr (_client_id c));
                  ("client_secret", JStr (_client_secret c))] kwargs)
    [("Content-Type", text "application/x-www-form-urlencoded");
     ("Accept", text "application/json");
     ("User-Agent", text USER_AGENT)].

(** The state after [time.time()]. *)
Definition ticked {W : Type} `{World W} (s : state W) : state W :=
  {| self := self s; world := snd (time_time (world s)); history := history s |}.

Definition NO_TOKENS : message :=
  text "Access token expired and no refresh token available. Call async_login() first.".

(** A record: a dict whose "attributes", when present, is a dict. *)
Definition is_record (data : json) : bool :=
  match data with
  | JObj data_ =>
      match get_or "attributes" (JObj []) data_ with
      | JObj _ => true
      | _ => false
      end
  | _ => false
  end.

(** The "attributes" of a record. *)
Definition attributes (data : json) : list (string * json) :=
  match data with
  | JObj data_ =>
      match get_or "attributes" (JObj []) data_ with
      | JObj attrs_ => attrs_
      | _ => []
      end
  | _ => []
  end.

(** The resource a create-subscription payload carries. *)
Definition subscription_resource (device_id : string) (zone_idx : Z) (status_on : bool)
    : json :=
  match subscription_payload device_id zone_idx status_on with
  | JObj payload => get "data" payload
  | _ => JNull
  end.

(** Unfold a token request down to the calls on the world. *)
Ltac run_coroutine :=
  unfold _token_request, token_call, bind, try_except, get_self, send, lift,
    raise_for_status, raise, ret, set_self, now, debug, emit, sent, logged, ticked;
  cbn.

(** Scripts for the token endpoint. *)
Definition login_accepted : script :=
  {| clock := 100;
     replies := [replied 200 (JObj [("access_token", JStr "a1");
                                    ("refresh_token", JStr "r1")])] |}.

Definition login_rejected : script :=
  {| clock := 100;
     replies := [replied 401 (JObj [("error", JStr "invalid_grant");
                                    ("error_description", JStr "Bad PIN")])] |}.


Definition login_bad_lifetime : script :=
  {| clock := 100;
     replies := [replied 200 (JObj [("access_token", JStr "a1");
                                    ("refresh_token", JStr "r1");
                                    ("expires_in", JStr "900")])] |}.

Definition login_huge_lifetime : script :=
  {| clock := 100;
     replies := [replied 200 (JObj [("access_token", JStr "a1");
                                    ("refresh_token", JStr "r1");
                                    ("expires_in", JInt (10 ^ 400))])] |}.

Definition login_without_refresh_token : script :=
  {| clock := 100; replies := [replied 200 (JObj [("access_token", JStr "a1")])] |}.

Definition password_grant : list (string * json) :=
  [("grant_type", JStr "password"); ("username", JStr "c445792"); ("password", JStr "17327")].

(** Scripts for a single request. *)
Definition not_modified : script :=
  {| clock := 100; replies := [replied 304 (JObj [("data", JArr [])])] |}.

Definition connection_reset : script :=
  {| clock := 100; replies := [Throws (ClientError "Connection reset by peer")] |}.

Definition timed_out : script :=
  {| clock := 100; replies := [Throws (OtherError "TimeoutError")] |}.

Definition html_body : script :=
  {| clock := 100;
     replies := [Responds {| resp_status := 200;
                             resp_json := Raise (ClientError "unexpected mimetype: text/html") |}] |}.

(** The headers of a call on the session. *)
Definition call_headers (c : http_call) : list (string * message) :=
  match c with
  | SessionPost _ _ headers => headers
  | SessionRequest _ _ headers _ _ => headers
  end.

(** The form data of a post to the token endpoint. *)
Definition call_data (c : http_call) : list (string * json) :=
  match c with
  | SessionPost _ data _ => data
  | SessionRequest _ _ _ _ _ => []
  end.

(** [d.get(k)] on a dict with values of any type; [None] when absent. *)
Fixpoint lookup_key {V : Type} (k : string) (d : list (string * V)) : option V :=
  match d with
  | [] => None
  | (k', v) :: rest => if String.eqb k k' then Some v else lookup_key k rest
  end.

(** Two clients that differ at most in their tokens and in the expiry. *)
Definition same_configuration (c c' : AlulaClient) : Prop :=
  _client_id c = _client_id c'
  /\ _client_secret c = _client_secret c'
  /\ _base_url c = _base_url c'
  /\ _oauth_url c = _oauth_url c'
  /\ _user_id c = _user_id c'.

(** The event is an attempt of the request [method path json_data params]
    on the API at [base_url], whatever its headers and its outcome. *)
Definition attempt_of (base_url method path : string) (json_data params : json)
    (ev : event) : Prop :=
  exists headers o,
    ev = Http (SessionRequest method (base_url +:+ path) headers json_data params) o.

(** The event is a post to the token endpoint [oauth_url]. *)
Definition token_post_to (oauth_url : string) (ev : event) : Prop :=
  exists data headers o, ev = Http (SessionPost oauth_url data headers) o.

(** Scripts for the listings. *)
Definition device_record (device_id : string) (attrs : list (string * json)) : json :=
  JObj [("id", JStr device_id); ("attributes", JObj attrs)].

Definition devices_feed : script :=
  {| clock := 100;
     replies := [replied 200
                   (JObj [("data", JArr [device_record "dev-1" [("isPanel", JBool true)];
                                         device_record "dev-2" [("isCamera", JBool true)];
                                         device_record "dev-3" []])])] |}.

Definition broken_devices_feed : script :=
  {| clock := 100;
     replies := [replied 200
                   (JObj [("data", JArr [device_record "dev-1" [("isPanel", JBool true)];
                                         JStr "dev-2"])])] |}.

Definition bare_reply : script :=
  {| clock := 100; replies := [replied 200 (JObj [])] |}.

Definition listed (w : script) : list Device :=
  match fst (async_get_devices (start signed_in w)) with
  | Ok devices => devices
  | Raise _ => []
  end.

(** The user [User.from_api] builds from an empty dict. *)
Definition EMPTY_USER : User :=
  {| u_id := JStr ""; dealer_id := JStr ""; user_type := JStr "";
     language := JStr "en"; u_raw := JObj [] |}.

(** The state after [self._user_id = v]. *)
Definition user_id_set {W : Type} (v : json) (s : state W) : state W :=
  {| self := with_user_id v (self s); world := world s; history := history s |}.

Definition self_reply : script :=
  {| clock := 100;
     replies := [replied 200
                   (JObj [("data", JObj [("id", JStr "user-1");
                                         ("attributes", JObj [("userType", JStr "user")])])])] |}.

(** The zone subscriptions listing, as [async_get_zones] requests it. *)
Definition zones_params : json :=
  JObj [("page[size]", JStr (str_int DEFAULT_PAGE_SIZE)); ("sort", JStr "id")].

(** A result of the RPC "events.notifications.renew". *)
Definition renew_reply (rpc_result : json) : script :=
  {| clock := 100; replies := [replied 200 (JObj [("result", rpc_result)])] |}.

Definition renew_params (ttl : Z) : json := JObj [("ttl", JInt ttl)].

(** The headers [_request] gives its first attempt, for a client holding
    [token]: Content-Type is there exactly when there is a JSON body. *)
Definition first_headers (token json_data : json) (headers : list (string * message))
    : Prop :=
  lookup_key "Authorization" headers = Some (bearer token)
  /\ lookup_key "Accept" headers = Some (text "application/json")
  /\ lookup_key "User-Agent" headers = Some (text USER_AGENT)
  /\ lookup_key "Content-Type" headers
     = match json_data with JNull => None | _ => Some (text "application/json") end.

(** The headers of a retry: those of the first attempt, names and order
    included, with Authorization for [token]. *)
Definition retry_headers (token : json) (first again : list (string * message)) : Prop :=
  lookup_key "Authorization" again = Some (bearer token)
  /\ (forall k, k <> "Authorization" -> lookup_key k again = lookup_key k first)
  /\ map fst again = map fst first.

(* ================================================================== *)
(** * Properties of the models                                         *)
(* ================================================================== *)

Lemma eq_str_true (v : json) (s : string) : eq_str v s = true -> v = JStr s.
Proof.
  destruct v; simpl; try discriminate.
  intros E. apply String.eqb_eq in E. now subst.
Qed.

Lemma of_value_unrecognized (v : json) :
  (forall a, v <> JStr (ArmingState.value a)) ->
  ArmingState.of_value v = Raise ValueError.
Proof.
  intros Hv. unfold ArmingState.of_value, ArmingState.members. simpl.
  repeat match goal with
  | |- context [eq_str v ?s] =>
      let E := fresh "E" in
      destruct (eq_str v s) eqn:E;
      [ apply eq_str_true in E |]
  end;
  try reflexivity;
  match goal with
  | E : v = JStr _ |- _ => exfalso
  end.
  - apply (Hv ArmingState.DISARMED); assumption.
  - apply (Hv ArmingState.ARMED_STAY); assumption.
  - apply (Hv ArmingState.ARMED_AWAY); assumption.
  - apply (Hv ArmingState.ARMED_NIGHT); assumption.
  - apply (Hv ArmingState.UNKNOWN); assumption.
Qed.

Lemma parse_arming_state_unrecognized (attrs_ : list (string * json)) (v : json) :
  dict_get "armingLevel" attrs_ = Some v ->
  (forall a, v <> JStr (ArmingState.value a)) ->
  parse_arming_state attrs_ = Ok ArmingState.UNKNOWN.
Proof.
  intros Hget Hv. unfold parse_arming_state, get, get_or. rewrite Hget.
  destruct (truthy v); [| reflexivity].
  now rewrite of_value_unrecognized.
Qed.

(** [parse_arming_state] never raises: the only exception [ArmingState(...)]
    raises is the ValueError that the [except] clause handles. *)
Lemma parse_arming_state_total (attrs_ : list (string * json)) :
  exists a, parse_arming_state attrs_ = Ok a.
Proof.
  unfold parse_arming_state, ArmingState.of_value.
  destruct (truthy (get "armingLevel" attrs_)); [| eauto].
  destruct (find _ ArmingState.members); eauto.
Qed.

(** On a record (a dict whose "attributes", when present, is a dict)
    [Device.from_api] returns a device, typed by [determine_device_type]. *)
Lemma device_from_api_total (data_ attrs_ : list (string * json)) :
  get_or "attributes" (JObj []) data_ = JObj attrs_ ->
  exists d, Device_.from_api (JObj data_) = Ok d
            /\ device_type d = determine_device_type attrs_
            /\ parse_arming_state attrs_ = Ok (arming_state d).
Proof.
  intros Hattrs. unfold Device_.from_api. simpl. rewrite Hattrs. simpl.
  destruct (parse_arming_state_total attrs_) as [a Ha]. rewrite Ha. simpl.
  eexists. split; [reflexivity |]. split; reflexivity.
Qed.

(** C9. [Device.from_api] on a record whose attributes carry isPanel=true
    and armingLevel="armstay" gives a device of type panel ([is_panel]) that
    [is_armed]; on a record whose armingLevel is a value that is not the
    value of any [ArmingState] member it gives the arming state UNKNOWN, and
    in both cases it returns a device instead of raising. *)
Theorem device_from_api_arming (data_ attrs_ : list (string * json)) :
  dict_get "attributes" data_ = Some (JObj attrs_) ->
  exists d, Device_.from_api (JObj data_) = Ok d
    /\ (dict_get "isPanel" attrs_ = Some (JBool true) ->
        dict_get "armingLevel" attrs_ = Some (JStr "armstay") ->
        device_type d = DeviceType.PANEL /\ is_panel d = true
        /\ arming_state d = ArmingState.ARMED_STAY /\ is_armed d = true)
    /\ (forall v, dict_get "armingLevel" attrs_ = Some v ->
        (forall a, v <> JStr (ArmingState.value a)) ->
        arming_state d = ArmingState.UNKNOWN).
Proof.
  intros Hattrs.
  destruct (device_from_api_total data_ attrs_) as (d & Hd & Hty & Harm).
  { unfold get_or. now rewrite Hattrs. }
  exists d. split; [assumption |]. split.
  - intros Hpanel Hlevel.
    assert (Ht : device_type d = DeviceType.PANEL).
    { rewrite Hty. unfold determine_device_type, get, get_or. now rewrite Hpanel. }
    assert (Ha : arming_state d = ArmingState.ARMED_STAY).
    { unfold parse_arming_state, get, get_or in Harm. rewrite Hlevel in Harm.
      simpl in Harm. congruence. }
    unfold is_panel, is_armed. rewrite Ht, Ha. repeat split; reflexivity.
  - intros v Hlevel Hv.
    rewrite (parse_arming_state_unrecognized attrs_ v Hlevel Hv) in Harm. congruence.
Qed.

Lemma device_from_api_arming_witness :
  (exists d, Device_.from_api (JObj panel_armstay) = Ok d
             /\ is_panel d = true /\ is_armed d = true)
  /\ (exists d, Device_.from_api (JObj panel_bogus) = Ok d
                /\ arming_state d = ArmingState.UNKNOWN).
Proof.
  split.
  - destruct (device_from_api_arming panel_armstay
                [("isPanel", JBool true); ("armingLevel", JStr "armstay")] eq_refl)
      as (d & Hd & Hpanel & _).
    exists d. split; [exact Hd |].
    destruct (Hpanel eq_refl eq_refl) as (_ & Hp & _ & Ha). split; assumption.
  - destruct (device_from_api_arming panel_bogus
                [("isPanel", JBool true); ("armingLevel", JStr "bogus_value")] eq_refl)
      as (d & Hd & _ & Hunknown).
    exists d. split; [exact Hd |].
    apply (Hunknown (JStr "bogus_value") eq_refl).
    intros a. destruct a; discriminate.
Defined.

(** C10. [Device.from_api] gives a device one type: no device it returns is
    both [is_panel] and [is_camera]; on every record it does return a
    device; and when the attributes mark both isPanel and isCamera the
    device is a panel. *)
Theorem device_from_api_one_type (data : json) :
  (forall d, Device_.from_api data = Ok d -> is_panel d && is_camera d = false)
  /\ (forall data_ attrs_,
        data = JObj data_ ->
        get_or "attributes" (JObj []) data_ = JObj attrs_ ->
        exists d, Device_.from_api data = Ok d
          /\ (truthy (get "isPanel" attrs_) = true ->
              truthy (get "isCamera" attrs_) = true ->
              device_type d = DeviceType.PANEL
              /\ is_panel d = true /\ is_camera d = false)).
Proof.
  split.
  - intros d _. unfold is_panel, is_camera. destruct (device_type d); reflexivity.
  - intros data_ attrs_ -> Hattrs.
    destruct (device_from_api_total data_ attrs_ Hattrs) as (d & Hd & Hty & _).
    exists d. split; [assumption |].
    intros Hpanel _.
    assert (Ht : device_type d = DeviceType.PANEL).
    { rewrite Hty. unfold determine_device_type. now rewrite Hpanel. }
    unfold is_panel, is_camera. rewrite Ht. repeat split; reflexivity.
Qed.

Lemma device_from_api_one_type_witness :
  exists d, Device_.from_api (JObj panel_and_camera) = Ok d
            /\ is_panel d = true /\ is_camera d = false.
Proof.
  destruct (device_from_api_one_type (JObj panel_and_camera)) as [_ Hrec].
  destruct (Hrec panel_and_camera
              [("isCamera", JBool true); ("isPanel", JBool true)] eq_refl eq_refl)
    as (d & Hd & Hboth).
  exists d. split; [exact Hd |].
  destruct (Hboth eq_refl eq_refl) as (_ & Hp & Hc). split; assumption.
Defined.

(* ================================================================== *)
(** * Properties of the token store                                    *)
(* ================================================================== *)

Lemma Qltb_lt (x y : Q) : Qltb x y = true <-> (x < y)%Q.
Proof.
  unfold Qltb. rewrite negb_true_iff. split.
  - intros E. apply Qnot_le_lt. intros Hle.
    apply Qle_bool_iff in Hle. congruence.
  - intros Hlt. destruct (Qle_bool y x) eqn:E; [| reflexivity].
    apply Qle_bool_iff in E. apply Qlt_not_le in Hlt. contradiction.
Qed.

Lemma Qltb_ge (x y : Q) : (y <= x)%Q -> Qltb x y = false.
Proof.
  intros Hle. destruct (Qltb x y) eqn:E; [| reflexivity].
  apply Qltb_lt in E. apply Qlt_not_le in E. contradiction.
Qed.

(** [is_authenticated], run: the clock is read only when a token is held. *)
Lemma is_authenticated_eq {W : Type} `{World W} (s : state W) :
  is_authenticated s =
  match _access_token (self s) with
  | JNull => (Ok false, s)
  | _ => (Ok (Qltb (fst (time_time (world s)))
                   (_token_expiry (self s) - inject_Z TOKEN_REFRESH_BUFFER)),
          {| self := self s; world := snd (time_time (world s));
             history := history s |})
  end.
Proof.
  unfold is_authenticated, bind, get_self, now, ret.
  destruct (_access_token (self s)); try reflexivity;
    destruct (time_time (world s)); reflexivity.
Qed.

(** C5. [is_authenticated] is true exactly when an access token is present
    and the clock reads less than the recorded expiry minus the 180 second
    refresh buffer.  A freshly constructed client is not authenticated and
    has neither token; a client whose token expires within the buffer is
    not authenticated. *)
Theorem is_authenticated_spec {W : Type} `{World W} (s : state W) :
  let t := fst (time_time (world s)) in
  (exists b, fst (is_authenticated s) = Ok b
     /\ (b = true <->
         _access_token (self s) <> JNull
         /\ (t < _token_expiry (self s) - inject_Z 180)%Q))
  /\ (forall client_id client_secret base_url,
        self s = __init__ client_id client_secret base_url ->
        fst (is_authenticated s) = Ok false
        /\ access_token (self s) = JNull /\ refresh_token (self s) = JNull)
  /\ ((_token_expiry (self s) - t <= inject_Z TOKEN_REFRESH_BUFFER)%Q ->
      fst (is_authenticated s) = Ok false).
Proof.
  intros t. subst t. rewrite is_authenticated_eq.
  unfold TOKEN_REFRESH_BUFFER. split; [| split].
  - destruct (_access_token (self s)) eqn:Etok; simpl;
      try (eexists; split; [reflexivity |]; rewrite Qltb_lt;
           split; [intros Hlt; split; [discriminate | exact Hlt]
                  | intros [_ Hlt]; exact Hlt]).
    exists false. split; [reflexivity |].
    split; [discriminate | intros [Hne _]; congruence].
  - intros client_id client_secret base_url ->. repeat split.
  - intros Hwin.
    assert (Hge : (_token_expiry (self s) - inject_Z 180
                   <= fst (time_time (world s)))%Q).
    { lra. }
    destruct (_access_token (self s)); simpl; try reflexivity;
      now rewrite (Qltb_ge _ _ Hge).
Qed.

Lemma is_authenticated_spec_witness :
  fst (is_authenticated (start fresh_client {| clock := 100; replies := [] |})) = Ok false
  /\ fst (is_authenticated
            (start (with_token_expiry 279 signed_in) {| clock := 100; replies := [] |}))
     = Ok false.
Proof.
  split.
  - destruct (is_authenticated_spec (start fresh_client {| clock := 100; replies := [] |}))
      as (_ & Hfresh & _).
    destruct (Hfresh COVE_CLIENT_ID COVE_CLIENT_SECRET API_BASE_URL eq_refl) as [Hno _].
    exact Hno.
  - destruct (is_authenticated_spec
                (start (with_token_expiry 279 signed_in) {| clock := 100; replies := [] |}))
      as (_ & _ & Hwindow).
    apply Hwindow. vm_compute. discriminate.
Defined.

Lemma FLOAT_LIMIT_large : 300 < FLOAT_LIMIT.
Proof. vm_compute. reflexivity. Qed.

Lemma float_of_int_ok (n : Z) :
  Z.abs n < FLOAT_LIMIT -> float_of_int n = Ok (inject_Z n).
Proof. intros Hn. unfold float_of_int. apply Z.ltb_lt in Hn. now rewrite Hn. Qed.

Lemma float_of_int_overflow (n : Z) :
  FLOAT_LIMIT <= Z.abs n -> float_of_int n = Raise OverflowError.
Proof. intros Hn. unfold float_of_int. apply Z.ltb_ge in Hn. now rewrite Hn. Qed.

(** [restore_tokens], run: the tokens are stored, the clock is read, and the
    expiry is stored when the clamped lifetime converts to a float. *)
Lemma restore_tokens_eq {W : Type} `{World W}
    (s : state W) (access refresh : string) (expires_in : Z) :
  let stored := with_refresh_token (JStr refresh)
                  (with_access_token (JStr access) (self s)) in
  restore_tokens access refresh expires_in s
  = match float_of_int (Z.min expires_in 300) with
    | Ok seconds =>
        (Ok tt, {| self := with_token_expiry (fst (time_time (world s)) + seconds) stored;
                   world := snd (time_time (world s)); history := history s |})
    | Raise e =>
        (Raise e, {| self := stored; world := snd (time_time (world s));
                     history := history s |})
    end.
Proof.
  unfold restore_tokens, bind, set_self, now, lift, add_seconds. cbn.
  destruct (time_time (world s)) as [t w]. cbn.
  destruct (float_of_int (Z.min expires_in 300)); reflexivity.
Qed.

(** C6, as the code has it.  [restore_tokens(access, refresh, expires_in)]
    stores the two tokens as given and only reads the clock: the session is
    not called and the history is unchanged.  When [expires_in] is above the
    negative of the float limit (however large it is) the call returns with
    the expiry set to the clock reading plus [min(expires_in, 300)], hence
    at most 300 seconds ahead.  Otherwise the conversion of the lifetime to
    a float raises OverflowError and the expiry stays as it was. *)
Theorem restore_tokens_clamps {W : Type} `{World W}
    (s : state W) (access refresh : string) (expires_in : Z) :
  let t := fst (time_time (world s)) in
  let s' := snd (restore_tokens access refresh expires_in s) in
  access_token (self s') = JStr access
  /\ refresh_token (self s') = JStr refresh
  /\ history s' = history s
  /\ world s' = snd (time_time (world s))
  /\ (- FLOAT_LIMIT < expires_in ->
      fst (restore_tokens access refresh expires_in s) = Ok tt
      /\ token_expiry (self s') = (t + inject_Z (Z.min expires_in 300))%Q
      /\ (token_expiry (self s') <= t + inject_Z 300)%Q)
  /\ (expires_in <= - FLOAT_LIMIT ->
      fst (restore_tokens access refresh expires_in s) = Raise OverflowError
      /\ token_expiry (self s') = token_expiry (self s)).
Proof.
  cbv zeta. rewrite restore_tokens_eq. cbv zeta.
  pose proof FLOAT_LIMIT_large as Hlimit.
  destruct (Z_lt_le_dec (- FLOAT_LIMIT) expires_in) as [Hin | Hout].
  - rewrite float_of_int_ok by lia. cbn.
    repeat split; try lia.
    apply Qplus_le_r. rewrite <- Zle_Qle. apply Z.le_min_r.
  - rewrite float_of_int_overflow by lia. cbn.
    repeat split; lia.
Qed.

Lemma restore_tokens_clamps_witness :
  let s' := snd (restore_tokens "a" "r" 9999
                   (start fresh_client {| clock := 100; replies := [] |})) in
  access_token (self s') = JStr "a"
  /\ refresh_token (self s') = JStr "r"
  /\ (token_expiry (self s') <= 400)%Q
  /\ history s' = [].
Proof.
  destruct (restore_tokens_clamps (start fresh_client {| clock := 100; replies := [] |})
              "a" "r" 9999) as (Haccess & Hrefresh & Hhistory & _ & Hin & _).
  destruct (Hin ltac:(vm_compute; reflexivity)) as (_ & _ & Hexpiry).
  cbv zeta. split; [exact Haccess |]. split; [exact Hrefresh |].
  split; [exact Hexpiry | exact Hhistory].
Defined.

(** An [expires_in] too negative for a float: the call raises, and the
    expiry of the tokens that were held, 900 seconds ahead, stays in place
    for the restored ones. *)
Lemma restore_tokens_overflow :
  let s := start signed_in {| clock := 100; replies := [] |} in
  let run := restore_tokens "a" "r" (- 10 ^ 400) s in
  fst run = Raise OverflowError
  /\ access_token (self (snd run)) = JStr "a"
  /\ token_expiry (self (snd run)) = 1000%Q
  /\ ~ (token_expiry (self (snd run)) <= 100 + inject_Z 300)%Q.
Proof.
  cbv zeta. split; [vm_compute; reflexivity |].
  split; [vm_compute; reflexivity |].
  split; [vm_compute; reflexivity |].
  vm_compute. intros Hle. now apply Hle.
Qed.

(** C7. [async_refresh] called with no refresh token while none is stored
    raises AlulaAuthError("No refresh token available") and leaves the
    client, the world and the history as they were: the session is not
    called.  ("No token" is any false value: [None] or the empty string.) *)
Theorem async_refresh_without_token {W : Type} `{World W}
    (s : state W) (supplied : json) :
  truthy supplied = false ->
  truthy (_refresh_token (self s)) = false ->
  async_refresh supplied s = (Raise (AlulaAuthError "No refresh token available"), s).
Proof.
  intros Hsupplied Hstored.
  unfold async_refresh, bind, get_self, py_or.
  rewrite Hsupplied, Hstored. reflexivity.
Qed.

Lemma async_refresh_without_token_witness :
  async_refresh JNull (start fresh_client {| clock := 100; replies := [] |})
  = (Raise (AlulaAuthError "No refresh token available"),
     start fresh_client {| clock := 100; replies := [] |}).
Proof.
  apply (async_refresh_without_token
           (start fresh_client {| clock := 100; replies := [] |}) JNull);
    reflexivity.
Defined.

(* ================================================================== *)
(** * Properties of the request pipeline                               *)
(* ================================================================== *)

Section Run.
Context {W : Type} `{World W}.

Lemma bind_ok {A B} (c : M W A) (k : A -> M W B) s a s' :
  c s = (Ok a, s') -> bind c k s = k a s'.
Proof. intros E. unfold bind. now rewrite E. Qed.

Lemma bind_raise {A B} (c : M W A) (k : A -> M W B) s e s' :
  c s = (Raise e, s') -> bind c k s = (Raise e, s').
Proof. intros E. unfold bind. now rewrite E. Qed.

Lemma try_ok {A} (c : M W A) h s a s' :
  c s = (Ok a, s') -> try_except c h s = (Ok a, s').
Proof. intros E. unfold try_except. now rewrite E. Qed.

Lemma try_raise {A} (c : M W A) h s e s' :
  c s = (Raise e, s') -> try_except c h s = h e s'.
Proof. intros E. unfold try_except. now rewrite E. Qed.

Lemma send_eq (c : http_call) (s : state W) o w :
  session_send c (world s) = (o, w) ->
  send c s = (match o with Responds r => Ok r | Throws e => Raise e end, sent s c o w).
Proof. intros E. unfold send. rewrite E. destruct o; reflexivity. Qed.

Lemma request_first_not_401 method path json_data params (s s1 : state W) r1 w2 :
  _ensure_token s = (Ok tt, s1) ->
  session_send (first_call (self s1) method path json_data params) (world s1)
    = (Responds r1, w2) ->
  resp_status r1 <> 401 ->
  _request method path json_data params s =
    let s2 := sent s1 (first_call (self s1) method path json_data params) (Responds r1) w2 in
    if 400 <=? resp_status r1
    then (Raise (connection_error method path (ClientResponseError (resp_status r1))), s2)
    else match resp_json r1 with
         | Ok j => (Ok j, s2)
         | Raise e => classify method path e s2
         end.
Proof.
  intros Hensure Hsend Hstatus.
  unfold _request. rewrite (bind_ok _ _ _ _ _ Hensure).
  unfold get_self at 1. unfold bind at 1.
  fold (first_call (self s1) method path json_data params).
  set (s2 := sent s1 (first_call (self s1) method path json_data params) (Responds r1) w2).
  unfold try_except.
  rewrite (bind_ok _ _ _ _ _ (send_eq _ _ _ _ Hsend)). fold s2.
  apply Z.eqb_neq in Hstatus. rewrite Hstatus.
  unfold raise_for_status, connection_error.
  destruct (400 <=? resp_status r1); [reflexivity |].
  unfold bind, ret, lift. destruct (resp_json r1); reflexivity.
Qed.

Lemma request_first_401 method path json_data params (s s1 : state W) r1 w2 :
  _ensure_token s = (Ok tt, s1) ->
  session_send (first_call (self s1) method path json_data params) (world s1)
    = (Responds r1, w2) ->
  resp_status r1 = 401 ->
  _request method path json_data params s =
    let s2 := logged (sent s1 (first_call (self s1) method path json_data params)
                           (Responds r1) w2)
                     "Got 401, attempting token refresh and retry" [] in
    match async_refresh JNull s2 with
    | (Raise e, s3) => classify method path e s3
    | (Ok _, s3) =>
        let call2 := retry_call (self s1) (self s3) method path json_data params in
        let o := fst (session_send call2 (world s3)) in
        let s4 := sent s3 call2 o (snd (session_send call2 (world s3))) in
        match o with
        | Throws e => classify method path e s4
        | Responds r2 =>
            if resp_status r2 =? 401
            then (Raise (AlulaAuthError "Authentication failed after refresh"), s4)
            else if 400 <=? resp_status r2
            then (Raise (connection_error method path
                           (ClientResponseError (resp_status r2))), s4)
            else match resp_json r2 with
                 | Ok j => (Ok j, s4)
                 | Raise e => classify method path e s4
                 end
        end
    end.
Proof.
  intros Hensure Hsend Hstatus.
  unfold _request. rewrite (bind_ok _ _ _ _ _ Hensure).
  unfold get_self at 1. unfold bind at 1.
  fold (first_call (self s1) method path json_data params).
  unfold try_except.
  rewrite (bind_ok _ _ _ _ _ (send_eq _ _ _ _ Hsend)).
  rewrite Hstatus. cbn [Z.eqb Pos.eqb].
  unfold debug, emit. unfold bind at 1.
  fold (logged (sent s1 (first_call (self s1) method path json_data params)
                     (Responds r1) w2)
               "Got 401, attempting token refresh and retry" []).
  set (s2 := logged _ _ _).
  unfold bind at 1.
  destruct (async_refresh JNull s2) as [[ti | e] s3]; [| reflexivity].
  unfold get_self at 1. unfold bind at 1.
  fold (retry_call (self s1) (self s3) method path json_data params).
  set (call2 := retry_call _ _ _ _ _ _).
  destruct (session_send call2 (world s3)) as [o w4] eqn:Hretry.
  cbn [fst snd].
  pose proof (send_eq _ _ _ _ Hretry) as Hsent.
  destruct o as [r2 | e].
  - rewrite (bind_ok _ _ _ _ _ Hsent).
    destruct (resp_status r2 =? 401); [reflexivity |].
    unfold raise_for_status, connection_error.
    destruct (400 <=? resp_status r2); [reflexivity |].
    unfold bind, ret, lift. destruct (resp_json r2); reflexivity.
  - rewrite (bind_raise _ _ _ _ _ Hsent). reflexivity.
Qed.

Lemma add_seconds_raise t v e : add_seconds t v = Raise e -> is_ClientError e = false.
Proof.
  destruct v; cbn; try (intros [= <-]; reflexivity).
  unfold float_of_int. destruct (Z.abs n <? FLOAT_LIMIT); cbn; intros [= <-]; reflexivity.
Qed.

Lemma subscript_raise v k e : subscript v k = Raise e -> is_ClientError e = false.
Proof.
  destruct v; cbn; try (intros [= <-]; reflexivity).
  destruct (dict_get k o); intros [= <-]; reflexivity.
Qed.

Lemma py_get_raise v k dflt e : py_get v k dflt = Raise e -> is_ClientError e = false.
Proof. destruct v; cbn; intros [= <-]; reflexivity. Qed.

Lemma token_request_effect kwargs (s : state W) r s' :
  _token_request kwargs s = (r, s') ->
  exists evs, history s' = (history s ++ evs)%list
    /\ attempts evs = []
    /\ length (token_posts evs) = 1%nat
    /\ match r with
       | Ok ti => exists expiry,
           self s' = with_token_expiry expiry
                       (with_refresh_token (ti_refresh_token ti)
                          (with_access_token (ti_access_token ti) (self s)))
       | Raise e => is_ClientError e = false
       end.
Proof.
  intros E.
  unfold _token_request, bind, try_except, get_self, send, raise_for_status,
    lift, raise, ret, set_self, now, debug, emit in E.
  cbn in E.
  run_match E.
  all: inversion E; subst; clear E; cbn.
  all: rewrite <- ?app_assoc; eexists; (split; [reflexivity |]); cbn.
  all: repeat split; eauto using add_seconds_raise, subscript_raise, py_get_raise.
Qed.

Lemma async_refresh_effect supplied (s : state W) r s' :
  async_refresh supplied s = (r, s') ->
  exists evs, history s' = (history s ++ evs)%list
    /\ attempts evs = []
    /\ (length (token_posts evs) <= 1)%nat
    /\ match r with
       | Ok ti => length (token_posts evs) = 1%nat
           /\ exists expiry,
               self s' = with_token_expiry expiry
                           (with_refresh_token (ti_refresh_token ti)
                              (with_access_token (ti_access_token ti) (self s)))
       | Raise e => is_ClientError e = false
       end.
Proof.
  unfold async_refresh, bind, get_self.
  destruct (negb (truthy (py_or supplied (_refresh_token (self s))))).
  - intros [= <- <-]. exists []. rewrite app_nil_r. cbn. auto.
  - intros E. apply token_request_effect in E as (evs & Hh & Ha & Ht & Hr).
    exists evs. repeat split; try assumption; [lia |].
    destruct r; [split |]; assumption.
Qed.

Lemma is_authenticated_effect (s : state W) :
  exists b, fst (is_authenticated s) = Ok b
    /\ self (snd (is_authenticated s)) = self s
    /\ history (snd (is_authenticated s)) = history s.
Proof.
  rewrite is_authenticated_eq.
  destruct (_access_token (self s)); cbn; eauto.
Qed.

Lemma ensure_token_valid (s : state W) :
  fst (is_authenticated s) = Ok true ->
  _ensure_token s = (Ok tt, snd (is_authenticated s)).
Proof.
  intros Hvalid. unfold _ensure_token, bind.
  destruct (is_authenticated s) as [valid s0]. cbn in Hvalid. now subst.
Qed.

Lemma ensure_token_effect (s : state W) r s' :
  _ensure_token s = (r, s') ->
  exists evs, history s' = (history s ++ evs)%list
    /\ attempts evs = []
    /\ (length (token_posts evs) <= 1)%nat.
Proof.
  destruct (is_authenticated_effect s) as (b & Hb & _ & Hh).
  unfold _ensure_token. unfold bind at 1.
  destruct (is_authenticated s) as [valid s0]. cbn in Hb, Hh. subst valid.
  destruct b.
  - intros [= <- <-]. exists []. rewrite app_nil_r. cbn. auto.
  - unfold bind at 1, get_self at 1.
    destruct (truthy (_refresh_token (self s0))).
    + unfold debug, emit. unfold bind at 1. unfold bind at 1.
      destruct (async_refresh JNull _) as [rr s3] eqn:Hrefresh.
      apply async_refresh_effect in Hrefresh as (evs & Hh3 & Ha & Ht & _).
      cbn in Hh3. rewrite Hh, <- app_assoc in Hh3.
      intros E.
      assert (s' = s3) as -> by (destruct rr; cbn in E; unfold ret in E; congruence).
      eexists. split; [exact Hh3 |]. cbn. auto.
    + intros [= <- <-]. exists []. rewrite app_nil_r. cbn. auto.
Qed.

Lemma classify_state method path e (s : state W) :
  snd (classify method path e s) = s.
Proof.
  unfold classify. destruct (is_AlulaAuthError e); [reflexivity |].
  destruct (is_ClientError e); reflexivity.
Qed.

Lemma classify_foreign method path e (s : state W) :
  is_ClientError e = false -> classify method path e s = (Raise e, s).
Proof.
  intros He. unfold classify. rewrite He.
  destruct (is_AlulaAuthError e); reflexivity.
Qed.

Lemma attempts_app (h1 h2 : list event) :
  attempts (h1 ++ h2) = (attempts h1 ++ attempts h2)%list.
Proof. apply List.filter_app. Qed.

Lemma token_posts_app (h1 h2 : list event) :
  token_posts (h1 ++ h2) = (token_posts h1 ++ token_posts h2)%list.
Proof. apply List.filter_app. Qed.

Lemma ensure_token_attempts (s : state W) r s' :
  _ensure_token s = (r, s') -> attempts (history s') = attempts (history s).
Proof.
  intros E. apply ensure_token_effect in E as (evs & -> & Ha & _).
  now rewrite attempts_app, Ha, app_nil_r.
Qed.
End Run.

(** C1, as the code has it.  Take a request whose pre-check [_ensure_token]
    returned and whose first attempt is answered 401.  The pipeline logs,
    then calls [async_refresh] once; that call makes no attempt of the
    request and at most one post to the token endpoint.
    - If the refresh raises, [_request] raises the same exception and makes
      no retry: the run holds one attempt.
    - If the refresh returns, it made exactly one token exchange and stored
      the new tokens; [_request] then sends the same request once more, its
      Authorization header carrying the new access token, and stops: the
      run holds exactly two attempts, and the client is not touched after
      the refresh.  A retry answered 401 raises
      AlulaAuthError("Authentication failed after refresh"); a retry
      answered 2xx whose body decodes returns that body. *)
Theorem request_401_refresh_then_retry {W : Type} `{World W}
    (method path : string) (json_data params : json) (s s1 : state W)
    (r1 : response) (w2 : W) :
  _ensure_token s = (Ok tt, s1) ->
  session_send (first_call (self s1) method path json_data params) (world s1)
    = (Responds r1, w2) ->
  resp_status r1 = 401 ->
  let call1 := first_call (self s1) method path json_data params in
  let s2 := logged (sent s1 call1 (Responds r1) w2)
                   "Got 401, attempting token refresh and retry" [] in
  let run := _request method path json_data params s in
  exists refreshed s3 evs,
    async_refresh JNull s2 = (refreshed, s3)
    /\ history s3 = (history s2 ++ evs)%list
    /\ attempts evs = []
    /\ match refreshed with
       | Raise e =>
           (length (token_posts evs) <= 1)%nat
           /\ run = (Raise e, s3)
           /\ attempts (history (snd run))
              = (attempts (history s) ++ [Http call1 (Responds r1)])%list
       | Ok ti =>
           let call2 := retry_call (self s1) (self s3) method path json_data params in
           let o := fst (session_send call2 (world s3)) in
           length (token_posts evs) = 1%nat
           /\ (exists expiry,
                 self s3 = with_token_expiry expiry
                             (with_refresh_token (ti_refresh_token ti)
                                (with_access_token (ti_access_token ti) (self s1))))
           /\ snd run = sent s3 call2 o (snd (session_send call2 (world s3)))
           /\ attempts (history (snd run))
              = (attempts (history s) ++ [Http call1 (Responds r1); Http call2 o])%list
           /\ token_posts (history (snd run))
              = (token_posts (history s1) ++ token_posts evs)%list
           /\ (forall r2, o = Responds r2 -> resp_status r2 = 401 ->
                fst run = Raise (AlulaAuthError "Authentication failed after refresh"))
           /\ (forall r2 body, o = Responds r2 -> 200 <= resp_status r2 < 300 ->
                resp_json r2 = Ok body -> fst run = Ok body)
       end.
Proof.
  intros Hensure Hsend Hstatus call1 s2 run.
  pose proof (request_first_401 method path json_data params s s1 r1 w2
                Hensure Hsend Hstatus) as Hrun.
  cbv zeta in Hrun. fold call1 s2 run in Hrun.
  destruct (async_refresh JNull s2) as [refreshed s3] eqn:Hrefresh.
  destruct (async_refresh_effect _ _ _ _ Hrefresh) as (evs & Hh & Ha & Ht & Hr).
  pose proof (ensure_token_attempts _ _ _ Hensure) as Hpre.
  exists refreshed, s3, evs. repeat (split; [first [reflexivity | assumption] |]).
  assert (Hatt3 : attempts (history s3)
                  = (attempts (history s) ++ [Http call1 (Responds r1)])%list).
  { rewrite Hh. subst s2. cbn [history logged sent].
    rewrite !attempts_app, Ha, Hpre. cbn. now rewrite !app_nil_r. }
  destruct refreshed as [ti | e].
  - destruct Hr as [Hone Hself].
    set (call2 := retry_call (self s1) (self s3) method path json_data params) in *.
    set (o := fst (session_send call2 (world s3))) in *.
    set (s4 := sent s3 call2 o (snd (session_send call2 (world s3)))) in *.
    assert (Hfinal : snd run = s4).
    { rewrite Hrun. destruct o as [r2 | e].
      - destruct (resp_status r2 =? 401); [reflexivity |].
        destruct (400 <=? resp_status r2); [reflexivity |].
        destruct (resp_json r2); [reflexivity | apply classify_state].
      - apply classify_state. }
    cbv zeta. fold call2 o s4.
    repeat split; try assumption.
    + rewrite Hfinal. subst s4. cbn [history sent].
      rewrite attempts_app, Hatt3, <- app_assoc. reflexivity.
    + rewrite Hfinal. subst s4. cbn [history sent]. rewrite Hh. subst s2.
      cbn [history logged sent].
      rewrite !token_posts_app. cbn. now rewrite !app_nil_r.
    + intros r2 Ho H401. rewrite Hrun, Ho.
      apply Z.eqb_eq in H401. now rewrite H401.
    + intros r2 body Ho [Hlo Hhi] Hbody. rewrite Hrun, Ho.
      assert (E1 : (resp_status r2 =? 401) = false) by (apply Z.eqb_neq; lia).
      assert (E2 : (400 <=? resp_status r2) = false) by (apply Z.leb_gt; lia).
      now rewrite E1, E2, Hbody.
  - split; [assumption |].
    rewrite (classify_foreign _ _ _ _ Hr) in Hrun.
    split; [assumption |]. now rewrite Hrun.
Qed.

Lemma request_401_refresh_then_retry_witness :
  (let run := _request "GET" "/api/v1/self" JNull JNull (start signed_in refresh_then_ok) in
   fst run = Ok (JObj [("data", JArr [])])
   /\ length (attempts (history (snd run))) = 2%nat
   /\ length (token_posts (history (snd run))) = 1%nat
   /\ _access_token (self (snd run)) = JStr "a1")
  /\ (let run := _request "GET" "/api/v1/self" JNull JNull
                   (start signed_in unauthorized_twice) in
      fst run = Raise (AlulaAuthError "Authentication failed after refresh")
      /\ length (attempts (history (snd run))) = 2%nat).
Proof.
  split.
  - destruct (@request_401_refresh_then_retry script script_world "GET" "/api/v1/self" JNull JNull
                (start signed_in refresh_then_ok) (start signed_in refresh_then_ok)
                {| resp_status := 401; resp_json := Ok (JObj []) |}
                {| clock := 100;
                   replies := [replied 200 (token_body "a1" "r1");
                               replied 200 (JObj [("data", JArr [])])] |}
                ltac:(vm_compute; reflexivity) ltac:(vm_compute; reflexivity) eq_refl)
      as (refreshed & s3 & evs & Hrefresh & Hh & _ & Hcases).
    vm_compute in Hrefresh. injection Hrefresh as <- <-.
    destruct Hcases as (_ & _ & Hfinal & Hatt & Hposts & _ & Hok).
    cbv zeta. split; [| split; [| split]].
    + apply (Hok {| resp_status := 200; resp_json := Ok (JObj [("data", JArr [])]) |});
        [reflexivity | cbn; lia | reflexivity].
    + rewrite Hatt. reflexivity.
    + rewrite Hposts. vm_compute in Hh. injection Hh as <-. reflexivity.
    + rewrite Hfinal. reflexivity.
  - destruct (@request_401_refresh_then_retry script script_world "GET" "/api/v1/self" JNull JNull
                (start signed_in unauthorized_twice) (start signed_in unauthorized_twice)
                {| resp_status := 401; resp_json := Ok (JObj []) |}
                {| clock := 100;
                   replies := [replied 200 (token_body "a1" "r1");
                               replied 401 (JObj [])] |}
                ltac:(vm_compute; reflexivity) ltac:(vm_compute; reflexivity) eq_refl)
      as (refreshed & s3 & evs & Hrefresh & _ & _ & Hcases).
    vm_compute in Hrefresh. injection Hrefresh as <- <-.
    destruct Hcases as (_ & _ & _ & Hatt & _ & H401 & _).
    cbv zeta. split.
    + apply (H401 {| resp_status := 401; resp_json := Ok (JObj []) |}); reflexivity.
    + rewrite Hatt. reflexivity.
Defined.

(** C1, as the specification states it, fails: signed in with a valid
    token, the first attempt is answered 401 and the token endpoint rejects
    the refresh token.  The AlulaAuthError of the refresh is raised after
    one attempt: there is no retry. *)
Lemma request_401_refresh_rejected :
  (let run := _request "GET" "/api/v1/self" JNull JNull
                (start signed_in refresh_rejected) in
   fst run = Raise (AlulaAuthError [Lit "Refresh token expired"])
   /\ length (attempts (history (snd run))) = 1%nat
   /\ self (snd run) = signed_in)
  /\ ~ always_one_refresh_one_retry.
Proof.
  split.
  - vm_compute. repeat split.
  - intros Hclaim.
    specialize (Hclaim script script_world "GET" "/api/v1/self" JNull JNull
                  (start signed_in refresh_rejected) (start signed_in refresh_rejected)
                  {| resp_status := 401; resp_json := Ok (JObj []) |}
                  {| clock := 100;
                     replies := [replied 401
                                   (JObj [("error_description",
                                           JStr "Refresh token expired")])] |}
                  ltac:(vm_compute; reflexivity) ltac:(vm_compute; reflexivity) eq_refl).
    destruct Hclaim as [_ Hattempts]. vm_compute in Hattempts. discriminate.
Qed.

(** When the stored token is past its expiry the pre-check refreshes before
    the first attempt; a 401 on that attempt brings a second refresh: two
    token exchanges in one request, and the token is stored twice. *)
Lemma request_401_after_precheck_refresh :
  let run := _request "GET" "/api/v1/self" JNull JNull
               (start expired_client precheck_refresh_then_401) in
  fst run = Ok (JObj [("data", JArr [])])
  /\ length (token_posts (history (snd run))) = 2%nat
  /\ length (attempts (history (snd run))) = 2%nat
  /\ _access_token (self (snd run)) = JStr "a2".
Proof. vm_compute. repeat split. Qed.

(** An HTTP error status other than 401 leaves [raise_for_status] as an
    [aiohttp.ClientResponseError], which the [except aiohttp.ClientError]
    clause of [_request] turns into an AlulaConnectionError. *)
Lemma request_error_status {W : Type} `{World W}
    (method path : string) (json_data params : json) (s s1 : state W)
    (r1 : response) (w2 : W) :
  _ensure_token s = (Ok tt, s1) ->
  session_send (first_call (self s1) method path json_data params) (world s1)
    = (Responds r1, w2) ->
  400 <= resp_status r1 ->
  resp_status r1 <> 401 ->
  _request method path json_data params s
  = (Raise (connection_error method path (ClientResponseError (resp_status r1))),
     sent s1 (first_call (self s1) method path json_data params) (Responds r1) w2).
Proof.
  intros Hensure Hsend Hge Hne.
  rewrite (request_first_not_401 _ _ _ _ _ _ _ _ Hensure Hsend Hne).
  cbv zeta. apply Z.leb_le in Hge. now rewrite Hge.
Qed.

(** C2 fails on the code.  A GET that the server answers with status 500
    does not raise an AlulaApiError carrying 500 and the body: [_request]
    raises an AlulaConnectionError whose cause is the ClientResponseError
    of [raise_for_status]. *)
Theorem request_500_raises_connection_error :
  let run := _request "GET" "/api/v1/devices" JNull JNull (start signed_in server_error) in
  fst run = Raise (AlulaConnectionError "Connection error: GET /api/v1/devices: "
                     (ClientResponseError 500))
  /\ (exists e, fst run = Raise e
        /\ is_AlulaApiError e = false /\ is_AlulaConnectionError e = true).
Proof.
  cbv zeta.
  rewrite (@request_error_status script script_world "GET" "/api/v1/devices" JNull JNull
             (start signed_in server_error) (start signed_in server_error)
             {| resp_status := 500;
                resp_json := Ok (JObj [("message", JStr "Internal Server Error")]) |}
             {| clock := 100; replies := [] |}
             ltac:(vm_compute; reflexivity) ltac:(vm_compute; reflexivity)
             ltac:(cbn; lia) ltac:(cbn; lia)).
  split; [reflexivity |].
  eexists. split; [reflexivity |]. split; reflexivity.
Qed.


(* ================================================================== *)
(** * Properties of zone discovery                                     *)
(* ================================================================== *)

Section Scan.
Context `{Unicode}.

Lemma decimals_isdigit (cs : list N) (ds : list Z) :
  decimals cs = Some ds -> forallb char_isdigit cs = true.
Proof.
  revert ds. induction cs as [| c rest IH]; intros ds; cbn; [reflexivity |].
  destruct (to_decimal c) as [d |] eqn:Hc; [| discriminate].
  destruct (decimals rest) as [ds' |]; [| discriminate]. intros _.
  unfold char_isdigit at 1. rewrite (decimal_is_digit c d Hc). cbn.
  now apply (IH ds').
Qed.

Lemma decimals_bounds (cs : list N) (ds : list Z) :
  decimals cs = Some ds -> Forall (fun d => 0 <= d <= 9) ds.
Proof.
  revert ds. induction cs as [| c rest IH]; intros ds; cbn.
  - intros [= <-]. constructor.
  - destruct (to_decimal c) as [d |] eqn:Hc; [| discriminate].
    destruct (decimals rest) as [ds' |]; [| discriminate]. intros [= <-].
    constructor; [exact (decimal_bounds c d Hc) | now apply IH].
Qed.

Lemma decimal_value_nonneg (ds : list Z) :
  forall acc, 0 <= acc -> Forall (fun d => 0 <= d <= 9) ds -> 0 <= decimal_value acc ds.
Proof.
  induction ds as [| d rest IH]; intros acc Hacc Hds; cbn; [exact Hacc |].
  inversion Hds as [| ? ? Hd Hrest]; subst. apply IH; [lia | exact Hrest].
Qed.

Lemma contribution_contributes (entry : json) (k : Z) (info : json) :
  contribution entry = Some (k, info) <-> contributes entry k info.
Proof.
  unfold contribution, contributes. split.
  - destruct entry as [| | | | | | entry_]; try discriminate.
    destruct (get_or "attributes" (JObj []) entry_) as [| | | | | | attrs] eqn:Hattrs;
      try discriminate.
    destruct (get_or "signalUserZone" (JStr "") attrs) as [| | | | s | |] eqn:Hzone;
      try discriminate.
    destruct (decimals (code_points s)) as [ds |] eqn:Hdigits; [| discriminate].
    destruct (negb (String.eqb s "")) eqn:Hne; [| discriminate].
    destruct (decimal_value 0 ds =? 0) eqn:Hzero; [discriminate |].
    cbn. intros [= <- <-].
    exists entry_, attrs, s, ds. repeat split; try assumption.
    + apply negb_true_iff, String.eqb_neq in Hne. exact Hne.
    + apply Z.eqb_neq in Hzero. exact Hzero.
  - intros (entry_ & attrs & s & ds & -> & -> & -> & Hne & -> & Hk & Hnz & ->).
    apply String.eqb_neq in Hne. rewrite Hne.
    apply Z.eqb_neq in Hnz. rewrite <- Hk in Hnz. rewrite Hnz. cbn. now subst.
Qed.

(** One turn of the loop: an entry that contributes a zone not yet seen
    adds it, every other entry the turn survives leaves the dict alone. *)
Lemma scan_entry_ok (zones zones' : gmap Z json) (entry : json) :
  scan_entry zones entry = Ok zones' ->
  zones' = match contribution entry with
           | Some (k, info) =>
               match zones !! k with
               | Some _ => zones
               | None => <[k := info]> zones
               end
           | None => zones
           end.
Proof.
  unfold scan_entry, contribution.
  destruct entry as [| | | | | | entry_]; try discriminate. cbn.
  destruct (get_or "attributes" (JObj []) entry_) as [| | | | | | attrs] eqn:Hattrs;
    try discriminate. cbn.
  destruct (get_or "signalUserZone" (JStr "") attrs) as [| b | n | q | s | l | o] eqn:Hzone;
    cbn.
  - congruence.
  - destruct b; cbn; [discriminate | congruence].
  - destruct (n =? 0); cbn; [congruence | discriminate].
  - destruct (Qeq_bool q 0); cbn; [congruence | discriminate].
  - unfold str_isdigit, py_int.
    destruct (decimals (code_points s)) as [ds |] eqn:Hdec.
    + rewrite (decimals_isdigit _ _ Hdec).
      destruct (String.eqb s "") eqn:Hempty; cbn; [congruence |].
      destruct (Z.of_nat (length ds) <=? 4300); cbn; [| discriminate].
      destruct (decimal_value 0 ds =? 0); cbn; [congruence |].
      unfold zone_info, get.
      destruct (zones !! decimal_value 0 ds); cbn; congruence.
    + destruct (String.eqb s "") eqn:Hempty; cbn; [congruence |].
      destruct (forallb char_isdigit (code_points s)); cbn; [discriminate | congruence].
  - destruct l; cbn; [congruence | discriminate].
  - destruct o; cbn; [congruence | discriminate].
Qed.

Lemma scan_entry_scannable (zones : gmap Z json) (entry : json) :
  scannable entry = true -> exists zones', scan_entry zones entry = Ok zones'.
Proof.
  unfold scan_entry, scannable.
  destruct entry as [| | | | | | entry_]; try discriminate. cbn.
  destruct (get_or "attributes" (JObj []) entry_) as [| | | | | | attrs] eqn:Hattrs;
    try discriminate. cbn.
  destruct (get_or "signalUserZone" (JStr "") attrs) as [| b | n | q | s | l | o] eqn:Hzone;
    cbn; try (intros ->; cbn; eauto).
  - eauto.
  - unfold py_int. destruct (negb (String.eqb s "")) eqn:Hne; cbn; [| eauto].
    destruct (str_isdigit s) eqn:Hdigit; cbn; [| eauto].
    destruct (decimals (code_points s)) as [ds |]; [| discriminate].
    intros ->. cbn.
    destruct (decimal_value 0 ds =? 0); [eauto |].
    destruct (zones !! decimal_value 0 ds); eauto.
Qed.

(** A turn of the loop on an entry the scan can pass. *)
Lemma scan_entry_run (zones : gmap Z json) (entry : json) :
  scannable entry = true ->
  scan_entry zones entry
  = Ok match contribution entry with
       | Some (k, info) =>
           match zones !! k with
           | Some _ => zones
           | None => <[k := info]> zones
           end
       | None => zones
       end.
Proof.
  intros Hentry. destruct (scan_entry_scannable zones entry Hentry) as [zones' Hrun].
  rewrite Hrun. f_equal. now apply scan_entry_ok.
Qed.

Lemma scan_entries_lookup (entries : list json) (zones0 zones : gmap Z json) :
  scan_entries entries zones0 = Ok zones ->
  forall k, zones !! k = match zones0 !! k with
                         | Some info => Some info
                         | None => first_contribution k entries
                         end.
Proof.
  revert zones0. induction entries as [| entry rest IH]; intros zones0; cbn.
  - intros [= <-] k. now destruct (zones0 !! k).
  - destruct (scan_entry zones0 entry) as [zones1 | e] eqn:Hentry; [| discriminate].
    cbn. intros Hrest k. rewrite (IH _ Hrest k).
    apply scan_entry_ok in Hentry. subst zones1.
    destruct (contribution entry) as [[k' info] |]; [| reflexivity].
    destruct (zones0 !! k') eqn:Hseen.
    + destruct (Z.eqb_spec k' k) as [-> | Hne]; [now rewrite Hseen | reflexivity].
    + destruct (Z.eqb_spec k' k) as [-> | Hne].
      * now rewrite lookup_insert_eq, Hseen.
      * now rewrite lookup_insert_ne.
Qed.

Lemma scan_entries_scannable (entries : list json) (zones0 : gmap Z json) :
  forallb scannable entries = true ->
  exists zones, scan_entries entries zones0 = Ok zones.
Proof.
  revert zones0. induction entries as [| entry rest IH]; intros zones0; cbn.
  - eauto.
  - intros [Hentry Hrest]%andb_true_iff.
    destruct (scan_entry_scannable zones0 entry Hentry) as [zones1 ->]. cbn.
    now apply IH.
Qed.

Lemma first_contribution_spec (k : Z) (entries : list json) (info : json) :
  first_contribution k entries = Some info <->
  exists pre entry post,
    entries = (pre ++ entry :: post)%list
    /\ contributes entry k info
    /\ Forall (fun e => forall i, ~ contributes e k i) pre.
Proof.
  induction entries as [| entry rest IH]; cbn.
  - split; [discriminate |]. intros (pre & e & post & Hsplit & _).
    destruct pre; discriminate.
  - split.
    + destruct (contribution entry) as [[k' info'] |] eqn:Hc.
      * destruct (Z.eqb_spec k' k) as [-> | Hne].
        -- intros [= ->]. exists [], entry, rest.
           split; [reflexivity |]. split; [now apply contribution_contributes |].
           constructor.
        -- intros (pre & e & post & -> & He & Hpre)%IH.
           exists (entry :: pre), e, post. split; [reflexivity |]. split; [assumption |].
           constructor; [| assumption].
           intros i Hi%contribution_contributes. congruence.
      * intros (pre & e & post & -> & He & Hpre)%IH.
        exists (entry :: pre), e, post. split; [reflexivity |]. split; [assumption |].
        constructor; [| assumption].
        intros i Hi%contribution_contributes. congruence.
    + intros (pre & e & post & Hsplit & He & Hpre).
      destruct pre as [| e0 pre]; cbn in Hsplit; injection Hsplit as -> ->.
      * apply contribution_contributes in He. rewrite He. now rewrite Z.eqb_refl.
      * inversion Hpre as [| ? ? Hnot Hpre']; subst.
        assert (Hrest : first_contribution k (pre ++ e :: post) = Some info).
        { apply IH. eauto 6. }
        destruct (contribution e0) as [[k' info'] |] eqn:Hc; [| assumption].
        destruct (Z.eqb_spec k' k) as [-> | Hne]; [| assumption].
        apply contribution_contributes in Hc. now destruct (Hnot info').
Qed.

(** Index 0, the empty string and a string that is not made of digits are
    skipped: the turn of the loop returns the dict it was given. *)
Lemma scan_entry_skips (zones : gmap Z json) (entry_ attrs : list (string * json))
    (s : string) :
  get_or "attributes" (JObj []) entry_ = JObj attrs ->
  get_or "signalUserZone" (JStr "") attrs = JStr s ->
  s = ""
  \/ str_isdigit s = false
  \/ (exists ds, decimals (code_points s) = Some ds
                 /\ (length ds <= 4300)%nat /\ decimal_value 0 ds = 0) ->
  scan_entry zones (JObj entry_) = Ok zones.
Proof.
  intros Hattrs Hzone Hskip. unfold scan_entry. cbn. rewrite Hattrs. cbn.
  rewrite Hzone. cbn.
  destruct Hskip as [-> | [Hnot | (ds & Hdec & Hlen & Hzero)]]; [reflexivity | |].
  - rewrite Hnot. cbn. now destruct (negb (String.eqb s "")).
  - destruct (negb (String.eqb s "")) eqn:Hne; [| reflexivity]. cbn.
    unfold str_isdigit, py_int. rewrite Hne, (decimals_isdigit _ _ Hdec), Hdec. cbn.
    assert (Hle : (Z.of_nat (length ds) <=? 4300) = true) by (apply Z.leb_le; lia).
    rewrite Hle. cbn. now rewrite Hzero.
Qed.

(** A zone-index field that is true and no string has no [isdigit]: the
    turn of the loop raises AttributeError. *)
Lemma scan_entry_untyped (zones : gmap Z json) (entry_ attrs : list (string * json))
    (v : json) :
  get_or "attributes" (JObj []) entry_ = JObj attrs ->
  get_or "signalUserZone" (JStr "") attrs = v ->
  truthy v = true ->
  (forall z, v <> JStr z) ->
  scan_entry zones (JObj entry_) = Raise AttributeError.
Proof.
  intros Hattrs Hzone Htrue Hv. unfold scan_entry. cbn. rewrite Hattrs. cbn.
  rewrite Hzone. cbn. rewrite Htrue. cbn.
  destruct v; try reflexivity. now destruct (Hv s).
Qed.

(** The text of one decimal digit below 128. *)
Lemma ascii_digit_text (c : ascii) :
  (48 <= N_of_ascii c <= 57)%N ->
  decimals (code_points (String c "")) = Some [Z.of_N (N_of_ascii c) - 48].
Proof.
  intros Hc. cbn. unfold lead_value.
  destruct (N.ltb_spec (N_of_ascii c) 128) as [Hlt | Hge]; [| lia].
  rewrite (ascii_decimal _ Hlt).
  destruct (N.leb_spec 48 (N_of_ascii c)); [| lia].
  destruct (N.leb_spec (N_of_ascii c) 57); [| lia]. reflexivity.
Qed.

(** An entry of the example log whose zone field is one such digit. *)
Lemma log_entry_digit (c : ascii) (alias type : string) :
  (48 <= N_of_ascii c <= 57)%N ->
  scannable (log_entry (String c "") alias type) = true
  /\ contribution (log_entry (String c "") alias type)
     = if Z.of_N (N_of_ascii c) - 48 =? 0 then None
       else Some (Z.of_N (N_of_ascii c) - 48,
                  JObj [("zone_name", JStr alias); ("zone_type", JStr type)]).
Proof.
  intros Hc. pose proof (ascii_digit_text c Hc) as Hdec.
  unfold scannable, contribution, log_entry.
  cbn -[code_points decimals str_isdigit]. rewrite Hdec. split.
  - cbn. apply orb_true_r.
  - cbn. replace (10 * 0 + (Z.of_N (N_of_ascii c) - 48)) with (Z.of_N (N_of_ascii c) - 48)
      by lia.
    now destruct (Z.of_N (N_of_ascii c) - 48 =? 0).
Qed.

Lemma example_log_scan : scan_entries example_log ∅ = Ok example_zones.
Proof.
  destruct (log_entry_digit "3" "Front Door" "door" ltac:(cbn; lia)) as [Hs1 Hc1].
  destruct (log_entry_digit "3" "Old Door Name" "window" ltac:(cbn; lia)) as [Hs2 Hc2].
  destruct (log_entry_digit "0" "Panel" "system" ltac:(cbn; lia)) as [Hs3 Hc3].
  destruct (log_entry_digit "5" "Hallway" "motion" ltac:(cbn; lia)) as [Hs4 Hc4].
  assert (Hs5 : scannable (log_entry "" "Nothing" "none") = true) by reflexivity.
  assert (Hc5 : contribution (log_entry "" "Nothing" "none") = None).
  { unfold contribution, log_entry. cbn -[decimals code_points].
    now destruct (decimals (code_points "")). }
  unfold example_log. cbn [scan_entries].
  rewrite (scan_entry_run _ _ Hs1), Hc1. cbn [rbind].
  rewrite (scan_entry_run _ _ Hs2), Hc2. cbn [rbind].
  rewrite (scan_entry_run _ _ Hs3), Hc3. cbn [rbind].
  rewrite (scan_entry_run _ _ Hs4), Hc4. cbn [rbind].
  rewrite (scan_entry_run _ _ Hs5), Hc5. cbn [rbind].
  vm_compute. reflexivity.
Qed.
End Scan.

Section Discover.
Context {W : Type} `{World W} `{Unicode}.

Lemma discover_zones_run (device_id : string) (s s1 : state W) (response_body : json) :
  _request "GET" (eventlog_path device_id) JNull eventlog_params s = (Ok response_body, s1) ->
  async_discover_zones device_id s =
  match (let* entries := page_entries response_body in scan_entries entries ∅) with
  | Ok zones =>
      (Ok zones,
       logged s1 "Discovered %d zones from event log for device %s"
              [LVal (JInt (Z.of_nat (size zones))); LVal (JStr device_id)])
  | Raise e => (Raise e, s1)
  end.
Proof.
  intros Hrequest. unfold async_discover_zones.
  fold (eventlog_path device_id). fold eventlog_params.
  rewrite (bind_ok _ _ _ _ _ Hrequest).
  unfold page_entries, bind, lift.
  destruct (py_get response_body "data" (JArr [])) as [data | e]; [| reflexivity]. cbn.
  destruct (py_iter data) as [entries | e]; [| reflexivity]. cbn.
  destruct (scan_entries entries ∅) as [zones | e]; reflexivity.
Qed.
End Discover.

(** C4, as the code has it.  Whenever [async_discover_zones] returns a
    dict, it scanned the entries of the page [_request] returned, and the
    dict maps [k] to [info] exactly when some entry contributes [(k, info)]
    and no entry before it contributes the zone [k]: an entry counts only if
    its zone-index field is a non-empty string of decimal digits that
    decodes to a non-zero integer, and the first occurrence of an index
    wins.  The call does return a dict when every entry of the page is
    [scannable].  An entry whose field is the empty string, is not made of
    digits, or decodes to 0 is skipped; an entry whose field is true and no
    string makes the scan raise AttributeError.  The page with the fields 3,
    3, 0, 5 and the empty string gives the dict with the keys 3 and 5, each
    from the first occurrence. *)
Theorem discover_zones_first_occurrence {W : Type} `{World W} `{Unicode}
    (device_id : string) (s : state W) :
  (forall zones s',
     async_discover_zones device_id s = (Ok zones, s') ->
     exists response_body s1 entries,
       _request "GET" (eventlog_path device_id) JNull eventlog_params s
         = (Ok response_body, s1)
       /\ page_entries response_body = Ok entries
       /\ forall k info,
            zones !! k = Some info <->
            exists pre entry post,
              entries = (pre ++ entry :: post)%list
              /\ contributes entry k info
              /\ Forall (fun e => forall i, ~ contributes e k i) pre)
  /\ (forall response_body s1 entries,
        _request "GET" (eventlog_path device_id) JNull eventlog_params s
          = (Ok response_body, s1) ->
        page_entries response_body = Ok entries ->
        forallb scannable entries = true ->
        exists zones s', async_discover_zones device_id s = (Ok zones, s'))
  /\ (forall zones entry_ attrs z,
        get_or "attributes" (JObj []) entry_ = JObj attrs ->
        get_or "signalUserZone" (JStr "") attrs = JStr z ->
        z = ""
        \/ str_isdigit z = false
        \/ (exists ds, decimals (code_points z) = Some ds
                       /\ (length ds <= 4300)%nat /\ decimal_value 0 ds = 0) ->
        scan_entry zones (JObj entry_) = Ok zones)
  /\ (forall zones entry_ attrs v,
        get_or "attributes" (JObj []) entry_ = JObj attrs ->
        get_or "signalUserZone" (JStr "") attrs = v ->
        truthy v = true ->
        (forall z, v <> JStr z) ->
        scan_entry zones (JObj entry_) = Raise AttributeError)
  /\ scan_entries example_log ∅ = Ok example_zones.
Proof.
  split; [| split; [| split; [| split]]].
  - intros zones s' Hrun.
    destruct (_request "GET" (eventlog_path device_id) JNull eventlog_params s)
      as [[response_body | e] s1] eqn:Hrequest.
    + rewrite (discover_zones_run _ _ _ _ Hrequest) in Hrun.
      destruct (page_entries response_body) as [entries | e] eqn:Hpage;
        [| discriminate].
      cbn in Hrun.
      destruct (scan_entries entries ∅) as [zones' | e] eqn:Hscan; [| discriminate].
      injection Hrun as -> _.
      exists response_body, s1, entries.
      split; [reflexivity |]. split; [exact Hpage |].
      intros k info.
      rewrite (scan_entries_lookup _ _ _ Hscan k), lookup_empty.
      apply first_contribution_spec.
    + unfold async_discover_zones in Hrun.
      fold (eventlog_path device_id) in Hrun. fold eventlog_params in Hrun.
      rewrite (bind_raise _ _ _ _ _ Hrequest) in Hrun. discriminate.
  - intros response_body s1 entries Hrequest Hpage Hscannable.
    rewrite (discover_zones_run _ _ _ _ Hrequest), Hpage. cbn.
    destruct (scan_entries_scannable entries ∅ Hscannable) as [zones ->]. eauto.
  - intros zones entry_ attrs z. apply scan_entry_skips.
  - intros zones entry_ attrs v. apply scan_entry_untyped.
  - apply example_log_scan.
Qed.

Lemma discover_zones_first_occurrence_witness :
  (exists zones s',
     async_discover_zones "dev-1" (start signed_in eventlog_reply) = (Ok zones, s')
     /\ zones !! 3
        = Some (JObj [("zone_name", JStr "Front Door"); ("zone_type", JStr "door")])
     /\ zones !! 5
        = Some (JObj [("zone_name", JStr "Hallway"); ("zone_type", JStr "motion")])
     /\ zones !! 0 = None)
  /\ (exists zones s',
        async_discover_zones "dev-1" (start signed_in arabic_reply) = (Ok zones, s')
        /\ zones !! 3 = Some (JObj [("zone_name", JStr "Gate"); ("zone_type", JStr "door")])).
Proof.
  split.
  - destruct (@discover_zones_first_occurrence script script_world sample_unicode "dev-1"
                (start signed_in eventlog_reply)) as (Honly & Htotal & _ & _ & _).
    destruct (Htotal (JObj [("data", JArr example_log)])
                (sent (start signed_in eventlog_reply)
                      (first_call signed_in "GET" (eventlog_path "dev-1") JNull
                                  eventlog_params)
                      (replied 200 (JObj [("data", JArr example_log)]))
                      {| clock := 100; replies := [] |})
                example_log
                ltac:(vm_compute; reflexivity) eq_refl eq_refl)
      as (zones & s' & Hrun).
    exists zones, s'. split; [exact Hrun |].
    destruct (Honly zones s' Hrun) as (body & s1 & entries & Hrequest & Hpage & Hzones).
    vm_compute in Hrequest. injection Hrequest as <- <-.
    vm_compute in Hpage. injection Hpage as <-.
    split; [| split].
    + apply Hzones.
      exists [], (log_entry "3" "Front Door" "door"),
        [log_entry "3" "Old Door Name" "window"; log_entry "0" "Panel" "system";
         log_entry "5" "Hallway" "motion"; log_entry "" "Nothing" "none"].
      split; [reflexivity |]. split; [| constructor].
      apply contribution_contributes. reflexivity.
    + apply Hzones.
      exists [log_entry "3" "Front Door" "door"; log_entry "3" "Old Door Name" "window";
              log_entry "0" "Panel" "system"],
        (log_entry "5" "Hallway" "motion"), [log_entry "" "Nothing" "none"].
      split; [reflexivity |]. split; [apply contribution_contributes; reflexivity |].
      repeat constructor; intros i Hi%contribution_contributes; discriminate.
    + destruct (zones !! 0) as [info |] eqn:Hzero; [| reflexivity].
      apply Hzones in Hzero as (pre & entry & post & _ & Hc & _).
      destruct Hc as (? & ? & ? & ? & _ & _ & _ & _ & _ & _ & Hnz & _). now destruct Hnz.
  - destruct (@discover_zones_first_occurrence script script_world sample_unicode "dev-1"
                (start signed_in arabic_reply)) as (Honly & Htotal & _ & _ & _).
    destruct (Htotal (JObj [("data", JArr [log_entry ARABIC_THREE "Gate" "door"])])
                (sent (start signed_in arabic_reply)
                      (first_call signed_in "GET" (eventlog_path "dev-1") JNull
                                  eventlog_params)
                      (replied 200 (JObj [("data", JArr [log_entry ARABIC_THREE "Gate" "door"])]))
                      {| clock := 100; replies := [] |})
                [log_entry ARABIC_THREE "Gate" "door"]
                ltac:(vm_compute; reflexivity) eq_refl eq_refl)
      as (zones & s' & Hrun).
    exists zones, s'. split; [exact Hrun |].
    destruct (Honly zones s' Hrun) as (body & s1 & entries & Hrequest & Hpage & Hzones).
    vm_compute in Hrequest. injection Hrequest as <- <-.
    vm_compute in Hpage. injection Hpage as <-.
    apply Hzones.
    exists [], (log_entry ARABIC_THREE "Gate" "door"), [].
    split; [reflexivity |]. split; [| constructor].
    apply contribution_contributes. reflexivity.
Defined.

(** Pages on which the call raises instead of returning a dict, although
    their first entry names zone 3: one whose second entry has the number 7
    as its zone field, which has no [isdigit], and one whose second entry
    has the superscript two, which passes [isdigit()] and fails [int()]. *)
Lemma discover_zones_raises :
  fst (async_discover_zones "dev-1" (start signed_in number_reply)) = Raise AttributeError
  /\ fst (async_discover_zones "dev-1" (start signed_in superscript_reply))
     = Raise ValueError.
Proof. split; vm_compute; reflexivity. Qed.

(* ================================================================== *)
(** * Properties of the subscription reconciler                        *)
(* ================================================================== *)

Section Subscriptions.
Context {W : Type} `{World W}.

(** One create: it counts when [_request] returns, is only logged when
    [_request] raises an [Exception], and raises what [_request] raises
    otherwise. *)
Lemma create_subscription_eq (device_id : string) (zone_idx : Z) (status_on : bool)
    (created : Z) (s : state W) :
  create_subscription device_id zone_idx status_on created s =
  match _request "POST" ZONES_PATH
                 (subscription_payload device_id zone_idx status_on) JNull s with
  | (Ok _, s1) =>
      (Ok (created + 1), logged s1 CREATED [LVal (JInt zone_idx); LVal (JBool status_on)])
  | (Raise err, s1) =>
      if is_Exception err
      then (Ok created,
            logged s1 SKIPPED [LVal (JInt zone_idx); LVal (JBool status_on); LExn err])
      else (Raise err, s1)
  end.
Proof.
  unfold create_subscription, try_except.
  unfold bind at 1.
  destruct (_request "POST" ZONES_PATH
              (subscription_payload device_id zone_idx status_on) JNull s)
    as [[body | err] s1]; cbn; [reflexivity |].
  destruct (is_Exception err); reflexivity.
Qed.

Lemma succeeded_app (rs1 rs2 : list bool) :
  succeeded (rs1 ++ rs2) = succeeded rs1 + succeeded rs2.
Proof. unfold succeeded. rewrite List.filter_app, length_app. lia. Qed.

Lemma loop_result_true (created : Z) (rs : list bool) (stop : option exn) :
  loop_result created (true :: rs) stop = loop_result (created + 1) rs stop.
Proof.
  destruct stop; [reflexivity |]. unfold loop_result, succeeded.
  cbn [List.filter length]. f_equal. lia.
Qed.

Lemma loop_result_false (created : Z) (rs : list bool) (stop : option exn) :
  loop_result created (false :: rs) stop = loop_result created rs stop.
Proof. destruct stop; reflexivity. Qed.

Lemma loop_result_app (created : Z) (rs1 rs2 : list bool) (stop : option exn) :
  loop_result created (rs1 ++ rs2) stop = loop_result (created + succeeded rs1) rs2 stop.
Proof.
  destruct stop; [reflexivity |]. unfold loop_result. rewrite succeeded_app.
  f_equal. lia.
Qed.

(** The creates of two lists of keys, one after the other: the second list
    is reached only when the first did not end in an exception. *)
Lemma issue_creates_app (device_id : string) (keys1 keys2 : list (Z * bool)) (s : state W) :
  issue_creates device_id (keys1 ++ keys2) s =
  match issue_creates device_id keys1 s with
  | (rs1, None, s1) =>
      ((rs1 ++ fst (fst (issue_creates device_id keys2 s1)))%list,
       snd (fst (issue_creates device_id keys2 s1)),
       snd (issue_creates device_id keys2 s1))
  | (rs1, Some err, s1) => (rs1, Some err, s1)
  end.
Proof.
  revert s. induction keys1 as [| [zone_idx status_on] rest IH]; intros s; cbn.
  - now destruct (issue_creates device_id keys2 s) as [[rs stop] s2].
  - destruct (_request "POST" ZONES_PATH
                (subscription_payload device_id zone_idx status_on) JNull s)
      as [[body | err] s1].
    + rewrite IH.
      destruct (issue_creates device_id rest _) as [[rs [e |]] s2]; reflexivity.
    + destruct (is_Exception err); [| reflexivity].
      rewrite IH.
      destruct (issue_creates device_id rest _) as [[rs [e |]] s2]; reflexivity.
Qed.

Lemma issue_creates_length (device_id : string) (keys : list (Z * bool)) (s : state W) :
  (length (fst (fst (issue_creates device_id keys s))) <= length keys)%nat.
Proof.
  revert s. induction keys as [| [zone_idx status_on] rest IH]; intros s; cbn;
    [lia |].
  destruct (_request "POST" ZONES_PATH
              (subscription_payload device_id zone_idx status_on) JNull s)
    as [[body | err] s1].
  - specialize (IH (logged s1 CREATED [LVal (JInt zone_idx); LVal (JBool status_on)])).
    destruct (issue_creates device_id rest _) as [[rs stop] s2]. cbn in *. lia.
  - destruct (is_Exception err); [| cbn; lia].
    specialize (IH (logged s1 SKIPPED
                           [LVal (JInt zone_idx); LVal (JBool status_on); LExn err])).
    destruct (issue_creates device_id rest _) as [[rs stop] s2]. cbn in *. lia.
Qed.

Lemma for_status_on_run (device_id : string) (existing_keys : list (json * json * json))
    (zone_idx : Z) (statuses : list bool) (created : Z) (s : state W) :
  let keys := List.filter (fun key => negb (key_in device_id (fst key) (snd key) existing_keys))
                          (map (pair zone_idx) statuses) in
  for_status_on device_id existing_keys zone_idx statuses created s =
  (loop_result created (fst (fst (issue_creates device_id keys s)))
               (snd (fst (issue_creates device_id keys s))),
   snd (issue_creates device_id keys s)).
Proof.
  cbv zeta. revert created s.
  induction statuses as [| status_on rest IH]; intros created s.
  - cbn. unfold ret, succeeded. cbn. now rewrite Z.add_0_r.
  - cbn [for_status_on map List.filter fst snd].
    destruct (key_in device_id zone_idx status_on existing_keys); cbn [negb].
    + apply IH.
    + unfold bind at 1. rewrite create_subscription_eq. cbn [issue_creates].
      destruct (_request "POST" ZONES_PATH
                  (subscription_payload device_id zone_idx status_on) JNull s)
        as [[body | err] s1].
      * rewrite IH.
        destruct (issue_creates device_id _ _) as [[rs stop] s2]. cbn [fst snd].
        now rewrite loop_result_true.
      * destruct (is_Exception err); [| reflexivity].
        rewrite IH.
        destruct (issue_creates device_id _ _) as [[rs stop] s2]. cbn [fst snd].
        now rewrite loop_result_false.
Qed.

Lemma for_zone_idx_run (device_id : string) (existing_keys : list (json * json * json))
    (zone_indices : list Z) (created : Z) (s : state W) :
  let keys := missing_keys device_id existing_keys zone_indices in
  for_zone_idx device_id existing_keys zone_indices created s =
  (loop_result created (fst (fst (issue_creates device_id keys s)))
               (snd (fst (issue_creates device_id keys s))),
   snd (issue_creates device_id keys s)).
Proof.
  cbv zeta. revert created s.
  induction zone_indices as [| zone_idx rest IH]; intros created s.
  - cbn. unfold ret, succeeded. cbn. now rewrite Z.add_0_r.
  - cbn [for_zone_idx]. unfold bind at 1. rewrite for_status_on_run.
    unfold missing_keys. cbn [flat_map map]. fold (missing_keys device_id existing_keys rest).
    rewrite issue_creates_app.
    destruct (issue_creates device_id
                (List.filter _ [(zone_idx, true); (zone_idx, false)]) s)
      as [[rs1 [err |]] s1]; cbn [fst snd loop_result]; [reflexivity |].
    rewrite IH. now rewrite loop_result_app.
Qed.

Lemma in_missing_keys (device_id : string) (existing_keys : list (json * json * json))
    (zone_indices : list Z) (zone_idx : Z) (status_on : bool) :
  In (zone_idx, status_on) (missing_keys device_id existing_keys zone_indices) <->
  In zone_idx zone_indices
  /\ key_in device_id zone_idx status_on existing_keys = false.
Proof.
  unfold missing_keys. rewrite in_flat_map. split.
  - intros (i & Hi & Hin). apply List.filter_In in Hin as [Hin Habsent].
    cbn in Habsent. apply negb_true_iff in Habsent.
    destruct Hin as [[= -> <-] | [[= -> <-] | []]]; auto.
  - intros [Hi Habsent]. exists zone_idx. split; [assumption |].
    apply List.filter_In. cbn. rewrite Habsent. split; [| reflexivity].
    destruct status_on; auto.
Qed.
End Subscriptions.

(** C3, as the code has it.  Once the existing subscriptions are fetched
    and keyed, [async_ensure_zone_subscriptions] issues one
    create-subscription request for each requested zone index and each
    statusOn in (true, false) whose key is absent from the fetched keys, and
    for no other key.  The request carries the key, the status as an object
    and as flat fields, and the notification templates of the zone index.
    A create whose request returns is logged and counted; a create whose
    request raises an [Exception] is logged and not counted; what is no
    [Exception] (a cancellation) ends the loop and is raised.  When the
    loop is not ended that way the call returns the number of creates that
    succeeded.  With no existing subscription the keys to create for [3]
    are (3, true) and (3, false); with both present no create is issued and
    the call returns 0. *)
Theorem ensure_zone_subscriptions_creates_missing {W : Type} `{World W}
    (device_id : string) (zone_indices : list Z) (s s1 : state W)
    (existing : list Zone) (existing_keys : list (json * json * json)) :
  async_get_zones s = (Ok existing, s1) ->
  map_result zone_key existing = Ok existing_keys ->
  let missing := missing_keys device_id existing_keys zone_indices in
  let created := issue_creates device_id missing s1 in
  (forall zone_idx status_on,
     In (zone_idx, status_on) missing <->
     In zone_idx zone_indices
     /\ key_in device_id zone_idx status_on existing_keys = false)
  /\ async_ensure_zone_subscriptions device_id zone_indices s
     = (match snd (fst created) with
        | None => Ok (succeeded (fst (fst created)))
        | Some err => Raise err
        end, snd created)
  /\ (forall zone_idx status_on,
        carries_subscription device_id zone_idx status_on
          (subscription_payload device_id zone_idx status_on))
  /\ (forall zone_idx status_on count st st',
        (forall body,
           _request "POST" ZONES_PATH (subscription_payload device_id zone_idx status_on)
                    JNull st = (Ok body, st') ->
           create_subscription device_id zone_idx status_on count st
           = (Ok (count + 1),
              logged st' CREATED [LVal (JInt zone_idx); LVal (JBool status_on)]))
        /\ (forall err,
              _request "POST" ZONES_PATH (subscription_payload device_id zone_idx status_on)
                       JNull st = (Raise err, st') ->
              is_Exception err = true ->
              create_subscription device_id zone_idx status_on count st
              = (Ok count,
                 logged st' SKIPPED [LVal (JInt zone_idx); LVal (JBool status_on); LExn err]))
        /\ (forall err,
              _request "POST" ZONES_PATH (subscription_payload device_id zone_idx status_on)
                       JNull st = (Raise err, st') ->
              is_Exception err = false ->
              create_subscription device_id zone_idx status_on count st = (Raise err, st')))
  /\ (existing = [] -> zone_indices = [3] -> missing = [(3, true); (3, false)])
  /\ (zone_indices = [3] ->
      key_in device_id 3 true existing_keys = true ->
      key_in device_id 3 false existing_keys = true ->
      missing = []
      /\ async_ensure_zone_subscriptions device_id zone_indices s = (Ok 0, s1)).
Proof.
  intros Hfetch Hkeys missing created.
  assert (Hrun : async_ensure_zone_subscriptions device_id zone_indices s
                 = (match snd (fst created) with
                    | None => Ok (succeeded (fst (fst created)))
                    | Some err => Raise err
                    end, snd created)).
  { unfold async_ensure_zone_subscriptions.
    rewrite (bind_ok _ _ _ _ _ Hfetch).
    unfold bind at 1, lift. rewrite Hkeys.
    rewrite for_zone_idx_run. reflexivity. }
  split; [| split; [| split; [| split; [| split]]]].
  - intros zone_idx status_on. apply in_missing_keys.
  - exact Hrun.
  - intros zone_idx status_on. unfold carries_subscription, subscription_payload.
    eexists. eexists. split; [reflexivity |]. repeat split.
  - intros zone_idx status_on count st st'. split; [| split].
    + intros body Hok. rewrite create_subscription_eq, Hok. reflexivity.
    + intros err Hraise Herr. rewrite create_subscription_eq, Hraise, Herr. reflexivity.
    + intros err Hraise Herr. rewrite create_subscription_eq, Hraise, Herr. reflexivity.
  - intros -> ->. cbn in Hkeys. injection Hkeys as <-. reflexivity.
  - intros -> Hon Hoff.
    assert (Hnone : missing = []).
    { subst missing. unfold missing_keys. cbn. now rewrite Hon, Hoff. }
    split; [assumption |].
    rewrite Hrun. subst created. rewrite Hnone. reflexivity.
Qed.

Lemma ensure_zone_subscriptions_creates_missing_witness :
  (let run := async_ensure_zone_subscriptions "dev-1" [3] (start signed_in empty_feed) in
   fst run = Ok 2
   /\ request_bodies (history (snd run))
      = [JNull; subscription_payload "dev-1" 3 true; subscription_payload "dev-1" 3 false])
  /\ (let run := async_ensure_zone_subscriptions "dev-1" [3] (start signed_in full_feed) in
      fst run = Ok 0 /\ request_bodies (history (snd run)) = [JNull])
  /\ (let run := async_ensure_zone_subscriptions "dev-1" [3]
                   (start signed_in conflict_feed) in
      fst run = Ok 1 /\ length (attempts (history (snd run))) = 3%nat).
Proof.
  split; [| split].
  - destruct (@ensure_zone_subscriptions_creates_missing script script_world
                "dev-1" [3] (start signed_in empty_feed)
                (after_fetch empty_feed) [] []
                ltac:(vm_compute; reflexivity) eq_refl)
      as (_ & Hrun & _ & _ & Hmissing & _).
    cbv zeta. rewrite Hrun, (Hmissing eq_refl eq_refl).
    split; vm_compute; reflexivity.
  - destruct (@ensure_zone_subscriptions_creates_missing script script_world
                "dev-1" [3] (start signed_in full_feed)
                (after_fetch full_feed) (fetched full_feed)
                [(JStr "dev-1", JInt 3, JBool true); (JStr "dev-1", JInt 3, JBool false)]
                ltac:(vm_compute; reflexivity) ltac:(vm_compute; reflexivity))
      as (_ & _ & _ & _ & _ & Hpresent).
    destruct (Hpresent eq_refl eq_refl eq_refl) as [_ Hrun].
    cbv zeta. rewrite Hrun. split; vm_compute; reflexivity.
  - destruct (@ensure_zone_subscriptions_creates_missing script script_world
                "dev-1" [3] (start signed_in conflict_feed)
                (after_fetch conflict_feed) [] []
                ltac:(vm_compute; reflexivity) eq_refl)
      as (_ & Hrun & _ & _ & Hmissing & _).
    cbv zeta. rewrite Hrun, (Hmissing eq_refl eq_refl).
    split; vm_compute; reflexivity.
Defined.

(** A create that is cancelled is not swallowed: the first create of zone 3
    succeeded, the task is cancelled while the second is awaited, and the
    call raises the cancellation instead of returning a count. *)
Lemma ensure_zone_subscriptions_cancelled :
  let run := async_ensure_zone_subscriptions "dev-1" [3]
               (start signed_in cancelled_feed) in
  fst run = Raise (BaseException "CancelledError")
  /\ request_bodies (history (snd run))
     = [JNull; subscription_payload "dev-1" 3 true; subscription_payload "dev-1" 3 false]
  /\ logged_formats (history (snd run)) = [CREATED].
Proof. cbv zeta. repeat split; vm_compute; reflexivity. Qed.

(* ================================================================== *)
(** * Properties of the RPC gateway                                    *)
(* ================================================================== *)

Section Rpc.
Context {W : Type} `{World W}.

Lemma uuid4_run (s : state W) :
  uuid4 s = (Ok (fst (uuid_uuid4 (world s))), after_uuid s).
Proof. unfold uuid4, after_uuid. now destruct (uuid_uuid4 (world s)). Qed.

(** [_rpc] on a response that carries an error object. *)
Lemma rpc_error_run (rpc_method : string) (params : json) (path : string)
    (s s2 : state W) (response_body err : list (string * json)) :
  _request "POST" path (rpc_payload (fst (uuid_uuid4 (world s))) rpc_method params) JNull
           (after_uuid s) = (Ok (JObj response_body), s2) ->
  dict_get "error" response_body = Some (JObj err) ->
  _rpc rpc_method params path s = (Raise (rpc_error rpc_method err), s2).
Proof.
  intros Hrequest Herror. unfold _rpc.
  rewrite (bind_ok _ _ _ _ _ (uuid4_run s)).
  fold (rpc_payload (fst (uuid_uuid4 (world s))) rpc_method params).
  rewrite (bind_ok _ _ _ _ _ Hrequest).
  unfold bind, lift, raise. cbn. rewrite Herror. reflexivity.
Qed.

(** [_rpc] on a response whose error member is no object: [err.get] raises
    before the AlulaApiError is built. *)
Lemma rpc_error_untyped (rpc_method : string) (params : json) (path : string)
    (s s2 : state W) (response_body : list (string * json)) (error : json) :
  _request "POST" path (rpc_payload (fst (uuid_uuid4 (world s))) rpc_method params) JNull
           (after_uuid s) = (Ok (JObj response_body), s2) ->
  dict_get "error" response_body = Some error ->
  (forall err, error <> JObj err) ->
  _rpc rpc_method params path s = (Raise AttributeError, s2).
Proof.
  intros Hrequest Herror Hno. unfold _rpc.
  rewrite (bind_ok _ _ _ _ _ (uuid4_run s)).
  fold (rpc_payload (fst (uuid_uuid4 (world s))) rpc_method params).
  rewrite (bind_ok _ _ _ _ _ Hrequest).
  unfold bind, lift, raise. cbn. rewrite Herror.
  destruct error; try reflexivity. now destruct (Hno o).
Qed.
End Rpc.

(** C8, as the code has it.  When the decoded body of an RPC response
    carries an error member that is an object, [_rpc] raises an
    AlulaApiError whose status_code is the "code" field of that object; when
    the member is no object, [_rpc] raises AttributeError.  For a
    helix.command call, an error object whose code equals 6 is raised as an
    AlulaApiError with status_code 6 whose message says that
    interactiveEnabled is off on the device and asks to have the provider
    enable interactive services; an error object with any other code is
    raised as [_rpc] raised it. *)
Theorem rpc_error_status_code {W : Type} `{World W}
    (s s2 : state W) (response_body : list (string * json)) (error : json) :
  dict_get "error" response_body = Some error ->
  (forall rpc_method params path,
     _request "POST" path
              (rpc_payload (fst (uuid_uuid4 (world s))) rpc_method params) JNull
              (after_uuid s) = (Ok (JObj response_body), s2) ->
     (forall err, error = JObj err ->
        _rpc rpc_method params path s
        = (Raise (AlulaApiError
                    [Lit ("RPC error (" +:+ rpc_method +:+ "): "); show (JObj err)]
                    (get "code" err)), s2))
     /\ ((forall err, error <> JObj err) ->
         _rpc rpc_method params path s = (Raise AttributeError, s2)))
  /\ (forall device_id data err,
        _request "POST" "/rpc/v1"
                 (rpc_payload (fst (uuid_uuid4 (world s))) "helix.command"
                              (helix_params device_id data)) JNull
                 (after_uuid s) = (Ok (JObj response_body), s2) ->
        error = JObj err ->
        (eq_int (get "code" err) 6 = true ->
         _helix_command device_id data s
         = (Raise (AlulaApiError (helix_denied device_id) (JInt 6)), s2))
        /\ (eq_int (get "code" err) 6 = false ->
            _helix_command device_id data s
            = (Raise (rpc_error "helix.command" err), s2)))
  /\ (forall device_id,
        helix_denied device_id
        = text ("Arm/disarm command denied: interactiveEnabled is off on device "
                +:+ device_id
                +:+ ". Contact your alarm provider (e.g., Cove support) and ask them to enable interactive services on your device.")).
Proof.
  intros Herror. split; [| split].
  - intros rpc_method params path Hrequest. split.
    + intros err ->. apply (rpc_error_run _ _ _ _ _ _ _ Hrequest Herror).
    + intros Hno. apply (rpc_error_untyped _ _ _ _ _ _ _ Hrequest Herror Hno).
  - intros device_id data err Hrequest ->.
    pose proof (rpc_error_run _ _ _ _ _ _ _ Hrequest Herror) as Hrpc.
    unfold _helix_command. fold (helix_params device_id data).
    rewrite (try_raise _ _ _ _ _ Hrpc). unfold rpc_error.
    split; intros ->; reflexivity.
  - intros device_id. reflexivity.
Qed.

Lemma rpc_error_status_code_witness :
  fst (async_arm_stay "dev-1" (start signed_in (rpc_failure 6 "Permission Denied")))
  = Raise (AlulaApiError (helix_denied "dev-1") (JInt 6))
  /\ fst (async_disarm "dev-1" (start signed_in (rpc_failure 3 "Busy")))
     = Raise (AlulaApiError
                [Lit "RPC error (helix.command): ";
                 StrOf (JObj [("code", JInt 3); ("message", JStr "Busy")])]
                (JInt 3)).
Proof.
  split.
  - destruct (@rpc_error_status_code script script_world
                (start signed_in (rpc_failure 6 "Permission Denied"))
                (snd (async_arm_stay "dev-1"
                        (start signed_in (rpc_failure 6 "Permission Denied"))))
                [("error", JObj [("code", JInt 6); ("message", JStr "Permission Denied")])]
                (JObj [("code", JInt 6); ("message", JStr "Permission Denied")])
                eq_refl) as (_ & Hhelix & _).
    destruct (Hhelix "dev-1" "armStay" _ ltac:(vm_compute; reflexivity) eq_refl)
      as [Hsix _].
    unfold async_arm_stay. now rewrite (Hsix eq_refl).
  - destruct (@rpc_error_status_code script script_world
                (start signed_in (rpc_failure 3 "Busy"))
                (snd (async_disarm "dev-1" (start signed_in (rpc_failure 3 "Busy"))))
                [("error", JObj [("code", JInt 3); ("message", JStr "Busy")])]
                (JObj [("code", JInt 3); ("message", JStr "Busy")])
                eq_refl) as (_ & Hhelix & _).
    destruct (Hhelix "dev-1" "disarm" _ ltac:(vm_compute; reflexivity) eq_refl)
      as [_ Hother].
    unfold async_disarm. now rewrite (Hother eq_refl).
Defined.

(** A response whose error member is the string "denied": [err.get("code")]
    raises AttributeError and no AlulaApiError is raised. *)
Lemma rpc_error_must_be_an_object :
  fst (_rpc "helix.command" JNull "/rpc/v1" (start signed_in rpc_failure_text))
  = Raise AttributeError.
Proof. vm_compute. reflexivity. Qed.

(* ================================================================== *)
(** * Further properties of the models                                 *)
(* ================================================================== *)

(** X1.  The device type hint of a decoded zone is never a template string:
    whatever [Zone.from_api] returns, a hint that is a string does not start
    with a brace. *)
Theorem zone_hint_never_template (data device_id : json) (z : Zone) :
  Zone_.from_api data device_id = Ok z ->
  forall s, device_type_hint z = JStr s -> String.prefix "{" s = false.
Proof.
  unfold Zone_.from_api. intros Hz.
  destruct data as [| | | | | | data_]; try discriminate. cbn in Hz.
  destruct (get_or "attributes" (JObj []) data_) as [| | | | | | attrs_]; try discriminate.
  cbn in Hz.
  repeat match type of Hz with
  | rbind ?c _ = Ok _ => destruct c as [? | ?] eqn:?; cbn in Hz; [| discriminate]
  end.
  injection Hz as <-. cbn. intros s Hs.
  match type of Hs with
  | match ?h with _ => _ end = _ => destruct h eqn:Hh; try discriminate
  end.
  destruct (String.prefix "{" s0) eqn:Hp; [discriminate |].
  now injection Hs as <-.
Qed.

Lemma zone_hint_never_template_witness :
  exists z, Zone_.from_api (subscription_resource "dev-1" 3 true) JNull = Ok z
            /\ forall s, device_type_hint z = JStr s -> String.prefix "{" s = false.
Proof.
  eexists. split; [reflexivity |].
  apply (zone_hint_never_template (subscription_resource "dev-1" 3 true) JNull _ eq_refl).
Defined.

(** X2.  The device id of a decoded zone is the "deviceId" attribute when
    that is true, else the fallback argument when that is true, else the
    empty string: it is never [None] nor any other false value. *)
Theorem zone_device_id_fallback (data device_id : json) (z : Zone) :
  Zone_.from_api data device_id = Ok z ->
  let given := get_or "deviceId" (JStr "") (attributes data) in
  (truthy given = true -> z_device_id z = given)
  /\ (truthy given = false -> truthy device_id = true -> z_device_id z = device_id)
  /\ (truthy given = false -> truthy device_id = false -> z_device_id z = JStr "")
  /\ (truthy (z_device_id z) = true \/ z_device_id z = JStr "").
Proof.
  unfold Zone_.from_api, attributes. intros Hz.
  destruct data as [| | | | | | data_]; try discriminate. cbn in Hz.
  destruct (get_or "attributes" (JObj []) data_) as [| | | | | | attrs_]; try discriminate.
  cbn in Hz.
  repeat match type of Hz with
  | rbind ?c _ = Ok _ => destruct c as [? | ?] eqn:?; cbn in Hz; [| discriminate]
  end.
  injection Hz as <-. cbn. unfold py_or.
  destruct (truthy (get_or "deviceId" (JStr "") attrs_)) eqn:Hgiven.
  - rewrite Hgiven. repeat split; try discriminate; auto.
  - destruct (truthy device_id) eqn:Hdev; cbn; rewrite ?Hdev;
      repeat split; try discriminate; auto.
Qed.

Lemma zone_device_id_fallback_witness :
  exists z, Zone_.from_api (JObj [("id", JStr "zone-9")]) (JStr "dev-7") = Ok z
            /\ z_device_id z = JStr "dev-7".
Proof.
  eexists. split; [reflexivity |].
  destruct (zone_device_id_fallback (JObj [("id", JStr "zone-9")]) (JStr "dev-7") _ eq_refl)
    as (_ & Hfallback & _).
  apply Hfallback; reflexivity.
Defined.

(** X3.  A subscription that [async_ensure_zone_subscriptions] creates is
    recognised when the feed returns it: decoding the resource of the
    payload gives a zone whose key is present for the same device, zone
    index and status, and absent for the opposite status; its name and
    type hint are [None], since the payload carries only templates. *)
Theorem created_subscription_is_recognised (device_id : string) (zone_idx : Z)
    (status_on : bool) :
  exists z key,
    Zone_.from_api (subscription_resource device_id zone_idx status_on) JNull = Ok z
    /\ zone_key z = Ok key
    /\ key_in device_id zone_idx status_on [key] = true
    /\ key_in device_id zone_idx (negb status_on) [key] = false
    /\ zone_name z = JNull
    /\ device_type_hint z = JNull.
Proof.
  assert (Hdev : py_or (py_or (JStr device_id) JNull) (JStr "") = JStr device_id).
  { unfold py_or. cbn. destruct (String.eqb device_id "") eqn:Hempty; cbn.
    - apply String.eqb_eq in Hempty. now subst.
    - now rewrite Hempty. }
  unfold subscription_resource, subscription_payload, Zone_.from_api.
  cbn -[py_or str_int]. rewrite Hdev.
  eexists. eexists. split; [reflexivity |]. split; [reflexivity |].
  cbn -[str_int]. rewrite String.eqb_refl, Z.eqb_refl.
  destruct status_on; repeat split; reflexivity.
Qed.

Lemma from_api_record (data : json) (d : Device) :
  Device_.from_api data = Ok d ->
  is_record data = true
  /\ device_type d = determine_device_type (attributes data)
  /\ parse_arming_state (attributes data) = Ok (arming_state d)
  /\ raw d = data.
Proof.
  unfold Device_.from_api, is_record, attributes.
  destruct data as [| | | | | | data_]; try discriminate. cbn.
  destruct (get_or "attributes" (JObj []) data_) as [| | | | | | attrs_]; try discriminate.
  cbn.
  destruct (parse_arming_state attrs_) as [a | e]; [| discriminate]. cbn.
  intros [= <-]. repeat split; reflexivity.
Qed.

(** X4.  A decoded device is armed exactly when its "armingLevel" is one of
    the strings "armstay", "armaway", "armnight"; a device without arming
    level, with "disarm" or with any other value is not armed. *)
Theorem device_is_armed_iff (data : json) (d : Device) :
  Device_.from_api data = Ok d ->
  is_armed d
  = existsb (eq_str (get "armingLevel" (attributes data))) ["armstay"; "armaway"; "armnight"].
Proof.
  intros Hd. apply from_api_record in Hd as (_ & _ & Harm & _).
  revert Harm. generalize (attributes data). intros attrs_.
  unfold parse_arming_state, ArmingState.of_value, ArmingState.members, is_armed.
  destruct (get "armingLevel" attrs_) as [| b | n | q | s | l | o]; cbn -[String.eqb].
  - intros [= <-]. reflexivity.
  - destruct b; cbn; intros [= <-]; reflexivity.
  - destruct (n =? 0); cbn; intros [= <-]; reflexivity.
  - destruct (Qeq_bool q 0); cbn; intros [= <-]; reflexivity.
  - destruct (String.eqb s "disarm") eqn:E1.
    { apply String.eqb_eq in E1. subst s. cbn. intros [= <-]. reflexivity. }
    destruct (String.eqb s "armstay") eqn:E2.
    { apply String.eqb_eq in E2. subst s. cbn. intros [= <-]. reflexivity. }
    destruct (String.eqb s "armaway") eqn:E3.
    { apply String.eqb_eq in E3. subst s. cbn. intros [= <-]. reflexivity. }
    destruct (String.eqb s "armnight") eqn:E4.
    { apply String.eqb_eq in E4. subst s. cbn. intros [= <-]. reflexivity. }
    destruct (String.eqb s "unknown") eqn:E5.
    { apply String.eqb_eq in E5. subst s. cbn. intros [= <-]. reflexivity. }
    destruct (negb (String.eqb s "")); cbn; intros [= <-]; reflexivity.
  - destruct l; cbn; intros [= <-]; reflexivity.
  - destruct o; cbn; intros [= <-]; reflexivity.
Qed.

Lemma device_is_armed_iff_witness :
  exists d, Device_.from_api (JObj panel_armstay) = Ok d /\ is_armed d = true.
Proof.
  eexists. split; [reflexivity |].
  rewrite (device_is_armed_iff (JObj panel_armstay) _ eq_refl). reflexivity.
Defined.

(* ================================================================== *)
(** * Further properties of the token exchange                         *)
(* ================================================================== *)

(** X5.  A token exchange (login or refresh) that the server answers with a
    status below 400 and a body holding both tokens and an "expires_in" that
    adds to a float (a bool, a float, or an int within the float range; 900
    seconds when the server omits it) stores the access token, the refresh
    token and the expiry; the expiry is the clock reading taken after the
    response plus "expires_in". *)
Theorem token_exchange_stores_tokens {W : Type} `{World W}
    (kwargs : list (string * json)) (s : state W) (resp : response) (w1 : W)
    (body : list (string * json)) (access refresh : json) (expiry : Q) :
  session_send (token_call (self s) kwargs) (world s) = (Responds resp, w1) ->
  resp_json resp = Ok (JObj body) ->
  resp_status resp < 400 ->
  dict_get "access_token" body = Some access ->
  dict_get "refresh_token" body = Some refresh ->
  add_seconds (fst (time_time w1)) (get_or "expires_in" (JInt 900) body) = Ok expiry ->
  _token_request kwargs s
  = (Ok {| ti_access_token := access;
           ti_refresh_token := refresh;
           ti_expires_in := get_or "expires_in" (JInt 900) body;
           ti_token_type := get_or "token_type" (JStr "bearer") body;
           ti_scope := get_or "scope" (JStr "") body |},
     {| self := with_token_expiry expiry
                  (with_refresh_token refresh (with_access_token access (self s)));
        world := snd (time_time w1);
        history := (history s
                    ++ [Http (token_call (self s) kwargs) (Responds resp);
                        LogDebug "Token acquired, expires in %ds"
                                 [LVal (get_or "expires_in" (JInt 900) body)]])%list |}).
Proof.
  intros Hsend Hjson Hstatus Haccess Hrefresh Hexpiry.
  assert (E401 : (resp_status resp =? 401) = false) by (apply Z.eqb_neq; lia).
  assert (E400 : (resp_status resp =? 400) = false) by (apply Z.eqb_neq; lia).
  assert (Elt : (400 <=? resp_status resp) = false) by (apply Z.leb_gt; lia).
  unfold token_call in Hsend. run_coroutine.
  rewrite Hsend. cbn. rewrite Hjson. cbn. rewrite E401, E400, Elt. cbn.
  rewrite Haccess, Hrefresh. cbn.
  destruct (time_time w1) as [t w2]. cbn in Hexpiry |- *.
  unfold TOKEN_EXPIRES_IN_DEFAULT. rewrite Hexpiry. cbn.
  rewrite <- app_assoc. reflexivity.
Qed.

Lemma token_exchange_stores_tokens_witness :
  let run := async_login "c445792" "17327" (start fresh_client login_accepted) in
  _access_token (self (snd run)) = JStr "a1"
  /\ _refresh_token (self (snd run)) = JStr "r1"
  /\ _token_expiry (self (snd run)) = (100 + inject_Z 900)%Q.
Proof.
  cbv zeta.
  change (async_login "c445792" "17327") with (_token_request password_grant).
  rewrite (@token_exchange_stores_tokens script script_world password_grant
             (start fresh_client login_accepted)
             {| resp_status := 200;
                resp_json := Ok (JObj [("access_token", JStr "a1");
                                       ("refresh_token", JStr "r1")]) |}
             {| clock := 100; replies := [] |}
             [("access_token", JStr "a1"); ("refresh_token", JStr "r1")]
             (JStr "a1") (JStr "r1") (100 + inject_Z 900)%Q
             eq_refl eq_refl ltac:(cbn; lia) eq_refl eq_refl eq_refl).
  repeat split.
Defined.

(** X6.  A token exchange answered 401 or 400 with a JSON object raises
    AlulaAuthError and stores nothing: the message is the server's
    "error_description" when present, else "Invalid credentials" for 401 and
    "Auth error: " followed by the body for 400. *)
Theorem token_exchange_rejected {W : Type} `{World W}
    (kwargs : list (string * json)) (s : state W) (resp : response) (w1 : W)
    (body : list (string * json)) :
  session_send (token_call (self s) kwargs) (world s) = (Responds resp, w1) ->
  resp_json resp = Ok (JObj body) ->
  resp_status resp = 401 \/ resp_status resp = 400 ->
  _token_request kwargs s
  = (Raise (AlulaAuthError
              match dict_get "error_description" body with
              | Some description => [show description]
              | None => if resp_status resp =? 401 then text "Invalid credentials"
                        else [Lit "Auth error: "; show (JObj body)]
              end),
     sent s (token_call (self s) kwargs) (Responds resp) w1).
Proof.
  intros Hsend Hjson Hstatus.
  unfold token_call in Hsend. run_coroutine.
  rewrite Hsend. cbn. rewrite Hjson. cbn.
  destruct Hstatus as [-> | ->]; cbn; destruct (dict_get "error_description" body);
    reflexivity.
Qed.

Lemma token_exchange_rejected_witness :
  let run := async_login "c445792" "17327" (start fresh_client login_rejected) in
  fst run = Raise (AlulaAuthError "Bad PIN") /\ self (snd run) = fresh_client.
Proof.
  cbv zeta.
  change (async_login "c445792" "17327") with (_token_request password_grant).
  rewrite (@token_exchange_rejected script script_world password_grant
             (start fresh_client login_rejected)
             {| resp_status := 401;
                resp_json := Ok (JObj [("error", JStr "invalid_grant");
                                       ("error_description", JStr "Bad PIN")]) |}
             {| clock := 100; replies := [] |}
             [("error", JStr "invalid_grant"); ("error_description", JStr "Bad PIN")]
             eq_refl eq_refl (or_introl eq_refl)).
  split; reflexivity.
Defined.



(** X8.  The three fields are not stored as one unit.  When the body holds
    both tokens but an "expires_in" that does not add to a float, the
    exchange raises after the new access and refresh tokens are already
    stored: the client is left with the new tokens and the old expiry.  The
    error is OverflowError for an int too large for a float and TypeError
    for a value that is no number. *)
Theorem token_exchange_bad_lifetime {W : Type} `{World W}
    (kwargs : list (string * json)) (s : state W) (resp : response) (w1 : W)
    (body : list (string * json)) (access refresh : json) (e : exn) :
  session_send (token_call (self s) kwargs) (world s) = (Responds resp, w1) ->
  resp_json resp = Ok (JObj body) ->
  resp_status resp < 400 ->
  dict_get "access_token" body = Some access ->
  dict_get "refresh_token" body = Some refresh ->
  add_seconds (fst (time_time w1)) (get_or "expires_in" (JInt 900) body) = Raise e ->
  _token_request kwargs s
  = (Raise e,
     {| self := with_refresh_token refresh (with_access_token access (self s));
        world := snd (time_time w1);
        history := (history s
                    ++ [Http (token_call (self s) kwargs) (Responds resp)])%list |})
  /\ match get_or "expires_in" (JInt 900) body with
     | JInt n => e = OverflowError /\ FLOAT_LIMIT <= Z.abs n
     | JBool _ | JFloat _ => False
     | _ => e = TypeError
     end.
Proof.
  intros Hsend Hjson Hstatus Haccess Hrefresh Hexpiry. split.
  - assert (E401 : (resp_status resp =? 401) = false) by (apply Z.eqb_neq; lia).
    assert (E400 : (resp_status resp =? 400) = false) by (apply Z.eqb_neq; lia).
    assert (Elt : (400 <=? resp_status resp) = false) by (apply Z.leb_gt; lia).
    unfold token_call in Hsend. run_coroutine.
    rewrite Hsend. cbn. rewrite Hjson. cbn. rewrite E401, E400, Elt. cbn.
    rewrite Haccess, Hrefresh. cbn.
    destruct (time_time w1) as [t w2]. cbn in Hexpiry |- *.
    unfold TOKEN_EXPIRES_IN_DEFAULT. rewrite Hexpiry. reflexivity.
  - destruct (get_or "expires_in" (JInt 900) body) as [| b | n | q | z | l | o];
      cbn in Hexpiry; try congruence.
    unfold float_of_int in Hexpiry.
    destruct (Z.ltb_spec (Z.abs n) FLOAT_LIMIT); cbn in Hexpiry; [discriminate |].
    split; [congruence | assumption].
Qed.

Lemma token_exchange_bad_lifetime_witness :
  (let run := async_login "c445792" "17327" (start fresh_client login_bad_lifetime) in
   fst run = Raise TypeError
   /\ _access_token (self (snd run)) = JStr "a1"
   /\ _token_expiry (self (snd run)) = 0%Q)
  /\ (let run := async_login "c445792" "17327" (start fresh_client login_huge_lifetime) in
      fst run = Raise OverflowError
      /\ _access_token (self (snd run)) = JStr "a1"
      /\ _token_expiry (self (snd run)) = 0%Q).
Proof.
  cbv zeta.
  change (async_login "c445792" "17327") with (_token_request password_grant).
  split.
  - destruct (@token_exchange_bad_lifetime script script_world password_grant
                (start fresh_client login_bad_lifetime)
                {| resp_status := 200;
                   resp_json := Ok (JObj [("access_token", JStr "a1");
                                          ("refresh_token", JStr "r1");
                                          ("expires_in", JStr "900")]) |}
                {| clock := 100; replies := [] |}
                [("access_token", JStr "a1"); ("refresh_token", JStr "r1");
                 ("expires_in", JStr "900")]
                (JStr "a1") (JStr "r1") TypeError
                eq_refl eq_refl ltac:(cbn; lia) eq_refl eq_refl eq_refl)
      as [Hrun _].
    rewrite Hrun. repeat split.
  - destruct (@token_exchange_bad_lifetime script script_world password_grant
                (start fresh_client login_huge_lifetime)
                {| resp_status := 200;
                   resp_json := Ok (JObj [("access_token", JStr "a1");
                                          ("refresh_token", JStr "r1");
                                          ("expires_in", JInt (10 ^ 400))]) |}
                {| clock := 100; replies := [] |}
                [("access_token", JStr "a1"); ("refresh_token", JStr "r1");
                 ("expires_in", JInt (10 ^ 400))]
                (JStr "a1") (JStr "r1") OverflowError
                eq_refl eq_refl ltac:(cbn; lia) eq_refl eq_refl
                ltac:(vm_compute; reflexivity))
      as [Hrun _].
    rewrite Hrun. repeat split.
Defined.

(** X9.  A body that lacks "access_token" or "refresh_token" raises KeyError
    and stores nothing, not even the token that is present. *)
Theorem token_exchange_missing_token {W : Type} `{World W}
    (kwargs : list (string * json)) (s : state W) (resp : response) (w1 : W)
    (body : list (string * json)) :
  session_send (token_call (self s) kwargs) (world s) = (Responds resp, w1) ->
  resp_json resp = Ok (JObj body) ->
  resp_status resp < 400 ->
  dict_get "access_token" body = None \/ dict_get "refresh_token" body = None ->
  _token_request kwargs s
  = (Raise KeyError, sent s (token_call (self s) kwargs) (Responds resp) w1).
Proof.
  intros Hsend Hjson Hstatus Hmissing.
  assert (E401 : (resp_status resp =? 401) = false) by (apply Z.eqb_neq; lia).
  assert (E400 : (resp_status resp =? 400) = false) by (apply Z.eqb_neq; lia).
  assert (Elt : (400 <=? resp_status resp) = false) by (apply Z.leb_gt; lia).
  unfold token_call in Hsend. run_coroutine.
  rewrite Hsend. cbn. rewrite Hjson. cbn. rewrite E401, E400, Elt. cbn.
  destruct Hmissing as [Hmissing | Hmissing]; rewrite Hmissing; cbn;
    [reflexivity |].
  destruct (dict_get "access_token" body); reflexivity.
Qed.

Lemma token_exchange_missing_token_witness :
  let run := async_login "c445792" "17327"
               (start fresh_client login_without_refresh_token) in
  fst run = Raise KeyError /\ self (snd run) = fresh_client.
Proof.
  cbv zeta.
  change (async_login "c445792" "17327") with (_token_request password_grant).
  rewrite (@token_exchange_missing_token script script_world password_grant
             (start fresh_client login_without_refresh_token)
             {| resp_status := 200; resp_json := Ok (JObj [("access_token", JStr "a1")]) |}
             {| clock := 100; replies := [] |}
             [("access_token", JStr "a1")]
             eq_refl eq_refl ltac:(cbn; lia) (or_intror eq_refl)).
  split; reflexivity.
Defined.

(* ================================================================== *)
(** * Further properties of the token store and the pre-check          *)
(* ================================================================== *)

(** X10.  Restored tokens count as valid for less than 120 seconds: when
    [restore_tokens] returns (its [expires_in] is above the negative of the
    float limit) at clock reading [t0], [is_authenticated] at reading [t1]
    is true exactly when [t1 < t0 + min(expires_in, 300) - 180]; it is false
    from [t0 + 120] on, and false at once (on a clock that does not run
    backwards) when [expires_in] is 180 or less. *)
Theorem restored_tokens_valid_window {W : Type} `{World W}
    (s : state W) (access refresh : string) (expires_in : Z) :
  - FLOAT_LIMIT < expires_in ->
  let t0 := fst (time_time (world s)) in
  let s' := snd (restore_tokens access refresh expires_in s) in
  let t1 := fst (time_time (world s')) in
  fst (restore_tokens access refresh expires_in s) = Ok tt
  /\ fst (is_authenticated s')
     = Ok (Qltb t1 (t0 + inject_Z (Z.min expires_in 300) - inject_Z 180))
  /\ ((t0 + inject_Z 120 <= t1)%Q -> fst (is_authenticated s') = Ok false)
  /\ (expires_in <= 180 -> (t0 <= t1)%Q -> fst (is_authenticated s') = Ok false).
Proof.
  intros Hrange t0 s' t1.
  pose proof FLOAT_LIMIT_large as Hlimit.
  assert (Hrestore : restore_tokens access refresh expires_in s
                     = (Ok tt,
                        {| self := with_token_expiry
                                     (t0 + inject_Z (Z.min expires_in 300))
                                     (with_refresh_token (JStr refresh)
                                        (with_access_token (JStr access) (self s)));
                           world := snd (time_time (world s));
                           history := history s |})).
  { rewrite restore_tokens_eq. cbv zeta. now rewrite float_of_int_ok by lia. }
  assert (Hrun : fst (is_authenticated s')
                 = Ok (Qltb t1 (t0 + inject_Z (Z.min expires_in 300) - inject_Z 180))).
  { subst t1 s'. rewrite is_authenticated_eq, Hrestore. reflexivity. }
  split; [now rewrite Hrestore |]. split; [exact Hrun |]. split.
  - intros Hlate. rewrite Hrun. f_equal. apply Qltb_ge.
    assert (Hmin : (inject_Z (Z.min expires_in 300) <= inject_Z 300)%Q)
      by (rewrite <- Zle_Qle; apply Z.le_min_r).
    assert (E : (inject_Z 300 - inject_Z 180 == inject_Z 120)%Q) by reflexivity.
    lra.
  - intros Hshort Hmono. rewrite Hrun. f_equal. apply Qltb_ge.
    assert (Hmin : (inject_Z (Z.min expires_in 300) <= inject_Z 180)%Q).
    { rewrite <- Zle_Qle. lia. }
    lra.
Qed.

Lemma restored_tokens_valid_window_witness :
  fst (is_authenticated
         (snd (restore_tokens "access" "refresh" 100
                 (start fresh_client {| clock := 100; replies := [] |}))))
  = Ok false.
Proof.
  destruct (restored_tokens_valid_window
              (start fresh_client {| clock := 100; replies := [] |})
              "access" "refresh" 100 ltac:(vm_compute; reflexivity))
    as (_ & _ & _ & Hshort).
  apply Hshort; [lia | vm_compute; discriminate].
Defined.

(** X11.  Once a token counts as expired it stays expired: if
    [is_authenticated] is false at one clock reading, it is false for the
    same client at every later reading. *)
Theorem expired_stays_expired {W : Type} `{World W} (s s' : state W) :
  fst (is_authenticated s) = Ok false ->
  self s' = self s ->
  (fst (time_time (world s)) <= fst (time_time (world s')))%Q ->
  fst (is_authenticated s') = Ok false.
Proof.
  rewrite !is_authenticated_eq. intros Hexpired Hself Hlater. rewrite Hself.
  destruct (_access_token (self s)); cbn in *; try reflexivity;
    injection Hexpired as Hexpired; f_equal; apply Qltb_ge;
    (destruct (Qlt_le_dec (fst (time_time (world s)))
               (_token_expiry (self s) - inject_Z TOKEN_REFRESH_BUFFER)) as [Hlt | Hge];
     [apply Qltb_lt in Hlt; congruence | lra]).
Qed.

Lemma expired_stays_expired_witness :
  fst (is_authenticated (start expired_client {| clock := 500; replies := [] |})) = Ok false.
Proof.
  apply (expired_stays_expired (start expired_client {| clock := 100; replies := [] |})
           (start expired_client {| clock := 500; replies := [] |}));
    [reflexivity | reflexivity | cbn; lra].
Defined.

Section PreCheck.
Context {W : Type} `{World W}.

Lemma ensure_token_without_tokens (s : state W) :
  fst (is_authenticated s) = Ok false ->
  truthy (_refresh_token (self s)) = false ->
  _ensure_token s = (Raise (AlulaAuthError NO_TOKENS), snd (is_authenticated s)).
Proof.
  intros Hexpired Hnone.
  destruct (is_authenticated_effect s) as (b & _ & Hself & _).
  unfold _ensure_token. unfold bind at 1.
  destruct (is_authenticated s) as [valid s0]. cbn in Hexpired, Hself |- *. subst valid.
  unfold bind, get_self. now rewrite Hself, Hnone.
Qed.
End PreCheck.

(** X12.  With a valid token the pre-check calls nothing: [_ensure_token]
    returns with the client and the history as they were. *)
Theorem ensure_token_valid_is_silent {W : Type} `{World W} (s : state W) :
  fst (is_authenticated s) = Ok true ->
  exists s', _ensure_token s = (Ok tt, s')
             /\ self s' = self s /\ history s' = history s.
Proof.
  intros Hvalid. exists (snd (is_authenticated s)).
  split; [now apply ensure_token_valid |].
  destruct (is_authenticated_effect s) as (_ & _ & Hself & Hhistory). auto.
Qed.

Lemma ensure_token_valid_is_silent_witness :
  exists s', _ensure_token (start signed_in {| clock := 100; replies := [] |}) = (Ok tt, s')
             /\ self s' = signed_in /\ history s' = [].
Proof.
  apply (ensure_token_valid_is_silent (start signed_in {| clock := 100; replies := [] |})).
  reflexivity.
Defined.

(** X13.  Without a valid access token and without a refresh token every
    request, whatever its method and path, raises the AlulaAuthError that
    tells the caller to log in first, and neither calls the session nor
    changes the client. *)
Theorem request_without_tokens {W : Type} `{World W}
    (s : state W) (method path : string) (json_data params : json) :
  fst (is_authenticated s) = Ok false ->
  truthy (_refresh_token (self s)) = false ->
  exists s', _request method path json_data params s = (Raise (AlulaAuthError NO_TOKENS), s')
             /\ self s' = self s /\ history s' = history s.
Proof.
  intros Hexpired Hnone. exists (snd (is_authenticated s)).
  split.
  - unfold _request.
    now rewrite (bind_raise _ _ _ _ _ (ensure_token_without_tokens s Hexpired Hnone)).
  - destruct (is_authenticated_effect s) as (_ & _ & Hself & Hhistory). auto.
Qed.

Lemma request_without_tokens_witness :
  exists s', _request "GET" "/api/v1/devices" JNull JNull
               (start fresh_client {| clock := 100; replies := [replied 200 (JObj [])] |})
             = (Raise (AlulaAuthError NO_TOKENS), s')
             /\ self s' = fresh_client /\ history s' = [].
Proof.
  apply (request_without_tokens
           (start fresh_client {| clock := 100; replies := [replied 200 (JObj [])] |})
           "GET" "/api/v1/devices" JNull JNull); reflexivity.
Defined.

(* ================================================================== *)
(** * Further properties of the request pipeline                       *)
(* ================================================================== *)

Section ValidToken.
Context {W : Type} `{World W}.

(** With a valid token the pre-check leaves the client and the history as
    they were. *)
Lemma ensure_token_with_valid_token (s s1 : state W) :
  _ensure_token s = (Ok tt, s1) ->
  fst (is_authenticated s) = Ok true ->
  self s1 = self s /\ history s1 = history s.
Proof.
  intros Hensure Hvalid. rewrite (ensure_token_valid s Hvalid) in Hensure.
  injection Hensure as <-.
  destruct (is_authenticated_effect s) as (_ & _ & Hself & Hhistory). auto.
Qed.
End ValidToken.

(** X14.  Every status below 400 other than 401, not only 2xx, is a
    success: when the body decodes, [_request] returns it after that single
    attempt, in the state the pre-check left.  With a valid token the
    pre-check did nothing, so the client is unchanged and the attempt is the
    only call on the session. *)
Theorem request_returns_body_below_400 {W : Type} `{World W}
    (method path : string) (json_data params : json) (s s1 : state W)
    (r1 : response) (w2 : W) (body : json) :
  _ensure_token s = (Ok tt, s1) ->
  session_send (first_call (self s1) method path json_data params) (world s1)
    = (Responds r1, w2) ->
  resp_status r1 < 400 ->
  resp_status r1 <> 401 ->
  resp_json r1 = Ok body ->
  _request method path json_data params s
  = (Ok body,
     {| self := self s1; world := w2;
        history := (history s1
                    ++ [Http (first_call (self s1) method path json_data params)
                             (Responds r1)])%list |})
  /\ (fst (is_authenticated s) = Ok true ->
      self s1 = self s /\ history s1 = history s).
Proof.
  intros Hensure Hsend Hlt Hne Hbody. split.
  - rewrite (request_first_not_401 _ _ _ _ _ _ _ _ Hensure Hsend Hne). cbv zeta.
    assert (E : (400 <=? resp_status r1) = false) by (apply Z.leb_gt; lia).
    now rewrite E, Hbody.
  - now apply ensure_token_with_valid_token.
Qed.

Lemma request_returns_body_below_400_witness :
  let run := _request "GET" "/api/v1/devices" JNull JNull (start signed_in not_modified) in
  fst run = Ok (JObj [("data", JArr [])])
  /\ self (snd run) = signed_in
  /\ length (history (snd run)) = 1%nat.
Proof.
  cbv zeta.
  destruct (@request_returns_body_below_400 script script_world
              "GET" "/api/v1/devices" JNull JNull
              (start signed_in not_modified) (start signed_in not_modified)
              {| resp_status := 304; resp_json := Ok (JObj [("data", JArr [])]) |}
              {| clock := 100; replies := [] |} (JObj [("data", JArr [])])
              ltac:(vm_compute; reflexivity) ltac:(vm_compute; reflexivity)
              ltac:(cbn; lia) ltac:(cbn; lia) eq_refl) as [Hrun _].
  rewrite Hrun. repeat split.
Defined.

Section Failures.
Context {W : Type} `{World W}.

Lemma request_first_throws method path json_data params (s s1 : state W) e w2 :
  _ensure_token s = (Ok tt, s1) ->
  session_send (first_call (self s1) method path json_data params) (world s1)
    = (Throws e, w2) ->
  _request method path json_data params s
  = classify method path e
      (sent s1 (first_call (self s1) method path json_data params) (Throws e) w2).
Proof.
  intros Hensure Hsend.
  unfold _request. rewrite (bind_ok _ _ _ _ _ Hensure).
  unfold get_self at 1. unfold bind at 1.
  fold (first_call (self s1) method path json_data params).
  unfold try_except.
  now rewrite (bind_raise _ _ _ _ _ (send_eq _ _ _ _ Hsend)).
Qed.

Lemma classify_client_error method path e (s : state W) :
  is_ClientError e = true ->
  classify method path e s = (Raise (connection_error method path e), s).
Proof.
  intros He. unfold classify, connection_error. rewrite He.
  now destruct e.
Qed.
End Failures.

(** X15.  When the session raises on the first attempt, an
    aiohttp.ClientError becomes an AlulaConnectionError whose message names
    the method and the path and whose cause is the original; any other
    exception (a timeout, say) leaves [_request] as it is.  Either way there
    is that one attempt, in the state the pre-check left; with a valid token
    the pre-check did nothing, so the client is unchanged and the attempt is
    the only call on the session. *)
Theorem request_transport_failure {W : Type} `{World W}
    (method path : string) (json_data params : json) (s s1 : state W)
    (e : exn) (w2 : W) :
  _ensure_token s = (Ok tt, s1) ->
  session_send (first_call (self s1) method path json_data params) (world s1)
    = (Throws e, w2) ->
  let s2 := {| self := self s1; world := w2;
               history := (history s1
                           ++ [Http (first_call (self s1) method path json_data params)
                                    (Throws e)])%list |} in
  (is_ClientError e = true ->
   _request method path json_data params s
   = (Raise (AlulaConnectionError
               ("Connection error: " +:+ method +:+ " " +:+ path +:+ ": ") e), s2))
  /\ (is_ClientError e = false ->
      _request method path json_data params s = (Raise e, s2))
  /\ (fst (is_authenticated s) = Ok true ->
      self s1 = self s /\ history s1 = history s).
Proof.
  intros Hensure Hsend s2.
  rewrite (request_first_throws _ _ _ _ _ _ _ _ Hensure Hsend).
  change (sent s1 (first_call (self s1) method path json_data params) (Throws e) w2)
    with s2.
  split; [| split].
  - apply classify_client_error.
  - apply classify_foreign.
  - now apply ensure_token_with_valid_token.
Qed.

Lemma request_transport_failure_witness :
  (let run := _request "GET" "/api/v1/devices" JNull JNull
                (start signed_in connection_reset) in
   fst run = Raise (AlulaConnectionError "Connection error: GET /api/v1/devices: "
                      (ClientError "Connection reset by peer"))
   /\ self (snd run) = signed_in
   /\ length (history (snd run)) = 1%nat)
  /\ fst (_request "GET" "/api/v1/devices" JNull JNull (start signed_in timed_out))
     = Raise (OtherError "TimeoutError").
Proof.
  split.
  - destruct (@request_transport_failure script script_world
                "GET" "/api/v1/devices" JNull JNull
                (start signed_in connection_reset) (start signed_in connection_reset)
                (ClientError "Connection reset by peer") {| clock := 100; replies := [] |}
                ltac:(vm_compute; reflexivity) ltac:(vm_compute; reflexivity))
      as [Hclient _].
    cbv zeta. rewrite (Hclient eq_refl). repeat split.
  - destruct (@request_transport_failure script script_world
                "GET" "/api/v1/devices" JNull JNull
                (start signed_in timed_out) (start signed_in timed_out)
                (OtherError "TimeoutError") {| clock := 100; replies := [] |}
                ltac:(vm_compute; reflexivity) ltac:(vm_compute; reflexivity))
      as (_ & Hother & _).
    now rewrite (Hother eq_refl).
Defined.

(** X16.  A response with a status below 400 whose body does not decode:
    when [json()] raises an aiohttp.ClientError (a wrong content type)
    [_request] raises AlulaConnectionError although the server was reached;
    when it raises anything else, that exception leaves [_request] as it
    is. *)
Theorem request_undecodable_body {W : Type} `{World W}
    (method path : string) (json_data params : json) (s s1 : state W)
    (r1 : response) (w2 : W) (e : exn) :
  _ensure_token s = (Ok tt, s1) ->
  session_send (first_call (self s1) method path json_data params) (world s1)
    = (Responds r1, w2) ->
  resp_status r1 < 400 ->
  resp_status r1 <> 401 ->
  resp_json r1 = Raise e ->
  is_AlulaAuthError e = false ->
  _request method path json_data params s
  = (Raise (if is_ClientError e then connection_error method path e else e),
     sent s1 (first_call (self s1) method path json_data params) (Responds r1) w2).
Proof.
  intros Hensure Hsend Hlt Hne Hbody Hauth.
  rewrite (request_first_not_401 _ _ _ _ _ _ _ _ Hensure Hsend Hne). cbv zeta.
  assert (E : (400 <=? resp_status r1) = false) by (apply Z.leb_gt; lia).
  rewrite E, Hbody. unfold classify, connection_error, raise. rewrite Hauth.
  now destruct (is_ClientError e).
Qed.

Lemma request_undecodable_body_witness :
  fst (_request "GET" "/api/v1/devices" JNull JNull (start signed_in html_body))
  = Raise (AlulaConnectionError "Connection error: GET /api/v1/devices: "
             (ClientError "unexpected mimetype: text/html")).
Proof.
  rewrite (@request_undecodable_body script script_world
             "GET" "/api/v1/devices" JNull JNull
             (start signed_in html_body) (start signed_in html_body)
             {| resp_status := 200;
                resp_json := Raise (ClientError "unexpected mimetype: text/html") |}
             {| clock := 100; replies := [] |}
             (ClientError "unexpected mimetype: text/html")
             ltac:(vm_compute; reflexivity) ltac:(vm_compute; reflexivity)
             ltac:(cbn; lia) ltac:(cbn; lia) eq_refl eq_refl).
  reflexivity.
Defined.

Lemma lookup_set_same {V : Type} (k : string) (v : V) (d : list (string * V)) :
  lookup_key k (dict_set k v d) = Some v.
Proof.
  induction d as [| [k' v'] rest IH]; cbn.
  - now rewrite String.eqb_refl.
  - destruct (String.eqb k k') eqn:E; cbn.
    + now rewrite String.eqb_refl.
    + now rewrite E.
Qed.

Lemma lookup_set_other {V : Type} (k k0 : string) (v : V) (d : list (string * V)) :
  k0 <> k -> lookup_key k0 (dict_set k v d) = lookup_key k0 d.
Proof.
  intros Hne. induction d as [| [k' v'] rest IH]; cbn.
  - apply String.eqb_neq in Hne. now rewrite Hne.
  - destruct (String.eqb k k') eqn:E; cbn.
    + apply String.eqb_eq in E. subst k'.
      apply String.eqb_neq in Hne. now rewrite Hne.
    + now rewrite IH.
Qed.

Lemma dict_set_present_keys {V : Type} (k : string) (v v0 : V) (d : list (string * V)) :
  lookup_key k d = Some v0 -> map fst (dict_set k v d) = map fst d.
Proof.
  induction d as [| [k' v'] rest IH]; cbn; [discriminate |].
  destruct (String.eqb k k') eqn:E; cbn.
  - apply String.eqb_eq in E. now subst.
  - intros Hrest. now rewrite IH.
Qed.

Section Refresh.
Context {W : Type} `{World W}.

(** Every token request begins with its post to the token endpoint. *)
Lemma token_request_first_event (kwargs : list (string * json)) (s : state W) :
  exists o rest,
    history (snd (_token_request kwargs s))
    = (history s ++ Http (token_call (self s) kwargs) o :: rest)%list.
Proof.
  destruct (_token_request kwargs s) as [r s'] eqn:E.
  unfold _token_request, bind, try_except, get_self, send, raise_for_status,
    lift, raise, ret, set_self, now, debug, emit in E.
  cbn in E. fold (token_call (self s) kwargs) in E.
  run_match E.
  all: inversion E; subst; clear E; cbn.
  all: rewrite <- ?app_assoc; eexists; eexists; reflexivity.
Qed.
End Refresh.

(** X18.  [async_refresh] posts the grant "refresh_token" with the client's
    id and secret and with the token it was given; a token that is [None]
    or empty makes it post the stored one. *)
Theorem refresh_posts_chosen_token {W : Type} `{World W}
    (supplied : json) (s : state W) :
  truthy (py_or supplied (_refresh_token (self s))) = true ->
  let chosen := if truthy supplied then supplied else _refresh_token (self s) in
  exists c o rest,
    history (snd (async_refresh supplied s)) = (history s ++ Http c o :: rest)%list
    /\ dict_get "grant_type" (call_data c) = Some (JStr "refresh_token")
    /\ dict_get "refresh_token" (call_data c) = Some chosen
    /\ dict_get "client_id" (call_data c) = Some (JStr (_client_id (self s)))
    /\ dict_get "client_secret" (call_data c) = Some (JStr (_client_secret (self s))).
Proof.
  intros Htoken chosen.
  unfold async_refresh, bind, get_self. rewrite Htoken. cbn [negb].
  destruct (token_request_first_event
              [("grant_type", JStr "refresh_token");
               ("refresh_token", py_or supplied (_refresh_token (self s)))] s)
    as (o & rest & Hhistory).
  eexists. exists o, rest. split; [exact Hhistory |].
  subst chosen. unfold py_or. repeat split; reflexivity.
Qed.

Lemma refresh_posts_chosen_token_witness :
  exists c o rest,
    history (snd (async_refresh (JStr "")
                    (start signed_in {| clock := 100; replies := [] |})))
    = Http c o :: rest
    /\ dict_get "refresh_token" (call_data c) = Some (JStr "r0").
Proof.
  destruct (@refresh_posts_chosen_token script script_world (JStr "")
              (start signed_in {| clock := 100; replies := [] |}) eq_refl)
    as (c & o & rest & Hhistory & _ & Htoken & _).
  exists c, o, rest. split; [exact Hhistory | exact Htoken].
Defined.

(* ================================================================== *)
(** * What the request pipeline keeps                                  *)
(* ================================================================== *)

Section Trace.
Context {W : Type} `{World W}.

Lemma same_configuration_refl (c : AlulaClient) : same_configuration c c.
Proof. repeat split. Qed.

Lemma same_configuration_trans (c1 c2 c3 : AlulaClient) :
  same_configuration c1 c2 -> same_configuration c2 c3 -> same_configuration c1 c3.
Proof.
  intros (A1 & A2 & A3 & A4 & A5) (B1 & B2 & B3 & B4 & B5).
  repeat split; congruence.
Qed.

(** What a token request leaves behind: one post, to the token endpoint,
    and a client with the same configuration. *)
Lemma token_request_trace kwargs (s : state W) :
  exists evs,
    history (snd (_token_request kwargs s)) = (history s ++ evs)%list
    /\ same_configuration (self s) (self (snd (_token_request kwargs s)))
    /\ attempts evs = []
    /\ length (token_posts evs) = 1%nat
    /\ Forall (token_post_to (_oauth_url (self s))) (token_posts evs).
Proof.
  destruct (_token_request kwargs s) as [r s'] eqn:E.
  unfold _token_request, bind, try_except, get_self, send, raise_for_status,
    lift, raise, ret, set_self, now, debug, emit in E.
  cbn in E.
  run_match E.
  all: inversion E; subst; clear E; cbn.
  all: rewrite <- ?app_assoc; eexists; (split; [reflexivity |]); cbn.
  all: repeat split.
  all: repeat constructor; eexists; eexists; eexists; reflexivity.
Qed.

Lemma async_refresh_trace supplied (s : state W) :
  exists evs,
    history (snd (async_refresh supplied s)) = (history s ++ evs)%list
    /\ same_configuration (self s) (self (snd (async_refresh supplied s)))
    /\ attempts evs = []
    /\ (length (token_posts evs) <= 1)%nat
    /\ Forall (token_post_to (_oauth_url (self s))) (token_posts evs).
Proof.
  unfold async_refresh, bind, get_self.
  destruct (negb (truthy (py_or supplied (_refresh_token (self s))))).
  - exists []. cbn. rewrite app_nil_r.
    repeat split; auto.
  - destruct (token_request_trace
                [("grant_type", JStr "refresh_token");
                 ("refresh_token", py_or supplied (_refresh_token (self s)))] s)
      as (evs & Hh & Hc & Ha & Hn & Hp).
    exists evs. repeat split; auto; try apply Hc. lia.
Qed.

Lemma ensure_token_trace (s : state W) :
  exists evs,
    history (snd (_ensure_token s)) = (history s ++ evs)%list
    /\ same_configuration (self s) (self (snd (_ensure_token s)))
    /\ attempts evs = []
    /\ (length (token_posts evs) <= 1)%nat
    /\ Forall (token_post_to (_oauth_url (self s))) (token_posts evs).
Proof.
  destruct (_ensure_token s) as [r s'] eqn:E. cbn [snd]. revert E.
  destruct (is_authenticated_effect s) as (b & Hb & Hself & Hh).
  unfold _ensure_token. unfold bind at 1.
  destruct (is_authenticated s) as [valid s0]. cbn in Hb, Hh, Hself. subst valid.
  destruct b.
  - intros [= <- <-]. exists []. rewrite app_nil_r, Hself, Hh.
    repeat split; auto.
  - unfold bind at 1, get_self at 1.
    destruct (truthy (_refresh_token (self s0))).
    + unfold debug, emit. unfold bind at 1. unfold bind at 1.
      set (s2 := {| self := self s0; world := world s0;
                    history := (history s0 ++ [LogDebug "Access token expired, refreshing" []])%list |}).
      destruct (async_refresh_trace JNull s2) as (evs & Hh3 & Hc & Ha & Hn & Hp).
      destruct (async_refresh JNull s2) as [rr s3]. cbn [snd] in *.
      intros E.
      assert (s' = s3) as -> by (destruct rr; cbn in E; unfold ret in E; congruence).
      exists (LogDebug "Access token expired, refreshing" [] :: evs).
      subst s2. cbn in Hh3, Hc, Hp.
      rewrite Hh3, Hh, <- app_assoc. rewrite Hself in Hc, Hp. cbn.
      repeat split; auto; apply Hc.
    + intros [= <- <-]. exists []. rewrite app_nil_r, Hself, Hh.
      repeat split; auto.
Qed.

Lemma request_ensure_raises method path json_data params (s s1 : state W) e :
  _ensure_token s = (Raise e, s1) ->
  _request method path json_data params s = (Raise e, s1).
Proof.
  intros Hensure. unfold _request. now rewrite (bind_raise _ _ _ _ _ Hensure).
Qed.

Lemma Forall_attempts_one base_url method path json_data params headers o :
  Forall (attempt_of base_url method path json_data params)
         [Http (SessionRequest method (base_url +:+ path) headers json_data params) o].
Proof. repeat constructor. now exists headers, o. Qed.

(** What one request leaves behind. *)
Lemma request_trace method path json_data params (s : state W) :
  exists evs,
    history (snd (_request method path json_data params s)) = (history s ++ evs)%list
    /\ same_configuration (self s) (self (snd (_request method path json_data params s)))
    /\ (length (attempts evs) <= 2)%nat
    /\ (length (token_posts evs) <= 2)%nat
    /\ Forall (attempt_of (_base_url (self s)) method path json_data params) (attempts evs)
    /\ Forall (token_post_to (_oauth_url (self s))) (token_posts evs)
    /\ (forall j, fst (_request method path json_data params s) = Ok j ->
        (1 <= length (attempts evs))%nat).
Proof.
  destruct (ensure_token_trace s) as (evs0 & Hh0 & Hc0 & Ha0 & Hn0 & Hp0).
  destruct (_ensure_token s) as [[[] | e] s1] eqn:Hensure; cbn [snd] in *.
  2:{ rewrite (request_ensure_raises _ _ _ _ _ _ _ Hensure). cbn [fst snd].
      exists evs0. rewrite Ha0. cbn.
      repeat split; auto; try apply Hc0; try lia; discriminate. }
  pose proof Hc0 as (_ & _ & Hbase & Hoauth & _).
  set (call1 := first_call (self s1) method path json_data params).
  destruct (session_send call1 (world s1)) as [[r1 | e] w2] eqn:Hsend.
  2:{ rewrite (request_first_throws _ _ _ _ _ _ _ _ Hensure Hsend).
      fold call1.
      exists (evs0 ++ [Http call1 (Throws e)])%list.
      rewrite classify_state. cbn [history self sent].
      rewrite Hh0, <- app_assoc, attempts_app, token_posts_app, Ha0. cbn.
      rewrite app_nil_r, Hbase.
      repeat split; auto; try apply Hc0; try lia;
        try apply Forall_attempts_one; intros; lia. }
  destruct (Z.eq_dec (resp_status r1) 401) as [H401 | Hnot].
  - rewrite (request_first_401 _ _ _ _ _ _ _ _ Hensure Hsend H401). fold call1. cbv zeta.
    set (s2 := logged (sent s1 call1 (Responds r1) w2) _ _).
    destruct (async_refresh_trace JNull s2) as (evs3 & Hh3 & Hc3 & Ha3 & Hn3 & Hp3).
    assert (Hpre : history s2
                   = (history s ++ evs0 ++ [Http call1 (Responds r1);
                        LogDebug "Got 401, attempting token refresh and retry" []])%list).
    { subst s2. cbn. rewrite Hh0, <- !app_assoc. reflexivity. }
    assert (Hself2 : self s2 = self s1) by reflexivity.
    rewrite Hself2, <- Hoauth in Hp3. rewrite Hself2 in Hc3.
    assert (Hc : same_configuration (self s) (self (snd (async_refresh JNull s2))))
      by (eapply same_configuration_trans; [exact Hc0 | exact Hc3]).
    destruct (async_refresh JNull s2) as [[ti | e] s3]; cbn [snd] in *.
    + set (call2 := retry_call (self s1) (self s3) method path json_data params).
      destruct (session_send call2 (world s3)) as [o w4]. cbn [fst snd].
      exists (evs0 ++ [Http call1 (Responds r1);
                       LogDebug "Got 401, attempting token refresh and retry" []]
                   ++ evs3 ++ [Http call2 o])%list.
      assert (Hsnd : snd (match o with
                      | Throws e => classify method path e (sent s3 call2 o w4)
                      | Responds r2 =>
                          if resp_status r2 =? 401
                          then (Raise (AlulaAuthError "Authentication failed after refresh"),
                                sent s3 call2 o w4)
                          else if 400 <=? resp_status r2
                          then (Raise (connection_error method path
                                         (ClientResponseError (resp_status r2))),
                                sent s3 call2 o w4)
                          else match resp_json r2 with
                               | Ok j => (Ok j, sent s3 call2 o w4)
                               | Raise e => classify method path e (sent s3 call2 o w4)
                               end
                      end) = sent s3 call2 o w4).
      { destruct o as [r2 | e2]; [| apply classify_state].
        destruct (resp_status r2 =? 401); [reflexivity |].
        destruct (400 <=? resp_status r2); [reflexivity |].
        destruct (resp_json r2); [reflexivity | apply classify_state]. }
      rewrite Hsnd. cbn [history self sent].
      rewrite Hh3, Hpre, <- !app_assoc.
      rewrite !attempts_app, !token_posts_app, Ha0, Ha3.
      cbn [attempts token_posts List.filter is_attempt is_token_post app call1 call2
           first_call retry_call].
      rewrite ?app_nil_r, Hbase.
      split; [reflexivity |]. split; [exact Hc |].
      split; [cbn; lia |]. split; [rewrite !length_app; cbn; lia |].
      split; [repeat constructor; eexists; eexists; reflexivity |].
      split; [| intros; cbn; lia].
      repeat (apply Forall_app; split); try assumption; constructor.
    + exists (evs0 ++ [Http call1 (Responds r1);
                       LogDebug "Got 401, attempting token refresh and retry" []]
                   ++ evs3)%list.
      rewrite classify_state.
      rewrite Hh3, Hpre, <- !app_assoc.
      rewrite !attempts_app, !token_posts_app, Ha0, Ha3.
      cbn [attempts token_posts List.filter is_attempt is_token_post app call1 first_call].
      rewrite ?app_nil_r, Hbase.
      split; [reflexivity |]. split; [exact Hc |].
      split; [cbn; lia |]. split; [rewrite !length_app; cbn; lia |].
      split; [apply Forall_attempts_one |].
      split; [| intros; cbn; lia].
      repeat (apply Forall_app; split); try assumption; constructor.
  - rewrite (request_first_not_401 _ _ _ _ _ _ _ _ Hensure Hsend Hnot). fold call1. cbv zeta.
    exists (evs0 ++ [Http call1 (Responds r1)])%list.
    assert (Hsnd : snd (if 400 <=? resp_status r1
                        then (Raise (connection_error method path
                                       (ClientResponseError (resp_status r1))),
                              sent s1 call1 (Responds r1) w2)
                        else match resp_json r1 with
                             | Ok j => (Ok j, sent s1 call1 (Responds r1) w2)
                             | Raise e => classify method path e (sent s1 call1 (Responds r1) w2)
                             end) = sent s1 call1 (Responds r1) w2).
    { destruct (400 <=? resp_status r1); [reflexivity |].
      destruct (resp_json r1); [reflexivity | apply classify_state]. }
    rewrite Hsnd. cbn [history self sent].
    rewrite Hh0, <- app_assoc, attempts_app, token_posts_app, Ha0. cbn.
    rewrite app_nil_r, Hbase.
    repeat split; auto; try apply Hc0; try lia;
      try apply Forall_attempts_one; intros; lia.
Qed.
End Trace.


Section Headers.
Context {W : Type} `{World W}.

Lemma first_call_headers (c : AlulaClient) (method path : string) (json_data params : json) :
  first_headers (_access_token c) json_data
    (call_headers (first_call c method path json_data params)).
Proof.
  unfold first_headers, first_call, call_headers, request_headers.
  destruct json_data; repeat split.
Qed.

Lemma retry_call_headers (c c' : AlulaClient) (method path : string)
    (json_data params : json) :
  retry_headers (_access_token c')
    (call_headers (first_call c method path json_data params))
    (call_headers (retry_call c c' method path json_data params)).
Proof.
  unfold retry_headers, first_call, retry_call, call_headers.
  split; [apply lookup_set_same |]. split.
  - intros k Hk. now apply lookup_set_other.
  - eapply dict_set_present_keys. apply (first_call_headers c method path json_data params).
Qed.
End Headers.

(** X17.  The headers [_request] sends.  Once the pre-check has returned,
    the call makes one or two attempts.  The first carries Authorization
    "Bearer " followed by the access token the client holds after the
    pre-check, Accept, User-Agent, and Content-Type exactly when there is a
    JSON body.  A second attempt (the retry after a 401) carries the same
    header names in the same order and the same values, except for
    Authorization, which holds the access token the client ends with. *)
Theorem retry_changes_only_authorization {W : Type} `{World W}
    (method path : string) (json_data params : json) (s s1 : state W) :
  _ensure_token s = (Ok tt, s1) ->
  let s' := snd (_request method path json_data params s) in
  exists evs,
    history s' = (history s1 ++ evs)%list
    /\ match attempts evs with
       | [Http (SessionRequest _ _ first _ _) _] =>
           first_headers (_access_token (self s1)) json_data first
       | [Http (SessionRequest _ _ first _ _) _; Http (SessionRequest _ _ again _ _) _] =>
           first_headers (_access_token (self s1)) json_data first
           /\ retry_headers (_access_token (self s')) first again
       | _ => False
       end.
Proof.
  intros Hensure. cbv zeta.
  set (call1 := first_call (self s1) method path json_data params).
  pose proof (first_call_headers (self s1) method path json_data params) as Hfirst.
  destruct (session_send call1 (world s1)) as [[r1 | e] w2] eqn:Hsend.
  2:{ rewrite (request_first_throws _ _ _ _ _ _ _ _ Hensure Hsend), classify_state.
      exists [Http call1 (Throws e)]. split; [reflexivity | exact Hfirst]. }
  destruct (Z.eq_dec (resp_status r1) 401) as [H401 | Hnot].
  - rewrite (request_first_401 _ _ _ _ _ _ _ _ Hensure Hsend H401). fold call1. cbv zeta.
    set (s2 := logged (sent s1 call1 (Responds r1) w2) _ _).
    destruct (async_refresh_trace JNull s2) as (evs3 & Hh3 & _ & Ha3 & _).
    assert (Hpre : history s2
                   = (history s1 ++ [Http call1 (Responds r1);
                        LogDebug "Got 401, attempting token refresh and retry" []])%list).
    { subst s2. cbn. now rewrite <- app_assoc. }
    destruct (async_refresh JNull s2) as [[ti | e] s3]; cbn [snd] in *.
    + set (call2 := retry_call (self s1) (self s3) method path json_data params).
      destruct (session_send call2 (world s3)) as [o w4]. cbn [fst snd].
      assert (Hsnd : snd (match o with
                      | Throws e => classify method path e (sent s3 call2 o w4)
                      | Responds r2 =>
                          if resp_status r2 =? 401
                          then (Raise (AlulaAuthError "Authentication failed after refresh"),
                                sent s3 call2 o w4)
                          else if 400 <=? resp_status r2
                          then (Raise (connection_error method path
                                         (ClientResponseError (resp_status r2))),
                                sent s3 call2 o w4)
                          else match resp_json r2 with
                               | Ok j => (Ok j, sent s3 call2 o w4)
                               | Raise e => classify method path e (sent s3 call2 o w4)
                               end
                      end) = sent s3 call2 o w4).
      { destruct o as [r2 | e2]; [| apply classify_state].
        destruct (resp_status r2 =? 401); [reflexivity |].
        destruct (400 <=? resp_status r2); [reflexivity |].
        destruct (resp_json r2); [reflexivity | apply classify_state]. }
      rewrite Hsnd. cbn [history self sent].
      exists ([Http call1 (Responds r1);
               LogDebug "Got 401, attempting token refresh and retry" []]
                ++ evs3 ++ [Http call2 o])%list.
      split; [rewrite Hh3, Hpre, <- !app_assoc; reflexivity |].
      rewrite !attempts_app, Ha3. cbn.
      split; [exact Hfirst |].
      apply (retry_call_headers (self s1) (self s3) method path json_data params).
    + rewrite classify_state.
      exists ([Http call1 (Responds r1);
               LogDebug "Got 401, attempting token refresh and retry" []] ++ evs3)%list.
      split; [rewrite Hh3, Hpre, <- !app_assoc; reflexivity |].
      rewrite attempts_app, Ha3. cbn. exact Hfirst.
  - rewrite (request_first_not_401 _ _ _ _ _ _ _ _ Hensure Hsend Hnot). fold call1. cbv zeta.
    exists [Http call1 (Responds r1)].
    assert (Hsnd : snd (if 400 <=? resp_status r1
                        then (Raise (connection_error method path
                                       (ClientResponseError (resp_status r1))),
                              sent s1 call1 (Responds r1) w2)
                        else match resp_json r1 with
                             | Ok j => (Ok j, sent s1 call1 (Responds r1) w2)
                             | Raise e => classify method path e (sent s1 call1 (Responds r1) w2)
                             end) = sent s1 call1 (Responds r1) w2).
    { destruct (400 <=? resp_status r1); [reflexivity |].
      destruct (resp_json r1); [reflexivity | apply classify_state]. }
    rewrite Hsnd. split; [reflexivity | exact Hfirst].
Qed.

Lemma retry_changes_only_authorization_witness :
  let s' := snd (_request "GET" "/api/v1/devices" JNull JNull
                   (start signed_in refresh_then_ok)) in
  map (fun ev => match ev with
                 | Http c _ => lookup_key "Authorization" (call_headers c)
                 | _ => None
                 end) (attempts (history s'))
  = [Some (bearer (JStr "a0")); Some (bearer (_access_token (self s')))]
  /\ _access_token (self s') = JStr "a1".
Proof.
  cbv zeta.
  destruct (@retry_changes_only_authorization script script_world
              "GET" "/api/v1/devices" JNull JNull
              (start signed_in refresh_then_ok) (start signed_in refresh_then_ok)
              ltac:(vm_compute; reflexivity)) as (evs & Hhistory & Hheaders).
  cbv zeta in Hhistory, Hheaders.
  assert (Htoken : _access_token
                     (self (snd (_request "GET" "/api/v1/devices" JNull JNull
                                   (start signed_in refresh_then_ok)))) = JStr "a1")
    by (vm_compute; reflexivity).
  split; [| exact Htoken].
  rewrite Hhistory. cbn [start history app].
  assert (Hevs : attempts evs
                 = attempts (history (snd (_request "GET" "/api/v1/devices" JNull JNull
                                             (start signed_in refresh_then_ok)))))
    by (now rewrite Hhistory).
  destruct (attempts evs) as [| [[| m1 u1 h1 j1 p1] o1 |] [| [[| m2 u2 h2 j2 p2] o2 |] [|]]];
    try contradiction.
  - vm_compute in Hevs. discriminate.
  - destruct Hheaders as [(Hauth1 & _) (Hauth2 & _)].
    cbn. now rewrite Hauth1, Hauth2.
Defined.

(** X19.  A request never changes the client's id, secret, base URL, token
    URL or user id, whatever the session answers: only the tokens and their
    expiry can differ afterwards.  The history is only appended to. *)
Theorem request_keeps_configuration {W : Type} `{World W}
    (method path : string) (json_data params : json) (s : state W) :
  same_configuration (self s) (self (snd (_request method path json_data params s)))
  /\ exists evs,
       history (snd (_request method path json_data params s)) = (history s ++ evs)%list.
Proof.
  destruct (request_trace method path json_data params s) as (evs & Hh & Hc & _).
  split; [exact Hc | now exists evs].
Qed.

(** X20.  Every call [_request] makes on the session is either an attempt
    of the very request it was given (same method, URL, body and query, on
    the client's base URL) or a post to the client's token URL.  There are
    at most two attempts and at most two token posts, and a request that
    returns a body made at least one attempt. *)
Theorem request_stays_on_its_endpoint {W : Type} `{World W}
    (method path : string) (json_data params : json) (s : state W) :
  exists evs,
    history (snd (_request method path json_data params s)) = (history s ++ evs)%list
    /\ Forall (attempt_of (_base_url (self s)) method path json_data params) (attempts evs)
    /\ Forall (token_post_to (_oauth_url (self s))) (token_posts evs)
    /\ (length (attempts evs) <= 2)%nat
    /\ (length (token_posts evs) <= 2)%nat
    /\ (forall j, fst (_request method path json_data params s) = Ok j ->
        (1 <= length (attempts evs))%nat).
Proof.
  destruct (request_trace method path json_data params s)
    as (evs & Hh & _ & Ha & Ht & Hfa & Hft & Hok).
  exists evs. repeat split; assumption.
Qed.

(* ================================================================== *)
(** * Users, devices and the event log                                 *)
(* ================================================================== *)

Section Listings.
Context {W : Type} `{World W}.

Lemma get_devices_run (s s1 : state W) (r : result json) :
  _request "GET" DEVICES_PATH JNull devices_params s = (r, s1) ->
  async_get_devices s
  = (let* body := r in
     let* data := py_get body "data" (JArr []) in
     let* items := py_iter data in
     map_result Device_.from_api items, s1).
Proof.
  intros E. unfold async_get_devices, bind, lift. rewrite E.
  destruct r as [body | e]; cbn; [| reflexivity].
  destruct (py_get body "data" (JArr [])) as [data | e]; cbn; [| reflexivity].
  destruct (py_iter data); reflexivity.
Qed.

Lemma device_from_api_of_record (data : json) :
  is_record data = true -> exists d, Device_.from_api data = Ok d /\ raw d = data.
Proof.
  unfold is_record. destruct data as [| | | | | | data_]; try discriminate.
  destruct (get_or "attributes" (JObj []) data_) as [| | | | | | attrs_] eqn:E;
    try discriminate.
  intros _. destruct (device_from_api_total data_ attrs_ E) as (d & Hd & _).
  exists d. split; [exact Hd |].
  now destruct (from_api_record _ _ Hd) as (_ & _ & _ & Hraw).
Qed.

Lemma device_from_api_not_record (data : json) :
  is_record data = false -> Device_.from_api data = Raise AttributeError.
Proof.
  unfold is_record, Device_.from_api.
  destruct data as [| | | | | | data_]; try reflexivity. cbn.
  destruct (get_or "attributes" (JObj []) data_); try reflexivity; discriminate.
Qed.

Lemma devices_of_records (items : list json) :
  forallb is_record items = true ->
  exists devices, map_result Device_.from_api items = Ok devices /\ map raw devices = items.
Proof.
  induction items as [| item rest IH]; cbn.
  - now exists [].
  - intros [Hitem Hrest]%andb_prop.
    destruct (device_from_api_of_record item Hitem) as (d & Hd & Hraw).
    destruct (IH Hrest) as (ds & Hds & Hraws).
    exists (d :: ds). rewrite Hd, Hds. cbn. now rewrite Hraw, Hraws.
Qed.

Lemma devices_not_all_records (items : list json) :
  forallb is_record items = false ->
  map_result Device_.from_api items = Raise AttributeError.
Proof.
  induction items as [| item rest IH]; cbn; [discriminate |].
  destruct (is_record item) eqn:Hitem; cbn.
  - intros Hrest.
    destruct (device_from_api_of_record item Hitem) as (d & Hd & _).
    rewrite Hd, (IH Hrest). reflexivity.
  - intros _. now rewrite (device_from_api_not_record item Hitem).
Qed.

Lemma panel_is_no_camera (d : Device) : is_panel d = true -> is_camera d = false.
Proof. unfold is_panel, is_camera. now destruct (device_type d). Qed.
End Listings.

(** X21.  [async_get_devices] decodes the items of "data" in order and keeps
    each one as the [raw] of its device; a response without "data" gives the
    empty list.  One item that is not a record (not a dict, or with
    "attributes" that are not a dict) fails the whole listing with
    AttributeError. *)
Theorem devices_listing_keeps_raw_items {W : Type} `{World W}
    (s s1 : state W) (body : list (string * json)) (items : list json) :
  _request "GET" DEVICES_PATH JNull devices_params s = (Ok (JObj body), s1) ->
  get_or "data" (JArr []) body = JArr items ->
  (forallb is_record items = true ->
   exists devices, async_get_devices s = (Ok devices, s1) /\ map raw devices = items)
  /\ (forallb is_record items = false ->
      async_get_devices s = (Raise AttributeError, s1)).
Proof.
  intros Hrequest Hdata. rewrite (get_devices_run _ _ _ Hrequest). cbn.
  rewrite Hdata. cbn. split.
  - intros Hall. destruct (devices_of_records items Hall) as (devices & Hds & Hraw).
    exists devices. now rewrite Hds.
  - intros Hsome. now rewrite (devices_not_all_records items Hsome).
Qed.

Lemma devices_listing_keeps_raw_items_witness :
  (exists devices,
     async_get_devices (start signed_in devices_feed)
     = (Ok devices, snd (_request "GET" DEVICES_PATH JNull devices_params
                           (start signed_in devices_feed)))
     /\ map raw devices = [device_record "dev-1" [("isPanel", JBool true)];
                           device_record "dev-2" [("isCamera", JBool true)];
                           device_record "dev-3" []])
  /\ fst (async_get_devices (start signed_in broken_devices_feed)) = Raise AttributeError.
Proof.
  split.
  - apply (@devices_listing_keeps_raw_items script script_world
             (start signed_in devices_feed) _ _ _
             ltac:(vm_compute; reflexivity) eq_refl).
    reflexivity.
  - destruct (@devices_listing_keeps_raw_items script script_world
                (start signed_in broken_devices_feed) _ _ _
                ltac:(vm_compute; reflexivity) eq_refl) as [_ Hbroken].
    now rewrite (Hbroken eq_refl).
Defined.

(** X22.  [async_get_panels] and [async_get_cameras] return, in the order of
    the listing, exactly the devices whose type is PANEL and exactly those
    whose type is CAMERA: no device is in both, and a device of unknown
    type is in neither. *)
Theorem panels_and_cameras_partition {W : Type} `{World W}
    (s s1 : state W) (devices : list Device) :
  async_get_devices s = (Ok devices, s1) ->
  exists panels cameras,
    async_get_panels s = (Ok panels, s1)
    /\ async_get_cameras s = (Ok cameras, s1)
    /\ (forall d, In d panels <-> In d devices /\ device_type d = DeviceType.PANEL)
    /\ (forall d, In d cameras <-> In d devices /\ device_type d = DeviceType.CAMERA)
    /\ (forall d, In d panels -> ~ In d cameras)
    /\ (length panels + length cameras <= length devices)%nat.
Proof.
  intros Hdevices.
  exists (List.filter is_panel devices), (List.filter is_camera devices).
  split; [unfold async_get_panels, bind, ret; now rewrite Hdevices |].
  split; [unfold async_get_cameras, bind, ret; now rewrite Hdevices |].
  split; [| split; [| split]].
  - intros d. rewrite List.filter_In. unfold is_panel.
    split; intros [Hin Ht]; (split; [exact Hin |]);
      now destruct (device_type d).
  - intros d. rewrite List.filter_In. unfold is_camera.
    split; intros [Hin Ht]; (split; [exact Hin |]);
      now destruct (device_type d).
  - intros d [_ Hp]%List.filter_In [_ Hc]%List.filter_In.
    rewrite (panel_is_no_camera d Hp) in Hc. discriminate.
  - clear Hdevices. induction devices as [| d rest IH]; cbn; [lia |].
    destruct (is_panel d) eqn:Hp.
    + rewrite (panel_is_no_camera d Hp). cbn. lia.
    + destruct (is_camera d); cbn; lia.
Qed.

Lemma panels_and_cameras_partition_witness :
  exists panels cameras,
    async_get_panels (start signed_in devices_feed)
    = (Ok panels, snd (async_get_devices (start signed_in devices_feed)))
    /\ async_get_cameras (start signed_in devices_feed)
       = (Ok cameras, snd (async_get_devices (start signed_in devices_feed)))
    /\ (forall d, In d panels -> ~ In d cameras).
Proof.
  destruct (@panels_and_cameras_partition script script_world
              (start signed_in devices_feed) _
              (listed devices_feed) ltac:(vm_compute; reflexivity))
    as (panels & cameras & Hp & Hc & _ & _ & Hdisjoint & _).
  exists panels, cameras. repeat split; assumption.
Defined.

Section Users.
Context {W : Type} `{World W}.

Lemma get_user_run (s s1 : state W) (r : result json) :
  _request "GET" SELF_PATH JNull self_params s = (r, s1) ->
  async_get_user s
  = match (let* body := r in
           let* data := py_get body "data" (JObj []) in
           User_.from_api data) with
    | Ok user => (Ok user, user_id_set (u_id user) s1)
    | Raise e => (Raise e, s1)
    end.
Proof.
  intros E. unfold async_get_user, bind, lift, set_self, ret, user_id_set. rewrite E.
  destruct r as [body | e]; cbn; [| reflexivity].
  destruct (py_get body "data" (JObj [])) as [data | e]; cbn; [| reflexivity].
  destruct (User_.from_api data); reflexivity.
Qed.
End Users.

(** X23.  [async_get_user] stores the id of the user it returns as the
    client's user id; when it raises, whether in the request or in the
    decoding, the stored user id is the one from before.  The rest of the
    configuration is never touched. *)
Theorem get_user_stores_user_id {W : Type} `{World W} (s : state W) :
  let s' := snd (async_get_user s) in
  match fst (async_get_user s) with
  | Ok user => _user_id (self s') = u_id user
  | Raise _ => _user_id (self s') = _user_id (self s)
  end
  /\ _client_id (self s') = _client_id (self s)
  /\ _client_secret (self s') = _client_secret (self s)
  /\ _base_url (self s') = _base_url (self s)
  /\ _oauth_url (self s') = _oauth_url (self s).
Proof.
  cbv zeta.
  destruct (request_trace "GET" SELF_PATH JNull self_params s)
    as (evs & _ & (Hid & Hsecret & Hbase & Hoauth & Huser) & _).
  destruct (_request "GET" SELF_PATH JNull self_params s) as [r s1] eqn:Hrequest.
  rewrite (get_user_run _ _ _ Hrequest). cbn [snd] in *.
  destruct (let* body := r in
            let* data := py_get body "data" (JObj []) in User_.from_api data)
    as [user | e]; cbn; auto.
Qed.

(** X24.  A response to the user request that carries no "data" is not an
    error: [async_get_user] returns the user built from an empty dict (empty
    id, dealer and type, language "en") and overwrites the stored user id
    with the empty string. *)
Theorem get_user_without_data {W : Type} `{World W}
    (s s1 : state W) (body : list (string * json)) :
  _request "GET" SELF_PATH JNull self_params s = (Ok (JObj body), s1) ->
  dict_get "data" body = None ->
  async_get_user s = (Ok EMPTY_USER, user_id_set (JStr "") s1).
Proof.
  intros Hrequest Hdata. rewrite (get_user_run _ _ _ Hrequest). cbn.
  unfold get_or. rewrite Hdata. reflexivity.
Qed.

Lemma get_user_without_data_witness :
  fst (async_get_user (start signed_in bare_reply)) = Ok EMPTY_USER
  /\ _user_id (self (snd (async_get_user (start signed_in bare_reply)))) = JStr "".
Proof.
  rewrite (@get_user_without_data script script_world
             (start signed_in bare_reply) _ [] ltac:(vm_compute; reflexivity) eq_refl).
  split; reflexivity.
Defined.

(** X25.  Every attempt [async_get_event_log] makes is a GET of the device's
    event log, newest first, with the page size the decimal text of
    [limit]; the date filter is sent exactly when [since] is true, so
    neither for [None] nor for the empty string. *)
Theorem event_log_request_shape {W : Type} `{World W}
    (device_id : string) (limit : Z) (since : json) (s : state W) :
  (exists evs,
     history (snd (async_get_event_log device_id limit since s)) = (history s ++ evs)%list
     /\ Forall (attempt_of (_base_url (self s)) "GET" (eventlog_path device_id) JNull
                           (JObj (event_log_params limit since)))
               (attempts evs))
  /\ dict_get "page[size]" (event_log_params limit since) = Some (JStr (str_int limit))
  /\ dict_get "sort" (event_log_params limit since) = Some (JStr "-dateEntered")
  /\ dict_get "filter[dateEntered][$gt]" (event_log_params limit since)
     = if truthy since then Some since else None.
Proof.
  split.
  - destruct (request_trace "GET" (eventlog_path device_id) JNull
                (JObj (event_log_params limit since)) s)
      as (evs & Hh & _ & _ & _ & Hfa & _).
    exists evs. split; [| exact Hfa]. rewrite <- Hh.
    unfold async_get_event_log, eventlog_path, bind, lift.
    destruct (_request _ _ _ _ s) as [[body | e] s1]; cbn; [| reflexivity].
    destruct (py_get body "data" (JArr [])) as [data | e]; cbn; [| reflexivity].
    destruct (py_iter data); reflexivity.
  - unfold event_log_params. destruct (truthy since); repeat split; reflexivity.
Qed.

(* ================================================================== *)
(** * Zone subscriptions and discovery, further                        *)
(* ================================================================== *)

Section Zones.
Context {W : Type} `{World W}.

Lemma get_zones_state (s : state W) :
  snd (async_get_zones s) = snd (_request "GET" ZONES_PATH JNull zones_params s).
Proof.
  unfold async_get_zones, zones_params, bind, lift.
  destruct (_request _ _ _ _ s) as [[body | e] s1]; cbn; [| reflexivity].
  destruct (py_get body "data" (JArr [])) as [data | e]; cbn; [| reflexivity].
  destruct (py_iter data); reflexivity.
Qed.

Lemma succeeded_bounds (rs : list bool) : 0 <= succeeded rs <= Z.of_nat (length rs).
Proof.
  unfold succeeded. pose proof (List.filter_length_le (fun b : bool => b) rs). lia.
Qed.

Lemma missing_keys_length (device_id : string) (existing_keys : list (json * json * json))
    (zone_indices : list Z) :
  (length (missing_keys device_id existing_keys zone_indices)
   <= 2 * length zone_indices)%nat.
Proof.
  unfold missing_keys.
  induction zone_indices as [| zone_idx rest IH]; cbn [flat_map length]; [lia |].
  rewrite length_app.
  pose proof (List.filter_length_le
                (fun key : Z * bool =>
                   negb (key_in device_id (fst key) (snd key) existing_keys))
                [(zone_idx, true); (zone_idx, false)]) as Hle.
  cbn [length] in Hle. lia.
Qed.

End Zones.

(** X26.  When fetching the existing subscriptions fails,
    [async_ensure_zone_subscriptions] raises that error as it is: unlike a
    failed create it is not swallowed, and no create has been attempted,
    the only attempts on the session being the GETs of the listing. *)
Theorem ensure_subscriptions_fetch_failure {W : Type} `{World W}
    (device_id : string) (zone_indices : list Z) (s : state W) (e : exn) :
  fst (async_get_zones s) = Raise e ->
  async_ensure_zone_subscriptions device_id zone_indices s
  = (Raise e, snd (async_get_zones s))
  /\ exists evs,
       history (snd (async_get_zones s)) = (history s ++ evs)%list
       /\ Forall (attempt_of (_base_url (self s)) "GET" ZONES_PATH JNull zones_params)
                 (attempts evs).
Proof.
  intros Hfetch. split.
  - unfold async_ensure_zone_subscriptions.
    apply bind_raise. destruct (async_get_zones s) as [r s1]. cbn in *. now subst r.
  - rewrite get_zones_state.
    destruct (request_trace "GET" ZONES_PATH JNull zones_params s)
      as (evs & Hh & _ & _ & _ & Hfa & _).
    now exists evs.
Qed.

Lemma ensure_subscriptions_fetch_failure_witness :
  fst (async_ensure_zone_subscriptions "dev-1" [3; 5] (start signed_in server_error))
  = Raise (connection_error "GET" ZONES_PATH (ClientResponseError 500)).
Proof.
  destruct (@ensure_subscriptions_fetch_failure script script_world
              "dev-1" [3; 5] (start signed_in server_error)
              (connection_error "GET" ZONES_PATH (ClientResponseError 500))
              ltac:(vm_compute; reflexivity)) as [Hraise _].
  now rewrite Hraise.
Defined.

(** X27.  The count [async_ensure_zone_subscriptions] returns is never
    negative and never more than two per requested zone index; for an empty
    list of indices it is 0. *)
Theorem ensure_subscriptions_count_bounds {W : Type} `{World W}
    (device_id : string) (zone_indices : list Z) (s s' : state W) (created : Z) :
  async_ensure_zone_subscriptions device_id zone_indices s = (Ok created, s') ->
  0 <= created <= 2 * Z.of_nat (length zone_indices).
Proof.
  unfold async_ensure_zone_subscriptions. unfold bind at 1.
  destruct (async_get_zones s) as [[existing | e] s1]; [| discriminate].
  unfold bind at 1, lift at 1.
  destruct (map_result zone_key existing) as [existing_keys | e]; [| discriminate].
  rewrite for_zone_idx_run. cbv zeta.
  pose proof (issue_creates_length device_id
                (missing_keys device_id existing_keys zone_indices) s1) as Hlength.
  destruct (issue_creates device_id _ s1) as [[rs [err |]] s2]; cbn [fst snd loop_result];
    [discriminate |].
  intros [= <- _].
  pose proof (succeeded_bounds rs) as Hs. cbn [fst] in Hlength.
  pose proof (missing_keys_length device_id existing_keys zone_indices). lia.
Qed.

Lemma ensure_subscriptions_count_bounds_witness :
  0 <= 1 <= 2 * Z.of_nat (length [3]).
Proof.
  apply (@ensure_subscriptions_count_bounds script script_world
           "dev-1" [3] (start signed_in conflict_feed) _ 1
           ltac:(vm_compute; reflexivity)).
Defined.

(** X28.  Every zone index [async_discover_zones] returns is a positive
    integer, and every value of the mapping is a dict with exactly the keys
    "zone_name" and "zone_type", in that order. *)
Theorem discovered_zones_are_positive {W : Type} `{World W} `{Unicode}
    (device_id : string) (s s' : state W) (zones : gmap Z json) :
  async_discover_zones device_id s = (Ok zones, s') ->
  forall k info,
    zones !! k = Some info ->
    0 < k
    /\ exists zone_name zone_type,
         info = JObj [("zone_name", zone_name); ("zone_type", zone_type)].
Proof.
  intros Hrun k info Hlookup.
  destruct (_request "GET" (eventlog_path device_id) JNull eventlog_params s)
    as [[response_body | e] s1] eqn:Hrequest.
  2:{ unfold async_discover_zones in Hrun.
      fold (eventlog_path device_id) in Hrun. fold eventlog_params in Hrun.
      rewrite (bind_raise _ _ _ _ _ Hrequest) in Hrun. discriminate. }
  rewrite (discover_zones_run _ _ _ _ Hrequest) in Hrun.
  destruct (page_entries response_body) as [entries | e]; [| discriminate].
  cbn in Hrun.
  destruct (scan_entries entries ∅) as [zones' | e] eqn:Hscan; [| discriminate].
  injection Hrun as <- _.
  rewrite (scan_entries_lookup _ _ _ Hscan k), lookup_empty in Hlookup.
  apply first_contribution_spec in Hlookup
    as (pre & entry & post & _ & Hcontributes & _).
  destruct Hcontributes
    as (entry_ & attrs & digits & ds & _ & _ & _ & _ & Hdigits & Hvalue & Hnonzero & ->).
  split.
  - pose proof (decimal_value_nonneg ds 0 ltac:(lia) (decimals_bounds _ _ Hdigits)). lia.
  - unfold zone_info. eauto.
Qed.

Lemma discovered_zones_are_positive_witness :
  0 < 3
  /\ exists zone_name zone_type,
       JObj [("zone_name", JStr "Front Door"); ("zone_type", JStr "door")]
       = JObj [("zone_name", zone_name); ("zone_type", zone_type)].
Proof.
  apply (@discovered_zones_are_positive script script_world sample_unicode
           "dev-1" (start signed_in eventlog_reply) _ example_zones
           ltac:(vm_compute; reflexivity) 3).
  vm_compute. reflexivity.
Defined.

(* ================================================================== *)
(** * RPC calls, further                                               *)
(* ================================================================== *)

Section RpcResults.
Context {W : Type} `{World W}.

Lemma rpc_result_run (rpc_method : string) (params : json) (path : string)
    (s s2 : state W) (response_body : list (string * json)) :
  _request "POST" path (rpc_payload (fst (uuid_uuid4 (world s))) rpc_method params) JNull
           (after_uuid s) = (Ok (JObj response_body), s2) ->
  dict_get "error" response_body = None ->
  _rpc rpc_method params path s = (Ok (get_or "result" (JObj []) response_body), s2).
Proof.
  intros Hrequest Herror. unfold _rpc.
  rewrite (bind_ok _ _ _ _ _ (uuid4_run s)).
  fold (rpc_payload (fst (uuid_uuid4 (world s))) rpc_method params).
  rewrite (bind_ok _ _ _ _ _ Hrequest).
  unfold bind, lift. cbn. rewrite Herror. reflexivity.
Qed.

Lemma rpc_state (rpc_method : string) (params : json) (path : string) (s : state W) :
  snd (_rpc rpc_method params path s)
  = snd (_request "POST" path
           (rpc_payload (fst (uuid_uuid4 (world s))) rpc_method params) JNull
           (after_uuid s)).
Proof.
  unfold _rpc. rewrite (bind_ok _ _ _ _ _ (uuid4_run s)).
  fold (rpc_payload (fst (uuid_uuid4 (world s))) rpc_method params).
  unfold bind at 1.
  destruct (_request _ _ _ _ (after_uuid s)) as [[body | e] s1]; cbn [snd];
    [| reflexivity].
  unfold bind, lift, raise.
  destruct (py_in "error" body) as [[|] | e]; cbn; [| | reflexivity].
  - destruct (subscript body "error") as [err | e]; cbn; [| reflexivity].
    destruct (py_get err "code" JNull); reflexivity.
  - destruct (py_get body "result" (JObj [])); reflexivity.
Qed.
End RpcResults.

(** X29.  [async_renew_notifications], for a response without an "error"
    member: it returns the "success" member of the result as it is, and
    False when the response has no result or the result has no "success";
    a result that is not a dict (the bare value true, say) makes it raise
    AttributeError. *)
Theorem renew_notifications_result {W : Type} `{World W}
    (ttl : Z) (s s2 : state W) (response_body : list (string * json)) :
  _request "POST" "/rpc/v1"
           (rpc_payload (fst (uuid_uuid4 (world s))) "events.notifications.renew"
                        (renew_params ttl)) JNull
           (after_uuid s) = (Ok (JObj response_body), s2) ->
  dict_get "error" response_body = None ->
  (dict_get "result" response_body = None ->
   async_renew_notifications ttl s = (Ok (JBool false), s2))
  /\ (forall r, dict_get "result" response_body = Some (JObj r) ->
        async_renew_notifications ttl s = (Ok (get_or "success" (JBool false) r), s2))
  /\ (forall v, dict_get "result" response_body = Some v ->
        (forall r, v <> JObj r) ->
        async_renew_notifications ttl s = (Raise AttributeError, s2)).
Proof.
  intros Hrequest Herror.
  assert (Hrun : async_renew_notifications ttl s
                 = (py_get (get_or "result" (JObj []) response_body)
                           "success" (JBool false), s2)).
  { unfold async_renew_notifications. fold (renew_params ttl).
    now rewrite (bind_ok _ _ _ _ _ (rpc_result_run _ _ _ _ _ _ Hrequest Herror)). }
  rewrite Hrun. unfold get_or. repeat split.
  - now intros ->.
  - now intros r ->.
  - intros v -> Hv. destruct v; try reflexivity. now destruct (Hv o).
Qed.

Lemma renew_notifications_result_witness :
  fst (async_renew_notifications 2419200
         (start signed_in (renew_reply (JObj [("success", JBool true)]))))
  = Ok (JBool true)
  /\ fst (async_renew_notifications 2419200 (start signed_in bare_reply))
     = Ok (JBool false)
  /\ fst (async_renew_notifications 2419200
            (start signed_in (renew_reply (JBool true))))
     = Raise AttributeError.
Proof.
  split; [| split].
  - destruct (@renew_notifications_result script script_world 2419200
                (start signed_in (renew_reply (JObj [("success", JBool true)]))) _ _
                ltac:(vm_compute; reflexivity) eq_refl) as (_ & Hdict & _).
    now rewrite (Hdict _ eq_refl).
  - destruct (@renew_notifications_result script script_world 2419200
                (start signed_in bare_reply) _ _
                ltac:(vm_compute; reflexivity) eq_refl) as (Hnone & _).
    now rewrite (Hnone eq_refl).
  - destruct (@renew_notifications_result script script_world 2419200
                (start signed_in (renew_reply (JBool true))) _ _
                ltac:(vm_compute; reflexivity) eq_refl) as (_ & _ & Hother).
    now rewrite (Hother _ eq_refl ltac:(discriminate)).
Defined.

(** X30.  An RPC call draws one uuid; every attempt it makes, the retry
    after a 401 included, is a POST to the RPC path, without a query, of the
    same envelope: the uuid in upper case as "id", the method, and the
    params, an empty dict when the params are None or empty. *)
Theorem rpc_posts_one_envelope {W : Type} `{World W}
    (rpc_method : string) (params : json) (path : string) (s : state W) :
  let envelope :=
    JObj [("id", JStr (upper (fst (uuid_uuid4 (world s)))));
          ("method", JStr rpc_method);
          ("params", if truthy params then params else JObj [])] in
  exists evs,
    history (snd (_rpc rpc_method params path s)) = (history s ++ evs)%list
    /\ Forall (attempt_of (_base_url (self s)) "POST" path envelope JNull) (attempts evs)
    /\ (length (attempts evs) <= 2)%nat.
Proof.
  cbv zeta. rewrite rpc_state.
  destruct (request_trace "POST" path
              (rpc_payload (fst (uuid_uuid4 (world s))) rpc_method params) JNull
              (after_uuid s)) as (evs & Hh & _ & Hn & _ & Hfa & _).
  exists evs. split; [exact Hh |]. split; [exact Hfa | exact Hn].
Qed.
